(** * mattermost-pagerduty-plugin: webhook correlation and action dispatch

    A shallow embedding of the server side of the plugin
    (server/pagerduty/pagerduty.go with the webhook and action handlers,
    the HTTP handlers and the PagerDuty client interface) and the
    properties of its specification.

    Conventions of the embedding:
    - a Go [string] is a Rocq [string] (a sequence of 8-bit characters), a
      [[]byte] is a list of [Z] in [0, 256), a [uint32] is a [Z] reduced
      modulo [2^32], an [int] is a [Z] that fits 64 bits, and a
      [time.Time] is an RFC 3339 text;
    - a Go [error] is an [option string] ([None] is [nil]); a call that
      returns a value and an error is a [result];
    - the plugin's methods run in a state monad over [World], which holds
      the plugin configuration, the Mattermost server state the plugin
      touches (posts and the key-value store), the answers of the
      collaborators the plugin only reads from, and the log of the
      mutating and remote calls it made;
    - calls to [p.API.LogDebug], [LogInfo] and [LogError] are left out:
      they change neither control flow nor the state above. *)

From Stdlib Require Import ZArith Ascii String List Lia.
From stdpp Require Import base option gmap strings list fin_maps pretty.
Import ListNotations.

Local Open Scope Z_scope.
Local Open Scope string_scope.

(** ** Bytes and strings *)

(** [[]byte(s)] *)
Definition bytes_of_string (s : string) : list Z :=
  map (fun c => Z.of_N (N_of_ascii c)) (list_ascii_of_string s).

(** [strings.HasPrefix(s, prefix)] *)
Fixpoint HasPrefix (s prefix : string) {struct prefix} : bool :=
  match prefix with
  | EmptyString => true
  | String p prefix' =>
      match s with
      | EmptyString => false
      | String c s' => Ascii.eqb c p && HasPrefix s' prefix'
      end
  end.

(** [s[n:]] *)
Fixpoint drop_chars (n : nat) (s : string) : string :=
  match n, s with
  | S n', String _ s' => drop_chars n' s'
  | _, _ => s
  end.

(** [strings.TrimPrefix(s, prefix)] *)
Definition TrimPrefix (s prefix : string) : string :=
  if HasPrefix s prefix then drop_chars (String.length prefix) s else s.

(** ** crypto/sha256 and crypto/hmac

    The two packages belong to Go's standard library. They are modelled
    after the generic block function of crypto/sha256 (FIPS 180-4) and
    after hmac.New / Write / Sum (RFC 2104), and checked below on the
    published test vectors. *)

Module SHA256.

Definition u32 (x : Z) : Z := x mod 2 ^ 32.

Definition add32 (x y : Z) : Z := u32 (x + y).

(** [bits.RotateLeft32(x, -n)] *)
Definition rotr (x n : Z) : Z :=
  Z.lor (Z.shiftr x n) (u32 (Z.shiftl x (32 - n))).

(** [^x] on a uint32 *)
Definition not32 (x : Z) : Z := Z.lxor x (2 ^ 32 - 1).

Definition chunk : nat := 64.

Definition _K : list Z :=
  [ 0x428A2F98; 0x71374491; 0xB5C0FBCF; 0xE9B5DBA5;
    0x3956C25B; 0x59F111F1; 0x923F82A4; 0xAB1C5ED5;
    0xD807AA98; 0x12835B01; 0x243185BE; 0x550C7DC3;
    0x72BE5D74; 0x80DEB1FE; 0x9BDC06A7; 0xC19BF174;
    0xE49B69C1; 0xEFBE4786; 0x0FC19DC6; 0x240CA1CC;
    0x2DE92C6F; 0x4A7484AA; 0x5CB0A9DC; 0x76F988DA;
    0x983E5152; 0xA831C66D; 0xB00327C8; 0xBF597FC7;
    0xC6E00BF3; 0xD5A79147; 0x06CA6351; 0x14292967;
    0x27B70A85; 0x2E1B2138; 0x4D2C6DFC; 0x53380D13;
    0x650A7354; 0x766A0ABB; 0x81C2C92E; 0x92722C85;
    0xA2BFE8A1; 0xA81A664B; 0xC24B8B70; 0xC76C51A3;
    0xD192E819; 0xD6990624; 0xF40E3585; 0x106AA070;
    0x19A4C116; 0x1E376C08; 0x2748774C; 0x34B0BCB5;
    0x391C0CB3; 0x4ED8AA4A; 0x5B9CCA4F; 0x682E6FF3;
    0x748F82EE; 0x78A5636F; 0x84C87814; 0x8CC70208;
    0x90BEFFFA; 0xA4506CEB; 0xBEF9A3F7; 0xC67178F2 ].

(** The eight words [h[0..7]] of a digest. *)
Record digest := mkDigest {
  h0 : Z; h1 : Z; h2 : Z; h3 : Z; h4 : Z; h5 : Z; h6 : Z; h7 : Z }.

Definition init : digest :=
  mkDigest 0x6A09E667 0xBB67AE85 0x3C6EF372 0xA54FF53A
           0x510E527F 0x9B05688C 0x1F83D9AB 0x5BE0CD19.

(** [w[i] = uint32(p[j])<<24 | uint32(p[j+1])<<16 | uint32(p[j+2])<<8 | uint32(p[j+3])]
    for the sixteen words of one chunk. *)
Fixpoint load_words (n : nat) (p : list Z) : list Z :=
  match n with
  | O => []
  | S n' =>
      match p with
      | b0 :: b1 :: b2 :: b3 :: rest =>
          Z.lor (Z.lor (Z.lor (Z.shiftl b0 24) (Z.shiftl b1 16)) (Z.shiftl b2 8)) b3
            :: load_words n' rest
      | _ => []
      end
  end.

(** The schedule is kept newest word first while it is extended, so
    [w[i-2]], [w[i-7]], [w[i-15]] and [w[i-16]] are at positions 1, 6,
    14 and 15. *)
Definition extend_step (rw : list Z) : list Z :=
  let v1 := nth 1 rw 0 in
  let t1 := Z.lxor (Z.lxor (rotr v1 17) (rotr v1 19)) (Z.shiftr v1 10) in
  let v2 := nth 14 rw 0 in
  let t2 := Z.lxor (Z.lxor (rotr v2 7) (rotr v2 18)) (Z.shiftr v2 3) in
  add32 (add32 (add32 t1 (nth 6 rw 0)) t2) (nth 15 rw 0) :: rw.

Definition schedule (p : list Z) : list Z :=
  rev (Nat.iter 48 extend_step (rev (load_words 16 p))).

(** One iteration of the loop [for i := 0; i < 64; i++]. *)
Definition round (s : digest) (kw : Z * Z) : digest :=
  let '(mkDigest a b c d e f g h) := s in
  let t1 :=
    add32 (add32 (add32 (add32 h
      (Z.lxor (Z.lxor (rotr e 6) (rotr e 11)) (rotr e 25)))
      (Z.lxor (Z.land e f) (Z.land (not32 e) g)))
      (fst kw)) (snd kw) in
  let t2 :=
    add32 (Z.lxor (Z.lxor (rotr a 2) (rotr a 13)) (rotr a 22))
          (Z.lxor (Z.lxor (Z.land a b) (Z.land a c)) (Z.land b c)) in
  mkDigest (add32 t1 t2) a b c (add32 d t1) e f g.

(** The body of [blockGeneric] for one chunk. *)
Definition block1 (s : digest) (p : list Z) : digest :=
  let r := fold_left round (combine _K (schedule p)) s in
  mkDigest (add32 (h0 s) (h0 r)) (add32 (h1 s) (h1 r))
           (add32 (h2 s) (h2 r)) (add32 (h3 s) (h3 r))
           (add32 (h4 s) (h4 r)) (add32 (h5 s) (h5 r))
           (add32 (h6 s) (h6 r)) (add32 (h7 s) (h7 r)).

(** [blockGeneric]: [for len(p) >= chunk { ...; p = p[chunk:] }],
    run on [n] chunks. *)
Fixpoint blocks (n : nat) (s : digest) (p : list Z) : digest :=
  match n with
  | O => s
  | S n' => blocks n' (block1 s (firstn chunk p)) (skipn chunk p)
  end.

(** Big-endian bytes of the low [8*n] bits of [x]. *)
Fixpoint be_bytes (n : nat) (x : Z) : list Z :=
  match n with
  | O => []
  | S n' => Z.land (Z.shiftr x (8 * Z.of_nat n')) 255 :: be_bytes n' x
  end.

(** [checkSum]: the padding is 0x80, zeros up to 56 modulo 64, and the
    length in bits as a big-endian uint64. *)
Definition pad (len : nat) : list Z :=
  let r := (len mod 64)%nat in
  let zeros := (if (r <? 56)%nat then 55 - r else 119 - r)%nat in
  128 :: (repeat 0 zeros ++ be_bytes 8 (Z.of_nat len * 8))%list.

Definition words (s : digest) : list Z :=
  [h0 s; h1 s; h2 s; h3 s; h4 s; h5 s; h6 s; h7 s].

(** [sha256.Sum256(data)], as a slice. *)
Definition Sum256 (data : list Z) : list Z :=
  let p := (data ++ pad (length data))%list in
  flat_map (be_bytes 4) (words (blocks (length p / 64) init p)).

End SHA256.

Module HMAC.

Definition blocksize : nat := 64.

(** [hmac.New(sha256.New, key)]: a key longer than the block size is
    hashed first; the key is then padded with zeros to the block size. *)
Definition key_block (key : list Z) : list Z :=
  let k := if (blocksize <? length key)%nat then SHA256.Sum256 key else key in
  (k ++ repeat 0 (blocksize - length k))%list.

Definition ipad (key : list Z) : list Z := map (Z.lxor 0x36) (key_block key).
Definition opad (key : list Z) : list Z := map (Z.lxor 0x5c) (key_block key).

(** [h := hmac.New(sha256.New, key); h.Write(msg); h.Sum(nil)] *)
Definition Sum (key msg : list Z) : list Z :=
  SHA256.Sum256 (opad key ++ SHA256.Sum256 (ipad key ++ msg))%list.

End HMAC.

(** ** encoding/hex *)

Definition hextable : string := "0123456789abcdef".

Definition hexdigit (n : Z) : ascii :=
  match String.get (Z.to_nat n) hextable with
  | Some c => c
  | None => "0"%char
  end.

(** [hex.EncodeToString(src)]: [hextable[v>>4]], [hextable[v&0x0f]] for
    every byte [v]. *)
Fixpoint EncodeToString (src : list Z) : string :=
  match src with
  | [] => ""
  | v :: rest =>
      String (hexdigit (Z.shiftr v 4))
        (String (hexdigit (Z.land v 15)) (EncodeToString rest))
  end.

(** ** Results and errors *)

Inductive result (A : Type) : Type :=
| Ok (a : A)
| Err (msg : string).
Arguments Ok {A} a.
Arguments Err {A} msg.

Definition rbind {A B} (r : result A) (f : A -> result B) : result B :=
  match r with
  | Ok a => f a
  | Err e => Err e
  end.

Notation "x <-? r ; k" := (rbind r (fun x => k))
  (at level 100, r at next level, right associativity).

(** [errors.Wrap(err, msg)] and [errors.New(msg + err.Error())] only
    build the text of the error. *)
Definition Wrap (err msg : string) : string := msg ++ ": " ++ err.

(** ** Decimal digits *)

Definition digit_value (c : ascii) : option Z :=
  let n := Z.of_N (N_of_ascii c) in
  if (48 <=? n)%Z && (n <=? 57)%Z then Some (n - 48) else None.

Fixpoint digits_value (acc : Z) (s : string) : option Z :=
  match s with
  | EmptyString => Some acc
  | String c r =>
      match digit_value c with
      | Some d => digits_value (acc * 10 + d) r
      | None => None
      end
  end.

(** ** int

    A Go [int] has 64 bits. *)

Definition fits_int (n : Z) : bool :=
  ((- 2 ^ 63 <=? n) && (n <=? 2 ^ 63 - 1))%Z.

Record int := mkInt { int_val : Z; int_fits : Is_true (fits_int int_val) }.

(** ** time.Time

    A [time.Time] is kept as the text it was read from, and only a text
    that [Time.UnmarshalJSON] reads can be a [time.Time]. The texts are
    those of RFC 3339, which [parseRFC3339] reads: a date, "T", a time of
    day, an optional point and fraction of a second, and "Z" or an
    offset, every number in its range; and the two looser forms that
    [time.Parse], to which [Time.UnmarshalJSON] falls back, reads as
    well: an hour of one digit, and a comma before the fraction. An
    offset of 24 hours or of 60 minutes, which [time.Parse] may read and
    [Time.MarshalJSON] may refuse, is not represented, and neither is a
    text written with JSON escapes, which Go does not undo for a time.
    [json.Marshal] writes a time in the form of [Format_RFC3339] below,
    with the fraction when it is not zero; the text kept here is the one
    that was read, which reads back as the same time. *)

Module time.

(** [parseUint(s, min, max)] of [parseRFC3339], on two and on four
    digits. *)
Definition num2 (a b : ascii) (min max : Z) : option Z :=
  match digit_value a, digit_value b with
  | Some x, Some y =>
      let n := (x * 10 + y)%Z in
      if ((min <=? n) && (n <=? max))%Z then Some n else None
  | _, _ => None
  end.

Definition num4 (a b c d : ascii) : option Z :=
  match digit_value a, digit_value b, digit_value c, digit_value d with
  | Some x, Some y, Some z, Some u => Some (((x * 10 + y) * 10 + z) * 10 + u)%Z
  | _, _, _, _ => None
  end.

Definition isLeap (year : Z) : bool :=
  ((year mod 4 =? 0)
   && (negb (year mod 100 =? 0) || (year mod 400 =? 0)))%Z.

Definition daysIn (month year : Z) : Z :=
  if (month =? 2)%Z then (if isLeap year then 29 else 28)
  else if ((month =? 4) || (month =? 6) || (month =? 9) || (month =? 11))%Z
       then 30
  else 31.

(** What a text says: the date, the time of day, the digits of the
    fraction and the offset in seconds east of UTC. *)
Record parts := mkParts {
  year : Z; month : Z; day : Z;
  hour : Z; minute : Z; second : Z;
  fraction : string;
  offset : Z }.

Definition isDigit (c : ascii) : bool :=
  match digit_value c with Some _ => true | None => false end.

(** The digits at the head of a text, and what follows them. *)
Fixpoint digits_of (s : string) : string * string :=
  match s with
  | EmptyString => (EmptyString, EmptyString)
  | String c r =>
      if isDigit c then let '(d, rest) := digits_of r in (String c d, rest)
      else (EmptyString, s)
  end.

(** The hour: two digits, or one digit when no digit follows it. *)
Definition hour_of (s : string) : option (Z * string) :=
  match s with
  | String h1 (String h2 rest) =>
      if isDigit h2 then
        match num2 h1 h2 0 23 with
        | Some hour => Some (hour, rest)
        | None => None
        end
      else
        match digit_value h1 with
        | Some hour => Some (hour, String h2 rest)
        | None => None
        end
  | _ => None
  end.

(** The fractional second: a point or a comma and the digits after it,
    when a digit follows. *)
Definition fraction_of (s : string) : string * string :=
  match s with
  | String p (String d r) =>
      if (Ascii.eqb p "."%char || Ascii.eqb p ","%char) && isDigit d
      then digits_of (String d r)
      else (EmptyString, s)
  | _ => (EmptyString, s)
  end.

(** The time zone: "Z", or a sign, two digits of hours, a colon and two
    digits of minutes. *)
Definition zone_of (s : string) : option Z :=
  match s with
  | String z EmptyString => if Ascii.eqb z "Z"%char then Some 0%Z else None
  | String sign (String h1 (String h2 (String colon
      (String m1 (String m2 EmptyString))))) =>
      match num2 h1 h2 0 23, num2 m1 m2 0 59 with
      | Some hr, Some mm =>
          if negb (Ascii.eqb colon ":"%char) then None
          else if Ascii.eqb sign "+"%char then Some ((hr * 60 + mm) * 60)%Z
          else if Ascii.eqb sign "-"%char then Some (- ((hr * 60 + mm) * 60))%Z
          else None
      | _, _ => None
      end
  | _ => None
  end.

(** The minutes, the seconds, the fraction and the zone, after the
    hour. *)
Definition after_hour (year month day hour : Z) (s : string) : option parts :=
  match s with
  | String c4 (String i1 (String i2 (String c5 (String s1 (String s2 rest)))))
    =>
      match num2 i1 i2 0 59, num2 s1 s2 0 59 with
      | Some minute, Some second =>
          if Ascii.eqb c4 ":"%char && Ascii.eqb c5 ":"%char then
            let '(fraction, rest) := fraction_of rest in
            match zone_of rest with
            | Some offset =>
                Some (mkParts year month day hour minute second
                              fraction offset)
            | None => None
            end
          else None
      | _, _ => None
      end
  | _ => None
  end.

(** [parseRFC3339] and, for the looser forms, [Parse(RFC3339, s)]. *)
Definition parse (s : string) : option parts :=
  match s with
  | String y1 (String y2 (String y3 (String y4 (String c1
      (String m1 (String m2 (String c2
      (String d1 (String d2 (String c3 rest)))))))))) =>
      match num4 y1 y2 y3 y4, num2 m1 m2 1 12 with
      | Some year, Some month =>
          match num2 d1 d2 1 (daysIn month year), hour_of rest with
          | Some day, Some (hour, rest) =>
              if Ascii.eqb c1 "-"%char && Ascii.eqb c2 "-"%char
                 && Ascii.eqb c3 "T"%char
              then after_hour year month day hour rest
              else None
          | _, _ => None
          end
      | _, _ => None
      end
  | _ => None
  end.

Definition accepts (s : string) : bool :=
  match parse s with Some _ => true | None => false end.

Record Time := mkTime { text : string; accepted : Is_true (accepts text) }.

(** The zero [Time]: January 1, year 1, 00:00:00 UTC. *)
Definition zero : Time := mkTime "0001-01-01T00:00:00Z" I.

(** What [Time.UnmarshalJSON] reads from the text of a JSON string. *)
Definition of_text (s : string) : option Time :=
  match Is_true_dec (accepts s) with
  | left H => Some (mkTime s H)
  | right _ => None
  end.

(** The parts of a time; the texts of a [Time] all have parts. *)
Definition parts_of (t : Time) : parts :=
  match parse (text t) with
  | Some p => p
  | None => mkParts 1 1 1 0 0 0 EmptyString 0
  end.

(** [appendInt(b, x, 2)] and [appendInt(b, x, 4)] on a number that has
    no more digits. *)
Definition digit_char (n : Z) : ascii := ascii_of_N (Z.to_N (48 + n mod 10)).

Definition digits2 (n : Z) : string :=
  String (digit_char (n / 10)) (String (digit_char n) EmptyString).

Definition digits4 (n : Z) : string := digits2 (n / 100) ++ digits2 (n mod 100).

(** [t.Format(time.RFC3339)]: the date and the time of day, without the
    fraction, then "Z" for the offset zero and the signed hours and
    minutes of the offset otherwise. *)
Definition Format_RFC3339 (t : Time) : string :=
  let p := parts_of t in
  digits4 (year p) ++ "-" ++ digits2 (month p) ++ "-" ++ digits2 (day p)
  ++ "T" ++ digits2 (hour p) ++ ":" ++ digits2 (minute p) ++ ":"
  ++ digits2 (second p)
  ++ (if (offset p =? 0)%Z then "Z"
      else
        (if (offset p <? 0)%Z then "-" else "+")
        ++ digits2 (Z.abs (offset p) / 3600) ++ ":"
        ++ digits2 (Z.abs (offset p) / 60 mod 60)).

(** The days from January 1 of the year 1 to the date. *)
Definition days_since_year_1 (p : parts) : Z :=
  let y := (year p - 1)%Z in
  (365 * y + y / 4 - y / 100 + y / 400
   + nth (Z.to_nat (month p - 1))
         [0; 31; 59; 90; 120; 151; 181; 212; 243; 273; 304; 334] 0
   + (if isLeap (year p) && (2 <? month p) then 1 else 0)
   + (day p - 1))%Z.

(** [t.sec()]: the seconds from January 1 of the year 1, 00:00:00 UTC. *)
Definition sec (p : parts) : Z :=
  (days_since_year_1 p * 86400 + hour p * 3600 + minute p * 60 + second p
   - offset p)%Z.

(** [t.nsec() == 0]: the first nine digits of the fraction, the ones
    that are read, are zeros. *)
Fixpoint zeros (n : nat) (s : string) : bool :=
  match n, s with
  | S n', String c r => Ascii.eqb c "0"%char && zeros n' r
  | _, _ => true
  end.

(** [t.IsZero()] *)
Definition IsZero (t : Time) : bool :=
  (sec (parts_of t) =? 0)%Z && zeros 9 (fraction (parts_of t)).

End time.

Definition Time := time.Time.

(** ** server/pagerduty: the data model *)

Module User.
Record t := mk { ID : string; Name : string; Email : string }.
Definition zero : t := mk "" "" "".
End User.

Module Service.
Record t := mk { ID : string; Name : string }.
Definition zero : t := mk "" "".
End Service.

Module EscalationPolicy.
Record t := mk { ID : string; Name : string; HTMLURL : string }.
Definition zero : t := mk "" "" "".
End EscalationPolicy.

Module Assignment.
Record t := mk { Assignee : User.t; At : Time }.
Definition zero : t := mk User.zero time.zero.
End Assignment.

Module Incident.
Record t := mk {
  ID : string;
  IncidentNumber : int;
  Title : string;
  Description : string;
  Status : string;
  Urgency : string;
  CreatedAt : Time;
  Service : Service.t;
  Assignments : list Assignment.t;
  LastStatusChangeBy : User.t;
  LastStatusChangeAt : Time;
  AlertCount : int;
  HTMLURL : string;
  EscalationPolicy : EscalationPolicy.t }.
Definition zero : t :=
  mk "" (mkInt 0 I) "" "" "" "" time.zero Service.zero [] User.zero time.zero
     (mkInt 0 I) "" EscalationPolicy.zero.
End Incident.

Module V3Reference.
Record t := mk {
  HTMLURL : string; ID : string; Self : string; Summary : string;
  Type_ : string }.
Definition zero : t := mk "" "" "" "" "".
End V3Reference.

Module V3Event.
Record t := mk {
  ID : string;
  EventType : string;
  ResourceType : string;
  OccurredAt : string;
  Agent : V3Reference.t;
  Data : Incident.t }.
Definition zero : t := mk "" "" "" "" V3Reference.zero Incident.zero.
End V3Event.

Module V3WebhookPayload.
Record t := mk { Event : V3Event.t }.
Definition zero : t := mk V3Event.zero.
End V3WebhookPayload.

(** [LogEntries] and [Data] of a [WebhookMessage] are never read by the
    plugin and are not represented. *)
Module WebhookMessage.
Record t := mk {
  ID : string;
  Event : string;
  CreatedOn : Time;
  Incident : Incident.t }.
End WebhookMessage.

(** The payload of the earlier webhook format: a list of messages. *)
Module WebhookPayload.
Record t := mk { Messages : list WebhookMessage.t }.
End WebhookPayload.

Module PostAttachment.
Record t := mk {
  ID : string;
  PostID : string;
  ChannelID : string;
  Incident : Incident.t }.
Definition zero : t := mk "" "" "" Incident.zero.
End PostAttachment.

Module IncidentActionPayload.
Record t := mk {
  IncidentID : string;
  Action : string;
  UserID : string;
  AssigneeID : string }.
Definition zero : t := mk "" "" "" "".
End IncidentActionPayload.

(** ** encoding/json

    The bytes the plugin reads and writes as JSON are represented by the
    JSON value they encode; a number is an integer (a number with a
    fraction or an exponent, which [json.Unmarshal] refuses for an
    [int], is not represented). [json.Unmarshal] into a struct follows the key
    of every member of an object to the field with that tag, compared
    without regard to letter case, skips members that match no field,
    and leaves a field alone when its member is [null]. *)

Local Unset Elimination Schemes.
Inductive json : Type :=
| JNull
| JBool (b : bool)
| JNum (n : Z)
| JStr (s : string)
| JArr (l : list json)
| JObj (m : list (string * json)).
Local Set Elimination Schemes.

Definition lower_ascii (c : ascii) : ascii :=
  let n := N_of_ascii c in
  if ((65 <=? n) && (n <=? 90))%N then ascii_of_N (n + 32) else c.

Definition upper_ascii (c : ascii) : ascii :=
  let n := N_of_ascii c in
  if ((97 <=? n) && (n <=? 122))%N then ascii_of_N (n - 32) else c.

Fixpoint ToLower (s : string) : string :=
  match s with
  | EmptyString => EmptyString
  | String c r => String (lower_ascii c) (ToLower r)
  end.

(** [strings.EqualFold(s, t)], on ASCII letters. *)
Definition EqualFold (s t : string) : bool :=
  String.eqb (ToLower s) (ToLower t).

Module Json.

Definition type_error (what : string) : string :=
  "json: cannot unmarshal value into Go value of type " ++ what.

Definition string_ (v : json) (cur : string) : result string :=
  match v with
  | JNull => Ok cur
  | JStr s => Ok s
  | _ => Err (type_error "string")
  end.

(** A number that does not fit an [int] is refused. *)
Definition int_ (v : json) (cur : int) : result int :=
  match v with
  | JNull => Ok cur
  | JNum n =>
      match Is_true_dec (fits_int n) with
      | left H => Ok (mkInt n H)
      | right _ => Err (type_error "int")
      end
  | _ => Err (type_error "int")
  end.

(** [Time.UnmarshalJSON]: a string that is no time is refused. *)
Definition time_ (v : json) (cur : Time) : result Time :=
  match v with
  | JNull => Ok cur
  | JStr s =>
      match time.of_text s with
      | Some t => Ok t
      | None => Err ("parsing time " ++ s)
      end
  | _ => Err "Time.UnmarshalJSON: input is not a JSON string"
  end.

(** A struct: the members of the object are visited in order. *)
Definition struct_ {T} (field : string -> json -> T -> result T)
    (v : json) (cur : T) : result T :=
  match v with
  | JNull => Ok cur
  | JObj m =>
      fold_left (fun acc kv => x <-? acc; field (fst kv) (snd kv) x) m (Ok cur)
  | _ => Err (type_error "struct")
  end.

Fixpoint elements {T} (elem : json -> T -> result T) (zero : T)
    (l : list json) : result (list T) :=
  match l with
  | [] => Ok []
  | x :: r =>
      y <-? elem x zero; ys <-? elements elem zero r; Ok (y :: ys)
  end.

(** A slice: [null] gives the nil slice, an array gives its elements,
    each decoded into a fresh value. *)
Definition slice_ {T} (elem : json -> T -> result T) (zero : T)
    (v : json) (cur : list T) : result (list T) :=
  match v with
  | JNull => Ok []
  | JArr l => elements elem zero l
  | _ => Err (type_error "slice")
  end.

(** The folding encoding/json compares the name of a member with: the
    ASCII letters without regard to case, and the two letters outside
    ASCII that fold to an ASCII letter, the long s (U+017F, in UTF-8 the
    bytes C5 BF) to "s" and the Kelvin sign (U+212A, the bytes E2 84 AA)
    to "k". The tags of the plugin are ASCII. *)
Definition is_byte (n : N) (c : ascii) : bool := N.eqb (N_of_ascii c) n.

Fixpoint foldName (s : string) : string :=
  match s with
  | EmptyString => EmptyString
  | String c r =>
      match r with
      | String d r' =>
          if is_byte 197 c && is_byte 191 d then String "s"%char (foldName r')
          else
            match r' with
            | String e r'' =>
                if is_byte 226 c && is_byte 132 d && is_byte 170 e
                then String "k"%char (foldName r'')
                else String (lower_ascii c) (foldName r)
            | EmptyString => String (lower_ascii c) (foldName r)
            end
      | EmptyString => String (lower_ascii c) (foldName r)
      end
  end.

Definition tagged (key tag : string) : bool :=
  String.eqb (foldName key) (foldName tag).

Definition user_field (k : string) (v : json) (u : User.t) : result User.t :=
  if tagged k "id" then
    x <-? string_ v (User.ID u); Ok (User.mk x (User.Name u) (User.Email u))
  else if tagged k "name" then
    x <-? string_ v (User.Name u); Ok (User.mk (User.ID u) x (User.Email u))
  else if tagged k "email" then
    x <-? string_ v (User.Email u); Ok (User.mk (User.ID u) (User.Name u) x)
  else Ok u.
Definition user := struct_ user_field.

Definition service_field (k : string) (v : json) (s : Service.t)
    : result Service.t :=
  if tagged k "id" then
    x <-? string_ v (Service.ID s); Ok (Service.mk x (Service.Name s))
  else if tagged k "name" then
    x <-? string_ v (Service.Name s); Ok (Service.mk (Service.ID s) x)
  else Ok s.
Definition service := struct_ service_field.

Definition escalation_policy_field (k : string) (v : json)
    (e : EscalationPolicy.t) : result EscalationPolicy.t :=
  let '(EscalationPolicy.mk id name url) := e in
  if tagged k "id" then
    x <-? string_ v id; Ok (EscalationPolicy.mk x name url)
  else if tagged k "summary" then
    x <-? string_ v name; Ok (EscalationPolicy.mk id x url)
  else if tagged k "html_url" then
    x <-? string_ v url; Ok (EscalationPolicy.mk id name x)
  else Ok e.
Definition escalation_policy := struct_ escalation_policy_field.

Definition assignment_field (k : string) (v : json) (a : Assignment.t)
    : result Assignment.t :=
  let '(Assignment.mk who at_) := a in
  if tagged k "assignee" then
    x <-? user v who; Ok (Assignment.mk x at_)
  else if tagged k "at" then
    x <-? time_ v at_; Ok (Assignment.mk who x)
  else Ok a.
Definition assignment := struct_ assignment_field.

Definition incident_field (k : string) (v : json) (i : Incident.t)
    : result Incident.t :=
  let '(Incident.mk id num title desc status urg created svc asg by_ at_
          alerts url pol) := i in
  if tagged k "id" then
    x <-? string_ v id;
    Ok (Incident.mk x num title desc status urg created svc asg by_ at_ alerts url pol)
  else if tagged k "incident_number" then
    x <-? int_ v num;
    Ok (Incident.mk id x title desc status urg created svc asg by_ at_ alerts url pol)
  else if tagged k "title" then
    x <-? string_ v title;
    Ok (Incident.mk id num x desc status urg created svc asg by_ at_ alerts url pol)
  else if tagged k "description" then
    x <-? string_ v desc;
    Ok (Incident.mk id num title x status urg created svc asg by_ at_ alerts url pol)
  else if tagged k "status" then
    x <-? string_ v status;
    Ok (Incident.mk id num title desc x urg created svc asg by_ at_ alerts url pol)
  else if tagged k "urgency" then
    x <-? string_ v urg;
    Ok (Incident.mk id num title desc status x created svc asg by_ at_ alerts url pol)
  else if tagged k "created_at" then
    x <-? time_ v created;
    Ok (Incident.mk id num title desc status urg x svc asg by_ at_ alerts url pol)
  else if tagged k "service" then
    x <-? service v svc;
    Ok (Incident.mk id num title desc status urg created x asg by_ at_ alerts url pol)
  else if tagged k "assignments" then
    x <-? slice_ assignment Assignment.zero v asg;
    Ok (Incident.mk id num title desc status urg created svc x by_ at_ alerts url pol)
  else if tagged k "last_status_change_by" then
    x <-? user v by_;
    Ok (Incident.mk id num title desc status urg created svc asg x at_ alerts url pol)
  else if tagged k "last_status_change_at" then
    x <-? time_ v at_;
    Ok (Incident.mk id num title desc status urg created svc asg by_ x alerts url pol)
  else if tagged k "alert_count" then
    x <-? int_ v alerts;
    Ok (Incident.mk id num title desc status urg created svc asg by_ at_ x url pol)
  else if tagged k "html_url" then
    x <-? string_ v url;
    Ok (Incident.mk id num title desc status urg created svc asg by_ at_ alerts x pol)
  else if tagged k "escalation_policy" then
    x <-? escalation_policy v pol;
    Ok (Incident.mk id num title desc status urg created svc asg by_ at_ alerts url x)
  else Ok i.
Definition incident := struct_ incident_field.

Definition v3reference_field (k : string) (v : json) (r : V3Reference.t)
    : result V3Reference.t :=
  let '(V3Reference.mk url id self summary ty) := r in
  if tagged k "html_url" then
    x <-? string_ v url; Ok (V3Reference.mk x id self summary ty)
  else if tagged k "id" then
    x <-? string_ v id; Ok (V3Reference.mk url x self summary ty)
  else if tagged k "self" then
    x <-? string_ v self; Ok (V3Reference.mk url id x summary ty)
  else if tagged k "summary" then
    x <-? string_ v summary; Ok (V3Reference.mk url id self x ty)
  else if tagged k "type" then
    x <-? string_ v ty; Ok (V3Reference.mk url id self summary x)
  else Ok r.
Definition v3reference := struct_ v3reference_field.

Definition v3event_field (k : string) (v : json) (e : V3Event.t)
    : result V3Event.t :=
  let '(V3Event.mk id ety rty occurred agent data) := e in
  if tagged k "id" then
    x <-? string_ v id; Ok (V3Event.mk x ety rty occurred agent data)
  else if tagged k "event_type" then
    x <-? string_ v ety; Ok (V3Event.mk id x rty occurred agent data)
  else if tagged k "resource_type" then
    x <-? string_ v rty; Ok (V3Event.mk id ety x occurred agent data)
  else if tagged k "occurred_at" then
    x <-? string_ v occurred; Ok (V3Event.mk id ety rty x agent data)
  else if tagged k "agent" then
    x <-? v3reference v agent; Ok (V3Event.mk id ety rty occurred x data)
  else if tagged k "data" then
    x <-? incident v data; Ok (V3Event.mk id ety rty occurred agent x)
  else Ok e.
Definition v3event := struct_ v3event_field.

Definition v3payload_field (k : string) (v : json) (p : V3WebhookPayload.t)
    : result V3WebhookPayload.t :=
  if tagged k "event" then
    x <-? v3event v (V3WebhookPayload.Event p); Ok (V3WebhookPayload.mk x)
  else Ok p.
Definition v3payload := struct_ v3payload_field.

Definition post_attachment_field (k : string) (v : json)
    (a : PostAttachment.t) : result PostAttachment.t :=
  let '(PostAttachment.mk id post chan inc) := a in
  if tagged k "id" then
    x <-? string_ v id; Ok (PostAttachment.mk x post chan inc)
  else if tagged k "post_id" then
    x <-? string_ v post; Ok (PostAttachment.mk id x chan inc)
  else if tagged k "channel_id" then
    x <-? string_ v chan; Ok (PostAttachment.mk id post x inc)
  else if tagged k "incident" then
    x <-? incident v inc; Ok (PostAttachment.mk id post chan x)
  else Ok a.
Definition post_attachment := struct_ post_attachment_field.

Definition action_payload_field (k : string) (v : json)
    (a : IncidentActionPayload.t) : result IncidentActionPayload.t :=
  let '(IncidentActionPayload.mk inc act usr asg) := a in
  if tagged k "incident_id" then
    x <-? string_ v inc; Ok (IncidentActionPayload.mk x act usr asg)
  else if tagged k "action" then
    x <-? string_ v act; Ok (IncidentActionPayload.mk inc x usr asg)
  else if tagged k "user_id" then
    x <-? string_ v usr; Ok (IncidentActionPayload.mk inc act x asg)
  else if tagged k "assignee_id" then
    x <-? string_ v asg; Ok (IncidentActionPayload.mk inc act usr x)
  else Ok a.
Definition action_payload := struct_ action_payload_field.

(** [json.Marshal]: the members follow the order of the fields; a field
    tagged [omitempty] is left out when it is the empty string or zero
    (the tag has no effect on a field of struct type). A slice is
    written as an array; the nil slice, which [json.Marshal] writes
    [null], is not told from the empty one. Both read back as a slice
    without elements. *)
Definition omitempty_string (tag s : string) : list (string * json) :=
  if String.eqb s "" then [] else [(tag, JStr s)].

Definition omitempty_int (tag : string) (n : int) : list (string * json) :=
  if Z.eqb (int_val n) 0 then [] else [(tag, JNum (int_val n))].

(** [Time.MarshalJSON] *)
Definition of_time (t : Time) : json := JStr (time.text t).

Definition of_user (u : User.t) : json :=
  JObj ([("id", JStr (User.ID u)); ("name", JStr (User.Name u))]
        ++ omitempty_string "email" (User.Email u))%list.

Definition of_service (s : Service.t) : json :=
  JObj [("id", JStr (Service.ID s)); ("name", JStr (Service.Name s))].

Definition of_escalation_policy (e : EscalationPolicy.t) : json :=
  JObj [("id", JStr (EscalationPolicy.ID e));
        ("summary", JStr (EscalationPolicy.Name e));
        ("html_url", JStr (EscalationPolicy.HTMLURL e))].

Definition of_assignment (a : Assignment.t) : json :=
  JObj [("assignee", of_user (Assignment.Assignee a));
        ("at", of_time (Assignment.At a))].

Definition of_incident (i : Incident.t) : json :=
  JObj ([("id", JStr (Incident.ID i));
         ("incident_number", JNum (int_val (Incident.IncidentNumber i)));
         ("title", JStr (Incident.Title i));
         ("description", JStr (Incident.Description i));
         ("status", JStr (Incident.Status i));
         ("urgency", JStr (Incident.Urgency i));
         ("created_at", of_time (Incident.CreatedAt i));
         ("service", of_service (Incident.Service i));
         ("assignments", JArr (map of_assignment (Incident.Assignments i)));
         ("last_status_change_by", of_user (Incident.LastStatusChangeBy i));
         ("last_status_change_at", of_time (Incident.LastStatusChangeAt i))]
        ++ omitempty_int "alert_count" (Incident.AlertCount i)
        ++ [("html_url", JStr (Incident.HTMLURL i));
            ("escalation_policy",
             of_escalation_policy (Incident.EscalationPolicy i))])%list.

Definition of_post_attachment (a : PostAttachment.t) : json :=
  JObj [("id", JStr (PostAttachment.ID a));
        ("post_id", JStr (PostAttachment.PostID a));
        ("channel_id", JStr (PostAttachment.ChannelID a));
        ("incident", of_incident (PostAttachment.Incident a))].

(** The decoding the tags of [WebhookPayload] and [WebhookMessage]
    describe. The plugin declares the two types and never decodes into
    them. *)
Definition webhook_message_field (k : string) (v : json)
    (m : WebhookMessage.t) : result WebhookMessage.t :=
  let '(WebhookMessage.mk id event created inc) := m in
  if tagged k "id" then
    x <-? string_ v id; Ok (WebhookMessage.mk x event created inc)
  else if tagged k "event" then
    x <-? string_ v event; Ok (WebhookMessage.mk id x created inc)
  else if tagged k "created_on" then
    x <-? time_ v created; Ok (WebhookMessage.mk id event x inc)
  else if tagged k "incident" then
    x <-? incident v inc; Ok (WebhookMessage.mk id event created x)
  else Ok m.
Definition webhook_message := struct_ webhook_message_field.

Definition webhook_payload_field (k : string) (v : json)
    (p : WebhookPayload.t) : result WebhookPayload.t :=
  if tagged k "messages" then
    x <-? slice_ webhook_message
            (WebhookMessage.mk "" "" time.zero Incident.zero) v
            (WebhookPayload.Messages p);
    Ok (WebhookPayload.mk x)
  else Ok p.
Definition webhook_payload := struct_ webhook_payload_field.

Definition quote : string := String (ascii_of_nat 34) "".

(** The text of a JSON value (strings are written without escapes). *)
Fixpoint render (v : json) : string :=
  match v with
  | JNull => "null"
  | JBool b => if b then "true" else "false"
  | JNum n => pretty n
  | JStr s => quote ++ s ++ quote
  | JArr l =>
      "[" ++ (fix items (l : list json) : string :=
                match l with
                | [] => ""
                | [x] => render x
                | x :: r => render x ++ "," ++ items r
                end) l ++ "]"
  | JObj m =>
      "{" ++ (fix members (m : list (string * json)) : string :=
                match m with
                | [] => ""
                | [(k, x)] => quote ++ k ++ quote ++ ":" ++ render x
                | (k, x) :: r =>
                    quote ++ k ++ quote ++ ":" ++ render x ++ ","
                    ++ members r
                end) m ++ "}"
  end.

End Json.

(** ** Mattermost: posts, channels, teams, users

    Only the fields the plugin reads or writes are represented. The
    [Props] of a post hold the two entries the plugin writes,
    ["attachments"] and ["from_webhook"]. *)

Module PostActionIntegration.
Record t := mk { URL : string; Context : list (string * string) }.
End PostActionIntegration.

Module PostAction.
Record t := mk {
  Id : string;
  Name : string;
  Type_ : string;
  Style : string;
  Integration : PostActionIntegration.t;
  DataSource : string;
  Options : list (string * string) }.
End PostAction.

Module SlackAttachmentField.
Record t := mk { Title : string; Value : string; Short : bool }.
End SlackAttachmentField.

Module SlackAttachment.
Record t := mk {
  Title : string;
  Text : string;
  Color : string;
  Fields : list SlackAttachmentField.t;
  Actions : list PostAction.t }.
End SlackAttachment.

Module Props.
Record t := mk {
  attachments : list SlackAttachment.t;
  from_webhook : string }.
Definition zero : t := mk [] "".
End Props.

Module Post.
Record t := mk {
  Id : string;
  UserId : string;
  ChannelId : string;
  Props : Props.t }.
Definition with_Id (p : t) (id : string) : t :=
  mk id (UserId p) (ChannelId p) (Props p).
Definition with_Props (p : t) (props : Props.t) : t :=
  mk (Id p) (UserId p) (ChannelId p) props.
End Post.

Module Channel.
Record t := mk { Id : string; Name : string; DisplayName : string }.
End Channel.

Module Team.
Record t := mk { Id : string; Name : string }.
End Team.

(** [model.User] of Mattermost. *)
Module ModelUser.
Record t := mk { Id : string; Email : string }.
End ModelUser.

(** ** The plugin and its collaborators *)

Record configuration := mkConfiguration {
  PagerDutyAPIKey : string;
  WebhookSecret : string;
  DefaultChannel : string }.

(** What the collaborators answer. The first group is the part of the
    Mattermost plugin API the plugin only reads from; the [_fault] fields
    say when a call that writes is refused by the server, and with which
    error; the last group is the PagerDuty REST API as it is seen through
    the methods of [client.PagerDutyClient]. *)
Record Collaborators := mkCollaborators {
  GetChannel : string -> result Channel.t;
  GetTeams : result (list Team.t);
  GetChannelByName : string -> string -> result Channel.t;
  GetChannelsForTeamForUser : string -> string -> result (list Channel.t);
  GetUser : string -> result ModelUser.t;
  KVGet_fault : string -> option string;
  KVSet_fault : string -> option string;
  CreatePost_fault : Post.t -> option string;
  UpdatePost_fault : Post.t -> option string;
  UpdateIncident : string -> string -> string -> string -> result Incident.t;
  AssignIncident : string -> list string -> string -> result Incident.t;
  ListUsers : result (list User.t) }.

(** The calls that write to a collaborator or reach the PagerDuty API. *)
Inductive Call : Type :=
| CallCreatePost (post : Post.t)
| CallUpdatePost (post : Post.t)
| CallKVSet (key : string) (data : json)
| CallUpdateIncident (incidentID status userEmail note : string)
| CallAssignIncident (incidentID : string) (userIDs : list string)
    (userEmail : string)
| CallListUsers.

Record World := mkWorld {
  config : configuration;
  botUserID : string;
  kv : gmap string json;
  posts : gmap string Post.t;
  env : Collaborators;
  calls : list Call }.

Definition set_kv (m : gmap string json) (w : World) : World :=
  mkWorld (config w) (botUserID w) m (posts w) (env w) (calls w).

Definition set_posts (m : gmap string Post.t) (w : World) : World :=
  mkWorld (config w) (botUserID w) (kv w) m (env w) (calls w).

Definition record_call (c : Call) (w : World) : World :=
  mkWorld (config w) (botUserID w) (kv w) (posts w) (env w)
          (calls w ++ [c])%list.

(** The state monad of the plugin's methods. *)
Definition M (A : Type) : Type := World -> A * World.

Definition ret {A} (a : A) : M A := fun w => (a, w).

Definition bind {A B} (m : M A) (f : A -> M B) : M B :=
  fun w => let '(a, w') := m w in f a w'.

Notation "'let*' x ':=' m 'in' k" := (bind m (fun x => k))
  (at level 10, x name, m at level 100, k at level 200).

Definition read {A} (f : World -> A) : M A := fun w => (f w, w).

(** *** The plugin API of the Mattermost server *)

Module API.

Definition KVGet (key : string) : M (result (option json)) :=
  fun w =>
    match KVGet_fault (env w) key with
    | Some e => (Err e, w)
    | None => (Ok (kv w !! key), w)
    end.

Definition KVSet (key : string) (data : json) : M (option string) :=
  fun w =>
    let w := record_call (CallKVSet key data) w in
    match KVSet_fault (env w) key with
    | Some e => (Some e, w)
    | None => (None, set_kv (<[key := data]> (kv w)) w)
    end.

(** The server gives a new post an identifier no post has. *)
Definition CreatePost (post : Post.t) : M (result Post.t) :=
  fun w =>
    let w := record_call (CallCreatePost post) w in
    match CreatePost_fault (env w) post with
    | Some e => (Err e, w)
    | None =>
        let created := Post.with_Id post (fresh (dom (posts w))) in
        (Ok created, set_posts (<[Post.Id created := created]> (posts w)) w)
    end.

Definition GetPost (postID : string) : M (result Post.t) :=
  fun w =>
    match posts w !! postID with
    | Some post => (Ok post, w)
    | None => (Err "GetPost: unable to get the post", w)
    end.

Definition UpdatePost (post : Post.t) : M (result Post.t) :=
  fun w =>
    let w := record_call (CallUpdatePost post) w in
    match UpdatePost_fault (env w) post with
    | Some e => (Err e, w)
    | None =>
        match posts w !! Post.Id post with
        | Some _ => (Ok post, set_posts (<[Post.Id post := post]> (posts w)) w)
        | None => (Err "UpdatePost: unable to find the existing post", w)
        end
    end.

End API.

(** *** The PagerDuty client, at the level of its methods *)

Module pdClient.

Definition UpdateIncident (incidentID status userEmail note : string)
    : M (result Incident.t) :=
  fun w =>
    (UpdateIncident (env w) incidentID status userEmail note,
     record_call (CallUpdateIncident incidentID status userEmail note) w).

Definition AssignIncident (incidentID : string) (userIDs : list string)
    (userEmail : string) : M (result Incident.t) :=
  fun w =>
    (AssignIncident (env w) incidentID userIDs userEmail,
     record_call (CallAssignIncident incidentID userIDs userEmail) w).

Definition ListUsers : M (result (list User.t)) :=
  fun w => (ListUsers (env w), record_call CallListUsers w).

End pdClient.

(** ** server/client: incident statuses *)

Definition StatusTriggered : string := "triggered".
Definition StatusAcknowledged : string := "acknowledged".
Definition StatusResolved : string := "resolved".

(** ** server: constants of the webhook and action handlers *)

Definition ActionAcknowledge : string := "acknowledge".
Definition ActionResolve : string := "resolve".
Definition ActionReassign : string := "reassign".

Definition EventIncidentTriggered : string := "incident.triggered".
Definition EventIncidentAcknowledged : string := "incident.acknowledged".
Definition EventIncidentResolved : string := "incident.resolved".
Definition EventIncidentReassigned : string := "incident.reassigned".
Definition EventIncidentStatusUpdated : string :=
  "incident.status_update_published".

Definition KeyIncidentAttachments : string := "incident_attachments:".

(** ** HTTP requests and responses *)

(** [BodyJSON] is the value encoding/json reads from [Body], [None] when
    [Body] is not JSON. *)
Record Request := mkRequest {
  Method : string;
  Header : string -> string;
  Body : string;
  BodyJSON : option json }.

Inductive ResponseBody : Type :=
| NoBody
| TextBody (text : string)
| JSONBody (v : json).

Record Response := mkResponse {
  StatusCode : Z;
  ContentType : string;
  Written : ResponseBody }.

Definition StatusOK : Z := 200.
Definition StatusBadRequest : Z := 400.
Definition StatusUnauthorized : Z := 401.
Definition StatusMethodNotAllowed : Z := 405.
Definition StatusInternalServerError : Z := 500.

(** [http.Error(w, msg, code)] *)
Definition http_Error (msg : string) (code : Z) : Response :=
  mkResponse code "text/plain; charset=utf-8"
             (TextBody (msg ++ String "010"%char "")).

(** ** server: the webhook handler *)

(** [hmac.Equal(mac1, mac2)]: a comparison of the two slices that takes
    the same time whatever they hold; its result is their equality. *)
Definition hmac_Equal (mac1 mac2 : list Z) : bool := bool_decide (mac1 = mac2).

(** The signature the sender computes: the hexadecimal HMAC-SHA256 of
    the body under the secret. *)
Definition calculatedSignature (body secret : string) : string :=
  EncodeToString (HMAC.Sum (bytes_of_string secret) (bytes_of_string body)).

Definition verifyWebhookSignature (r : Request) (secret : string)
    : option string :=
  let providedSignature := Header r "X-Pagerduty-Signature" in
  if String.eqb providedSignature "" then
    Some "no signature provided in X-Pagerduty-Signature header"
  else
    let providedSignature :=
      if HasPrefix providedSignature "v1="
      then TrimPrefix providedSignature "v1="
      else providedSignature in
    let body := Body r in
    if hmac_Equal (bytes_of_string providedSignature)
                  (bytes_of_string (calculatedSignature body secret))
    then None
    else Some "invalid signature".

Definition is_letter (c : ascii) : bool :=
  let n := N_of_ascii c in
  (((65 <=? n) && (n <=? 90)) || ((97 <=? n) && (n <=? 122)))%N.

(** The word breaking of x/text/cases on ASCII text: a digit and "_"
    continue a word; an apostrophe, a point and a colon continue it too,
    unless two of them follow each other; every other character that is
    no letter ends the word. *)
Definition is_mid (c : ascii) : bool :=
  Ascii.eqb c "'"%char || Ascii.eqb c "."%char || Ascii.eqb c ":"%char.

Definition continues_word (c : ascii) : bool :=
  time.isDigit c || Ascii.eqb c "_"%char.

Fixpoint title_from (start : bool) (s : string) : string :=
  match s with
  | EmptyString => EmptyString
  | String c r =>
      if is_letter c
      then String (if start then upper_ascii c else lower_ascii c)
                  (title_from false r)
      else if is_mid c then
        String c (title_from
                    (start || match r with
                              | String d _ => is_mid d
                              | EmptyString => false
                              end) r)
      else if continues_word c then String c (title_from start r)
      else String c (title_from true r)
  end.

(** [cases.Title(language.English).String(s)], on ASCII text: the first
    letter of every word in upper case, the other letters in lower
    case. *)
Definition Title (s : string) : string := title_from true s.

Definition pluginID : string := "com.github.mnzsyu.mattermost-pagerduty-plugin".

Definition action_url (incidentID action : string) : string :=
  "/plugins/" ++ pluginID ++ "/api/v1/incidents/" ++ incidentID ++ "/" ++ action.

Definition action_context (incidentID action : string)
    : list (string * string) :=
  [("incident_id", incidentID); ("action", action)].

(** [getIncidentActions] returns the available actions for an incident. *)
Definition getIncidentActions (incident : Incident.t) : list PostAction.t :=
  let actions := [] in
  let actions :=
    if String.eqb (Incident.Status incident) StatusTriggered then
      (actions ++ [PostAction.mk ActionAcknowledge "Acknowledge" "button" "primary"
         (PostActionIntegration.mk
            (action_url (Incident.ID incident) "acknowledge")
            (action_context (Incident.ID incident) ActionAcknowledge))
         "" []])%list
    else actions in
  let actions :=
    if negb (String.eqb (Incident.Status incident) StatusResolved) then
      (actions ++ [PostAction.mk ActionResolve "Resolve" "button" "success"
         (PostActionIntegration.mk
            (action_url (Incident.ID incident) "resolve")
            (action_context (Incident.ID incident) ActionResolve))
         "" []])%list
    else actions in
  (actions ++ [PostAction.mk ActionReassign "Reassign" "select" ""
     (PostActionIntegration.mk
        (action_url (Incident.ID incident) "reassign")
        (action_context (Incident.ID incident) ActionReassign))
     "custom" []])%list.

(** [strings.Join(elems, sep)] *)
Fixpoint Join (elems : list string) (sep : string) : string :=
  match elems with
  | [] => ""
  | [x] => x
  | x :: r => x ++ sep ++ Join r sep
  end.

(** [createIncidentProps] creates the props for an incident post. *)
Definition createIncidentProps (incident : Incident.t) : Props.t :=
  let fields :=
    [SlackAttachmentField.mk "Service" (Service.Name (Incident.Service incident)) true;
     SlackAttachmentField.mk "Urgency" (Title (Incident.Urgency incident)) true] in
  let assignees :=
    map (fun assignment => User.Name (Assignment.Assignee assignment))
        (Incident.Assignments incident) in
  let fields :=
    if (0 <? length assignees)%nat
    then (fields ++ [SlackAttachmentField.mk "Assigned To" (Join assignees ", ") true])%list
    else fields in
  let fields :=
    (fields ++ [SlackAttachmentField.mk "Created"
                  (time.Format_RFC3339 (Incident.CreatedAt incident)) true])%list in
  let fields :=
    (fields ++ [SlackAttachmentField.mk "Link"
       ("[View in PagerDuty](" ++ Incident.HTMLURL incident ++ ")") false])%list in
  let color :=
    if String.eqb (Incident.Status incident) StatusTriggered then
      if String.eqb (Incident.Urgency incident) "high" then "#FF0000" else "#FFA500"
    else if String.eqb (Incident.Status incident) StatusAcknowledged then "#FFFF00"
    else if String.eqb (Incident.Status incident) StatusResolved then "#008000"
    else "#FFA500" in
  let attachment :=
    SlackAttachment.mk
      ("[#" ++ pretty (int_val (Incident.IncidentNumber incident)) ++ "] "
       ++ Incident.Title incident)
      (Incident.Description incident)
      color fields (getIncidentActions incident) in
  Props.mk [attachment] "true".

(** [createIncidentPost] creates a Mattermost post for an incident. *)
Definition createIncidentPost (incident : Incident.t) (channelID : string)
    : M Post.t :=
  let props := createIncidentProps incident in
  let* userID := read botUserID in
  let userID := if String.eqb userID "" then "system" else userID in
  ret (Post.mk "" userID channelID props).

(** The loop [for _, ch := range channels] of [getChannelID]. *)
Fixpoint match_channel (channelValue : string) (channels : list Channel.t)
    : option string :=
  match channels with
  | [] => None
  | ch :: rest =>
      if EqualFold (Channel.Name ch) channelValue
         || EqualFold (Channel.DisplayName ch) channelValue
      then Some (Channel.Id ch)
      else match_channel channelValue rest
  end.

(** The loop [for _, team := range teams] of [getChannelID]. *)
Fixpoint search_teams (c : Collaborators) (channelValue : string)
    (teams : list Team.t) : result string :=
  match teams with
  | [] => Err ("channel not found in any team: " ++ channelValue)
  | team :: rest =>
      match GetChannelByName c (Team.Id team) channelValue with
      | Ok channel => Ok (Channel.Id channel)
      | Err _ =>
          match GetChannelsForTeamForUser c (Team.Id team) "me" with
          | Err _ => search_teams c channelValue rest
          | Ok channels =>
              match match_channel channelValue channels with
              | Some id => Ok id
              | None => search_teams c channelValue rest
              end
          end
      end
  end.

(** [getChannelID] gets the channel ID for posting alerts. *)
Definition getChannelID : M (result string) :=
  let* config := read config in
  let channelValue := DefaultChannel config in
  if String.eqb channelValue "" then
    ret (Err "default channel not configured")
  else
    let* c := read env in
    match GetChannel c channelValue with
    | Ok channel => ret (Ok (Channel.Id channel))
    | Err _ =>
        match GetTeams c with
        | Err appErr => ret (Err (Wrap appErr "failed to get teams"))
        | Ok teams => ret (search_teams c channelValue teams)
        end
    end.

(** [storeIncidentAttachment] stores the incident attachment in the KV
    store. [json.Marshal] does not fail on a [PostAttachment]: its
    strings, numbers and times all have an encoding. *)
Definition storeIncidentAttachment (attachment : PostAttachment.t)
    : M (option string) :=
  let jsonData := Json.of_post_attachment attachment in
  let key := KeyIncidentAttachments ++ PostAttachment.ID attachment in
  let* appErr := API.KVSet key jsonData in
  match appErr with
  | Some e => ret (Some ("failed to store attachment in KV store: " ++ e))
  | None => ret None
  end.

(** [getIncidentAttachment] gets the incident attachment from the KV
    store; [Ok None] is the pair [(nil, nil)]. *)
Definition getIncidentAttachment (incidentID : string)
    : M (result (option PostAttachment.t)) :=
  let key := KeyIncidentAttachments ++ incidentID in
  let* r := API.KVGet key in
  match r with
  | Err e => ret (Err ("failed to get attachment from KV store: " ++ e))
  | Ok None => ret (Ok None)
  | Ok (Some data) =>
      match Json.post_attachment data PostAttachment.zero with
      | Err e => ret (Err (Wrap e "failed to unmarshal attachment"))
      | Ok attachment => ret (Ok (Some attachment))
      end
  end.

(** [handleTriggeredIncident] creates a new post for a triggered
    incident. *)
Definition handleTriggeredIncident (incident : Incident.t)
    (channelID : string) : M (option string) :=
  let* post := createIncidentPost incident channelID in
  let* r := API.CreatePost post in
  match r with
  | Err appErr => ret (Some ("failed to create post: " ++ appErr))
  | Ok createdPost =>
      let attachment :=
        PostAttachment.mk (Incident.ID incident) (Post.Id createdPost)
                          channelID incident in
      let* err := storeIncidentAttachment attachment in
      match err with
      | Some e => ret (Some (Wrap e "failed to store incident attachment"))
      | None => ret None
      end
  end.

(** [updateIncidentPost] updates an existing post with new incident
    information. *)
Definition updateIncidentPost (incident : Incident.t)
    (attachment : PostAttachment.t) : M (option string) :=
  let* r := API.GetPost (PostAttachment.PostID attachment) in
  match r with
  | Err _ =>
      handleTriggeredIncident incident (PostAttachment.ChannelID attachment)
  | Ok post =>
      let post := Post.with_Props post (createIncidentProps incident) in
      let* r := API.UpdatePost post in
      match r with
      | Err appErr => ret (Some ("failed to update post: " ++ appErr))
      | Ok _ =>
          let attachment :=
            PostAttachment.mk (PostAttachment.ID attachment)
              (PostAttachment.PostID attachment)
              (PostAttachment.ChannelID attachment) incident in
          let* err := storeIncidentAttachment attachment in
          match err with
          | Some e => ret (Some (Wrap e "failed to update incident attachment"))
          | None => ret None
          end
      end
  end.

(** [processWebhookMessage] processes a webhook message and
    creates/updates a post. *)
Definition processWebhookMessage (message : WebhookMessage.t)
    : M (option string) :=
  let incident := WebhookMessage.Incident message in
  let* r := getChannelID in
  match r with
  | Err e => ret (Some (Wrap e "failed to get channel ID"))
  | Ok channelID =>
      let* r := getIncidentAttachment (Incident.ID incident) in
      let attachment := match r with Ok a => a | Err _ => None end in
      let event := WebhookMessage.Event message in
      if String.eqb event EventIncidentTriggered then
        handleTriggeredIncident incident channelID
      else if String.eqb event EventIncidentAcknowledged
              || String.eqb event EventIncidentResolved
              || String.eqb event EventIncidentReassigned
              || String.eqb event EventIncidentStatusUpdated then
        match attachment with
        | Some attachment => updateIncidentPost incident attachment
        | None => handleTriggeredIncident incident channelID
        end
      else ret None
  end.

(** [processV3WebhookEvent] processes a V3 webhook event. *)
Definition processV3WebhookEvent (event : V3Event.t) : M (option string) :=
  if negb (String.eqb (V3Event.ResourceType event) "incident") then ret None
  else
    let messageEvent :=
      let t := V3Event.EventType event in
      if String.eqb t "incident.triggered" then Some EventIncidentTriggered
      else if String.eqb t "incident.acknowledged" then Some EventIncidentAcknowledged
      else if String.eqb t "incident.resolved" then Some EventIncidentResolved
      else if String.eqb t "incident.reassigned" then Some EventIncidentReassigned
      else if String.eqb t "incident.status_update_published"
           then Some EventIncidentStatusUpdated
      else None in
    match messageEvent with
    | None => ret None
    | Some messageEvent =>
        let message :=
          WebhookMessage.mk (V3Event.ID event) messageEvent time.zero
                            (V3Event.Data event) in
        processWebhookMessage message
    end.

(** [HandleWebhook] handles PagerDuty webhook requests, here on a
    request whose body the server could read ([HandleWebhook_on] below
    adds the request whose body cannot be read). A signature that does
    not verify is only reported in the log. *)
Definition HandleWebhook (r : Request) : M Response :=
  if negb (String.eqb (Method r) "POST") then
    ret (http_Error "Method not allowed" StatusMethodNotAllowed)
  else
    let* config := read config in
    let _verified :=
      if negb (String.eqb (WebhookSecret config) "")
      then verifyWebhookSignature r (WebhookSecret config)
      else None in
    match
      match BodyJSON r with
      | None => Err "invalid character"
      | Some v => Json.v3payload v V3WebhookPayload.zero
      end
    with
    | Err _ => ret (http_Error "Invalid JSON payload" StatusBadRequest)
    | Ok payload =>
        let* err := processV3WebhookEvent (V3WebhookPayload.Event payload) in
        match err with
        | Some _ =>
            ret (http_Error "Failed to process event" StatusInternalServerError)
        | None => ret (mkResponse StatusOK "" NoBody)
        end
    end.

(** A delivery to the webhook endpoint: a request whose body was read,
    or a request on which reading the body fails with an error. *)
Inductive Delivery : Type :=
| Delivered (r : Request)
| Broken (method : string) (header : string -> string) (err : string).

(** [HandleWebhook] on every delivery. On a broken one the signature
    check, if it gets to the body, fails to read it, which is only
    reported in the log, and [io.ReadAll] fails in turn. *)
Definition HandleWebhook_on (d : Delivery) : M Response :=
  match d with
  | Delivered r => HandleWebhook r
  | Broken method _ _ =>
      if negb (String.eqb method "POST") then
        ret (http_Error "Method not allowed" StatusMethodNotAllowed)
      else
        let* _config := read config in
        ret (http_Error "Failed to read request body" StatusBadRequest)
  end.

(** ** server: the action handler *)

Definition PostActionOption_json (user : User.t) : json :=
  JObj [("text", JStr (User.Name user)); ("value", JStr (User.ID user))].

(** [options] stays the nil slice when there is no user. *)
Definition options_json (users : list User.t) : json :=
  match users with
  | [] => JNull
  | _ => JArr (map PostActionOption_json users)
  end.

Definition success_response : Response :=
  mkResponse StatusOK "application/json"
             (JSONBody (JObj [("status", JStr "success")])).

(** The answer to "fetch_users". It is encoded from Go maps, whose keys
    [json.Marshal] writes in sorted order. *)
Definition users_response (users : list User.t) : Response :=
  mkResponse StatusOK "application/json"
    (JSONBody
      (JObj [("update",
        JObj [("props",
          JObj [("attachments",
            JArr [JObj [("actions",
              JArr [JObj [("id", JStr ActionReassign);
                          ("name", JStr "Reassign");
                          ("options", options_json users);
                          ("type", JStr "select")]])]])])])])).

(** [performReassign] handles reassigning an incident. *)
Definition performReassign (incidentID assigneeID userEmail : string)
    : M Response :=
  if String.eqb assigneeID "fetch_users" then
    let* r := pdClient.ListUsers in
    match r with
    | Err _ =>
        ret (http_Error "Failed to list users" StatusInternalServerError)
    | Ok users => ret (users_response users)
    end
  else
    let* r := pdClient.AssignIncident incidentID [assigneeID] userEmail in
    match r with
    | Err _ =>
        ret (http_Error "Failed to assign incident" StatusInternalServerError)
    | Ok _ => ret success_response
    end.

(** [HandleIncidentAction] handles incident action button clicks. The
    [switch] either sets [status] or answers and returns. *)
Definition HandleIncidentAction (r : Request) (incidentID action : string)
    : M Response :=
  let userID := Header r "Mattermost-User-ID" in
  if String.eqb userID "" then
    ret (http_Error "Not authorized" StatusUnauthorized)
  else
    match
      match BodyJSON r with
      | None => Err "invalid character"
      | Some v => Json.action_payload v IncidentActionPayload.zero
      end
    with
    | Err _ => ret (http_Error "Invalid request" StatusBadRequest)
    | Ok payload =>
        let* c := read env in
        match GetUser c userID with
        | Err _ =>
            ret (http_Error "Failed to get user" StatusInternalServerError)
        | Ok user =>
            let dispatch : string + M Response :=
              if String.eqb action ActionAcknowledge then
                inl StatusAcknowledged
              else if String.eqb action ActionResolve then
                inl StatusResolved
              else if String.eqb action ActionReassign then
                inr (performReassign incidentID
                       (IncidentActionPayload.AssigneeID payload)
                       (ModelUser.Email user))
              else inr (ret (http_Error "Invalid action" StatusBadRequest)) in
            match dispatch with
            | inr returned => returned
            | inl status =>
                let* r := pdClient.UpdateIncident incidentID status
                            (ModelUser.Email user) "" in
                match r with
                | Err _ =>
                    ret (http_Error "Failed to update incident"
                                    StatusInternalServerError)
                | Ok _ => ret success_response
                end
            end
        end
    end.

(** The three routes of the router: the action is fixed by the path. *)
Definition handleAction (action : string) (r : Request) (incidentID : string)
    : M Response :=
  if String.eqb incidentID "" then
    ret (http_Error "Missing incident ID" StatusBadRequest)
  else HandleIncidentAction r incidentID action.

Definition handleAcknowledge := handleAction ActionAcknowledge.
Definition handleResolve := handleAction ActionResolve.
Definition handleReassign := handleAction ActionReassign.

(** ** The documented event table *)

(** The event names of the current webhook format and the kind of
    canonical event each stands for. *)
Definition documented_event_kinds : list (string * string) :=
  [("incident.triggered", EventIncidentTriggered);
   ("incident.acknowledged", EventIncidentAcknowledged);
   ("incident.resolved", EventIncidentResolved);
   ("incident.reassigned", EventIncidentReassigned);
   ("incident.status_update_published", EventIncidentStatusUpdated)].

(** The four kinds of event that report a change to an incident. *)
Definition update_event_kinds : list string :=
  [EventIncidentAcknowledged; EventIncidentResolved;
   EventIncidentReassigned; EventIncidentStatusUpdated].

(** ** Sample requests *)

(** A POST to the webhook endpoint with the given signature header,
    whose body is the text of the JSON value [v]. *)
Definition webhook_request (signature : string) (v : json) : Request :=
  mkRequest "POST"
    (fun name => if String.eqb name "X-Pagerduty-Signature" then signature else "")
    (Json.render v) (Some v).

(** A click on an action button by the Mattermost user [userID]. *)
Definition action_request (userID : string) (v : json) : Request :=
  mkRequest "POST"
    (fun name => if String.eqb name "Mattermost-User-ID" then userID else "")
    (Json.render v) (Some v).

(** ** The create path, spelled out *)

(** The post [createIncidentPost] hands to [CreatePost]. *)
Definition draft_post (incident : Incident.t) (channelID : string) (w : World)
    : Post.t :=
  Post.mk "" (if String.eqb (botUserID w) "" then "system" else botUserID w)
          channelID (createIncidentProps incident).

(** The identifier the server gives to the next post. *)
Definition next_post_id (w : World) : string := fresh (dom (posts w)).

(** The record the create path stores. *)
Definition new_record (incident : Incident.t) (channelID : string) (w : World)
    : PostAttachment.t :=
  PostAttachment.mk (Incident.ID incident) (next_post_id w) channelID incident.

Definition record_key (incidentID : string) : string :=
  KeyIncidentAttachments ++ incidentID.

(** The world once a notification for [incident] is created in
    [channelID]: one more post, the record of the incident overwritten,
    and the two calls that did it. *)
Definition created (incident : Incident.t) (channelID : string) (w : World)
    : World :=
  mkWorld (config w) (botUserID w)
    (<[record_key (Incident.ID incident) :=
         Json.of_post_attachment (new_record incident channelID w)]> (kv w))
    (<[next_post_id w :=
         Post.with_Id (draft_post incident channelID w) (next_post_id w)]>
       (posts w))
    (env w)
    (calls w ++
       [CallCreatePost (draft_post incident channelID w);
        CallKVSet (record_key (Incident.ID incident))
          (Json.of_post_attachment (new_record incident channelID w))])%list.

(** The world once the post of [attachment] is refreshed with
    [incident]. *)
Definition refreshed (incident : Incident.t) (attachment : PostAttachment.t)
    (post : Post.t) (w : World) : World :=
  let record :=
    PostAttachment.mk (PostAttachment.ID attachment)
      (PostAttachment.PostID attachment)
      (PostAttachment.ChannelID attachment) incident in
  mkWorld (config w) (botUserID w)
    (<[record_key (PostAttachment.ID attachment) :=
         Json.of_post_attachment record]> (kv w))
    (<[Post.Id post := Post.with_Props post (createIncidentProps incident)]>
       (posts w))
    (env w)
    (calls w ++
       [CallUpdatePost (Post.with_Props post (createIncidentProps incident));
        CallKVSet (record_key (PostAttachment.ID attachment))
          (Json.of_post_attachment record)])%list.

Definition call_name (c : Call) : string :=
  match c with
  | CallCreatePost _ => "CreatePost"
  | CallUpdatePost _ => "UpdatePost"
  | CallKVSet _ _ => "KVSet"
  | CallUpdateIncident _ _ _ _ => "UpdateIncident"
  | CallAssignIncident _ _ _ => "AssignIncident"
  | CallListUsers => "ListUsers"
  end.

(** ** A sample installation *)

Definition sample_incident (status : string) : Incident.t :=
  Incident.mk "INC1" (mkInt 42 I) "Database is down" "" status "high"
    (time.mkTime "2024-05-01T10:00:00Z" I) (Service.mk "SVC1" "Database") []
    User.zero time.zero (mkInt 0 I)
    "https://example.pagerduty.com/incidents/INC1" EscalationPolicy.zero.

(** A server with the channels "alerts" and "ops", one Mattermost user,
    no refused call, and a PagerDuty account that applies every update. *)
Definition sample_env : Collaborators :=
  mkCollaborators
    (fun id =>
       if String.eqb id "alerts" then Ok (Channel.mk "alerts" "alerts" "Alerts")
       else if String.eqb id "ops" then Ok (Channel.mk "ops" "ops" "Ops")
       else Err "channel not found")
    (Ok [])
    (fun _ _ => Err "channel not found")
    (fun _ _ => Err "user not found")
    (fun id =>
       if String.eqb id "user1" then Ok (ModelUser.mk "user1" "a@example.com")
       else Err "user not found")
    (fun _ => None) (fun _ => None) (fun _ => None) (fun _ => None)
    (fun id status _ _ =>
       if String.eqb id "INC1" then Ok (sample_incident status)
       else Err "incident not found")
    (fun id _ _ =>
       if String.eqb id "INC1" then Ok (sample_incident "triggered")
       else Err "incident not found")
    (Ok [User.mk "PD1" "Alice" "a@example.com"; User.mk "PD2" "Bob" ""]).

Definition sample_world (channel : string) : World :=
  mkWorld (mkConfiguration "api-key" "" channel) "bot" ∅ ∅ sample_env [].

Definition triggered_message : WebhookMessage.t :=
  WebhookMessage.mk "EV1" EventIncidentTriggered time.zero
                    (sample_incident "triggered").

Definition acknowledged_message : WebhookMessage.t :=
  WebhookMessage.mk "EV2" EventIncidentAcknowledged time.zero
                    (sample_incident "acknowledged").

(** An installation that posted the notification of INC1 in "alerts",
    lost that message, and now posts to [channel]. *)
Definition lost_message_world (channel : string) : World :=
  mkWorld (mkConfiguration "api-key" "" channel) "bot"
    {[ record_key "INC1" :=
         Json.of_post_attachment
           (PostAttachment.mk "INC1" "gone" "alerts"
                              (sample_incident "triggered")) ]}
    ∅ sample_env [].

(** The channels of the posts of a world. *)
Definition post_channels (w : World) : list string :=
  map (fun kp => Post.ChannelId (snd kp)) (map_to_list (posts w)).

(** The stored record of an incident, as [getIncidentAttachment] reads
    it. *)
Definition stored_record (incidentID : string) (w : World)
    : option PostAttachment.t :=
  match fst (getIncidentAttachment incidentID w) with
  | Ok a => a
  | Err _ => None
  end.

(** The sample installation after the notification of INC1 was posted in
    "alerts". *)
Definition notified_world : World :=
  created (sample_incident "triggered") "alerts" (sample_world "alerts").

Definition action_body (incidentID action assigneeID : string) : json :=
  JObj ([("incident_id", JStr incidentID); ("action", JStr action);
         ("user_id", JStr "user1")]
        ++ Json.omitempty_string "assignee_id" assigneeID)%list.

Definition acknowledge_request : Request :=
  action_request "user1" (action_body "INC1" "acknowledge" "").

Definition fetch_users_request : Request :=
  action_request "user1" (action_body "INC1" "reassign" "fetch_users").

Definition launch_missiles_request : Request :=
  action_request "user1" (action_body "INC1" "launch_missiles" "").

(** A payload of the earlier format with one message. *)
Definition legacy_payload : json :=
  JObj [("messages",
         JArr [JObj [("id", JStr "EV1");
                     ("event", JStr "incident.triggered");
                     ("incident", Json.of_incident (sample_incident "triggered"))]])].


(** The identifier and the type of every rendered action. *)
Definition buttons (actions : list PostAction.t) : list (string * string) :=
  map (fun a => (PostAction.Id a, PostAction.Type_ a)) actions.

(** A payload of the current format. *)
Definition v3_payload (event_type : string) (incident : Incident.t) : json :=
  JObj [("event",
         JObj [("id", JStr "EV1");
               ("event_type", JStr event_type);
               ("resource_type", JStr "incident");
               ("data", Json.of_incident incident)])].

(** What the first attachment of the post of a record shows. *)
Definition shown (incidentID : string) (w : World)
    : option (string * list (string * string)) :=
  a ← stored_record incidentID w;
  p ← posts w !! PostAttachment.PostID a;
  att ← head (Props.attachments (Post.Props p));
  Some (SlackAttachment.Color att, buttons (SlackAttachment.Actions att)).

(** A request the dispatcher can work on: it names the acting user, its
    body decodes, and the user is known to Mattermost. *)
Definition dispatchable (r : Request) (w : World)
    (payload : IncidentActionPayload.t) (user : ModelUser.t) : Prop :=
  Header r "Mattermost-User-ID" <> ""
  /\ (exists v, BodyJSON r = Some v
                /\ Json.action_payload v IncidentActionPayload.zero = Ok payload)
  /\ GetUser (env w) (Header r "Mattermost-User-ID") = Ok user.

(** ** The outcomes of one delivery *)

(** The world once [CreatePost] accepted the post of [incident] and
    [KVSet] refused its record: the message is there, the record is not. *)
Definition create_unrecorded (incident : Incident.t) (channelID : string)
    (w : World) : World :=
  mkWorld (config w) (botUserID w) (kv w)
    (<[next_post_id w :=
         Post.with_Id (draft_post incident channelID w) (next_post_id w)]>
       (posts w))
    (env w)
    (calls w ++
       [CallCreatePost (draft_post incident channelID w);
        CallKVSet (record_key (Incident.ID incident))
          (Json.of_post_attachment (new_record incident channelID w))])%list.

(** The world once [UpdatePost] accepted the refreshed [post] and [KVSet]
    refused the record. *)
Definition update_unrecorded (incident : Incident.t)
    (attachment : PostAttachment.t) (post : Post.t) (w : World) : World :=
  mkWorld (config w) (botUserID w) (kv w)
    (<[Post.Id post := Post.with_Props post (createIncidentProps incident)]>
       (posts w))
    (env w)
    (calls w ++
       [CallUpdatePost (Post.with_Props post (createIncidentProps incident));
        CallKVSet (record_key (PostAttachment.ID attachment))
          (Json.of_post_attachment
             (PostAttachment.mk (PostAttachment.ID attachment)
                (PostAttachment.PostID attachment)
                (PostAttachment.ChannelID attachment) incident))])%list.

(** What one run of the correlator can do to the world, with the error
    it returns. *)
Inductive outcome (w : World) : option string -> World -> Prop :=
| outcome_untouched err :
    outcome w err w
| outcome_create_refused incident channelID e :
    outcome w (Some e)
      (record_call (CallCreatePost (draft_post incident channelID w)) w)
| outcome_create_unrecorded incident channelID e :
    outcome w (Some e) (create_unrecorded incident channelID w)
| outcome_created incident channelID :
    outcome w None (created incident channelID w)
| outcome_update_refused post e :
    outcome w (Some e) (record_call (CallUpdatePost post) w)
| outcome_update_unrecorded incident attachment post e :
    posts w !! PostAttachment.PostID attachment = Some post ->
    is_Some (posts w !! Post.Id post) ->
    outcome w (Some e) (update_unrecorded incident attachment post w)
| outcome_refreshed incident attachment post :
    posts w !! PostAttachment.PostID attachment = Some post ->
    is_Some (posts w !! Post.Id post) ->
    outcome w None (refreshed incident attachment post w).

(** Every post is filed under its own identifier. *)
Definition posts_keyed (w : World) : Prop :=
  forall k p, posts w !! k = Some p -> Post.Id p = k.

(** The calls that reach PagerDuty. *)
Definition is_remote_call (c : Call) : bool :=
  match c with
  | CallUpdateIncident _ _ _ _ | CallAssignIncident _ _ _ | CallListUsers => true
  | _ => false
  end.

(** ** Servers that refuse calls *)

(** A server that refuses every post. *)
Definition refuse_posts (c : Collaborators) : Collaborators :=
  mkCollaborators (GetChannel c) (GetTeams c) (GetChannelByName c)
    (GetChannelsForTeamForUser c) (GetUser c) (KVGet_fault c) (KVSet_fault c)
    (fun _ => Some "post refused") (UpdatePost_fault c)
    (UpdateIncident c) (AssignIncident c) (ListUsers c).

(** A server whose key-value store refuses every write. *)
Definition refuse_writes (c : Collaborators) : Collaborators :=
  mkCollaborators (GetChannel c) (GetTeams c) (GetChannelByName c)
    (GetChannelsForTeamForUser c) (GetUser c) (KVGet_fault c)
    (fun _ => Some "store refused") (CreatePost_fault c) (UpdatePost_fault c)
    (UpdateIncident c) (AssignIncident c) (ListUsers c).

(** A server that refuses every update of a post. *)
Definition refuse_updates (c : Collaborators) : Collaborators :=
  mkCollaborators (GetChannel c) (GetTeams c) (GetChannelByName c)
    (GetChannelsForTeamForUser c) (GetUser c) (KVGet_fault c) (KVSet_fault c)
    (CreatePost_fault c) (fun _ => Some "update refused")
    (UpdateIncident c) (AssignIncident c) (ListUsers c).

Definition with_env (c : Collaborators) (w : World) : World :=
  mkWorld (config w) (botUserID w) (kv w) (posts w) c (calls w).

(** The sample installation with a webhook secret. *)
Definition secured_world : World :=
  mkWorld (mkConfiguration "api-key" "s3cret" "alerts") "bot" ∅ ∅ sample_env [].

(** The names of the calls one delivery can add to the log. *)
Definition delivery_call_names : list (list string) :=
  [[]; ["CreatePost"]; ["CreatePost"; "KVSet"];
   ["UpdatePost"]; ["UpdatePost"; "KVSet"]].

(** What [HandleWebhook] and [HandleIncidentAction] decode the body
    into. *)
Definition decoded_event (r : Request) : result V3WebhookPayload.t :=
  match BodyJSON r with
  | None => Err "invalid character"
  | Some v => Json.v3payload v V3WebhookPayload.zero
  end.

Definition decoded_action (r : Request) : result IncidentActionPayload.t :=
  match BodyJSON r with
  | None => Err "invalid character"
  | Some v => Json.action_payload v IncidentActionPayload.zero
  end.

(** ** server/client: the PagerDuty client over HTTP

    The methods of [PagerDutyClient] build a request, send it and read
    the response. [Wire] is what went out so far; the network and the
    server are a [Transport]: whether [http.NewRequest] accepts a method
    and a URL, and what [httpClient.Do] returns for a request. A body is
    the JSON value its bytes encode; [json.Marshal] writes the keys of a
    map in sorted order. *)

Module client.

Definition pagerDutyAPIBaseURL : string := "https://api.pagerduty.com".
Definition incidentsEndpoint : string := "/incidents".
Definition usersEndpoint : string := "/users".
Definition servicesEndpoint : string := "/services".

Record HTTPRequest := mkHTTPRequest {
  req_Method : string;
  req_URL : string;
  req_Header : gmap string string;
  req_Body : option json }.

(** [resp_JSON] is the value encoding/json reads from [resp_Body],
    [None] when there is none. *)
Record HTTPResponse := mkHTTPResponse {
  resp_StatusCode : Z;
  resp_Body : string;
  resp_JSON : option json }.

Record Transport := mkTransport {
  NewRequest_error : string -> string -> option string;
  Do : HTTPRequest -> result HTTPResponse }.

Definition Wire : Type := list HTTPRequest.

(** [c.httpClient.Do(req)] *)
Definition send (t : Transport) (req : HTTPRequest) (sent : Wire)
    : result HTTPResponse * Wire :=
  (Do t req, (sent ++ [req])%list).

(** [Timeout] is in seconds. *)
Record PagerDutyClient := mkPagerDutyClient {
  apiKey : string;
  Timeout : Z }.

Definition NewPagerDutyClient (apiKey : string) : PagerDutyClient :=
  mkPagerDutyClient apiKey 30.

(** [req.Header.Set(key, value)] *)
Definition Header_Set (key value : string) (req : HTTPRequest) : HTTPRequest :=
  mkHTTPRequest (req_Method req) (req_URL req)
                (<[key := value]> (req_Header req)) (req_Body req).

(** [setHeaders] sets the required headers for PagerDuty API requests. *)
Definition setHeaders (c : PagerDutyClient) (req : HTTPRequest) : HTTPRequest :=
  Header_Set "Authorization" ("Token token=" ++ apiKey c)
    (Header_Set "Accept" "application/vnd.pagerduty+json;version=2"
       (Header_Set "Content-Type" "application/json" req)).

(** [errors.Errorf("<what>: %s, status: %d", string(body), resp.StatusCode)] *)
Definition status_error (what : string) (resp : HTTPResponse) : string :=
  what ++ ": " ++ resp_Body resp ++ ", status: " ++ pretty (resp_StatusCode resp).

(** [json.NewDecoder(resp.Body).Decode(&response)] for a response struct
    with the one field [field], tagged [tag]. *)
Definition decode_response {T} (tag : string)
    (field : json -> T -> result T) (zero : T) (resp : HTTPResponse)
    : result T :=
  match resp_JSON resp with
  | None => Err "EOF"
  | Some v =>
      Json.struct_
        (fun k x cur => if Json.tagged k tag then field x cur else Ok cur)
        v zero
  end.

(** [GetIncident] gets a single incident by ID. *)
Definition GetIncident (t : Transport) (c : PagerDutyClient)
    (incidentID : string) (sent : Wire) : result Incident.t * Wire :=
  let endpoint :=
    pagerDutyAPIBaseURL ++ incidentsEndpoint ++ "/" ++ incidentID in
  match NewRequest_error t "GET" endpoint with
  | Some err => (Err (Wrap err "failed to create request"), sent)
  | None =>
      let req := setHeaders c (mkHTTPRequest "GET" endpoint ∅ None) in
      match send t req sent with
      | (Err err, sent) => (Err (Wrap err "failed to send request"), sent)
      | (Ok resp, sent) =>
          if negb (Z.eqb (resp_StatusCode resp) StatusOK) then
            (Err (status_error "failed to get incident" resp), sent)
          else
            match decode_response "incident" Json.incident Incident.zero resp with
            | Err err => (Err (Wrap err "failed to decode response"), sent)
            | Ok incident => (Ok incident, sent)
            end
      end
  end.

(** [url.Values]: [Set] replaces the values of a key. *)
Definition Values : Type := gmap string (list string).

Definition Values_Set (key value : string) (v : Values) : Values :=
  <[key := [value]]> v.

(** [url.QueryEscape]: letters, digits, "-", "_", "." and "~" are kept,
    a space becomes "+", and every other byte is written "%XX". *)
Definition unreserved (c : ascii) : bool :=
  is_letter c || time.isDigit c
  || Ascii.eqb c "-"%char || Ascii.eqb c "_"%char
  || Ascii.eqb c "."%char || Ascii.eqb c "~"%char.

Definition upperhex (n : N) : ascii :=
  match String.get (N.to_nat n) "0123456789ABCDEF" with
  | Some c => c
  | None => "0"%char
  end.

Fixpoint QueryEscape (s : string) : string :=
  match s with
  | EmptyString => EmptyString
  | String c r =>
      if Ascii.eqb c " "%char then String "+"%char (QueryEscape r)
      else if unreserved c then String c (QueryEscape r)
      else
        String "%"%char
          (String (upperhex (N_of_ascii c / 16))
             (String (upperhex (N_of_ascii c mod 16)) (QueryEscape r)))
  end.

(** [slices.Sort(keys)] *)
Fixpoint insert_key (k : string) (keys : list string) : list string :=
  match keys with
  | [] => [k]
  | k' :: rest =>
      if String.leb k k' then k :: keys else k' :: insert_key k rest
  end.

Definition sorted_keys (v : Values) : list string :=
  fold_right insert_key [] (map fst (map_to_list v)).

(** [url.Values.Encode]: "key=value" for every value of every key, the
    keys in sorted order, joined by "&". *)
Definition Values_Encode (v : Values) : string :=
  Join (flat_map (fun k =>
                    map (fun x => QueryEscape k ++ "=" ++ QueryEscape x)
                        (default [] (v !! k)))
                 (sorted_keys v)) "&".

Section ListIncidents.

(** [url.Values.Encode], which writes the query string of the
    options. *)
Variable Encode : Values -> string.

(** [ListIncidents] lists incidents with optional filters. *)
Definition ListIncidents (t : Transport) (c : PagerDutyClient)
    (params : Values) (sent : Wire) : result (list Incident.t) * Wire :=
  let endpoint :=
    pagerDutyAPIBaseURL ++ incidentsEndpoint ++ "?" ++ Encode params in
  match NewRequest_error t "GET" endpoint with
  | Some err => (Err (Wrap err "failed to create request"), sent)
  | None =>
      let req := setHeaders c (mkHTTPRequest "GET" endpoint ∅ None) in
      match send t req sent with
      | (Err err, sent) => (Err (Wrap err "failed to send request"), sent)
      | (Ok resp, sent) =>
          if negb (Z.eqb (resp_StatusCode resp) StatusOK) then
            (Err (status_error "failed to list incidents" resp), sent)
          else
            match decode_response "incidents"
                    (Json.slice_ Json.incident Incident.zero) [] resp with
            | Err err => (Err (Wrap err "failed to decode response"), sent)
            | Ok incidents => (Ok incidents, sent)
            end
      end
  end.

End ListIncidents.

(** The payload of [UpdateIncident]. *)
Definition update_payload (status note : string) : json :=
  JObj ([("incident",
          JObj [("status", JStr status); ("type", JStr "incident_reference")])]
        ++ (if negb (String.eqb note "")
            then [("note", JObj [("content", JStr note)])]
            else []))%list.

(** [req.Header.Set("From", userEmail)] when there is an address. *)
Definition set_From (userEmail : string) (req : HTTPRequest) : HTTPRequest :=
  if negb (String.eqb userEmail "") then Header_Set "From" userEmail req
  else req.

(** [UpdateIncident] updates an incident status. *)
Definition UpdateIncident (t : Transport) (c : PagerDutyClient)
    (incidentID status userEmail note : string) (sent : Wire)
    : result Incident.t * Wire :=
  let endpoint :=
    pagerDutyAPIBaseURL ++ incidentsEndpoint ++ "/" ++ incidentID in
  let payload := update_payload status note in
  match NewRequest_error t "PUT" endpoint with
  | Some err => (Err (Wrap err "failed to create request"), sent)
  | None =>
      let req := setHeaders c (mkHTTPRequest "PUT" endpoint ∅ (Some payload)) in
      let req := set_From userEmail req in
      match send t req sent with
      | (Err err, sent) => (Err (Wrap err "failed to send request"), sent)
      | (Ok resp, sent) =>
          if negb (Z.eqb (resp_StatusCode resp) StatusOK) then
            (Err (status_error "failed to update incident" resp), sent)
          else
            match decode_response "incident" Json.incident Incident.zero resp with
            | Err err => (Err (Wrap err "failed to decode response"), sent)
            | Ok incident => (Ok incident, sent)
            end
      end
  end.

(** The payload of [AssignIncident]: one assignment for every user. *)
Definition assign_payload (userIDs : list string) : json :=
  JObj [("incident",
         JObj [("assignments",
                JArr (map (fun userID =>
                             JObj [("assignee",
                                    JObj [("id", JStr userID);
                                          ("type", JStr "user_reference")])])
                          userIDs));
               ("type", JStr "incident_reference")])].

(** [AssignIncident] assigns an incident to a user. *)
Definition AssignIncident (t : Transport) (c : PagerDutyClient)
    (incidentID : string) (userIDs : list string) (userEmail : string)
    (sent : Wire) : result Incident.t * Wire :=
  let endpoint :=
    pagerDutyAPIBaseURL ++ incidentsEndpoint ++ "/" ++ incidentID in
  let payload := assign_payload userIDs in
  match NewRequest_error t "PUT" endpoint with
  | Some err => (Err (Wrap err "failed to create request"), sent)
  | None =>
      let req := setHeaders c (mkHTTPRequest "PUT" endpoint ∅ (Some payload)) in
      let req := set_From userEmail req in
      match send t req sent with
      | (Err err, sent) => (Err (Wrap err "failed to send request"), sent)
      | (Ok resp, sent) =>
          if negb (Z.eqb (resp_StatusCode resp) StatusOK) then
            (Err (status_error "failed to assign incident" resp), sent)
          else
            match decode_response "incident" Json.incident Incident.zero resp with
            | Err err => (Err (Wrap err "failed to decode response"), sent)
            | Ok incident => (Ok incident, sent)
            end
      end
  end.

(** [ListUsers] lists users in the PagerDuty account. *)
Definition ListUsers (t : Transport) (c : PagerDutyClient) (sent : Wire)
    : result (list User.t) * Wire :=
  let endpoint := pagerDutyAPIBaseURL ++ usersEndpoint in
  match NewRequest_error t "GET" endpoint with
  | Some err => (Err (Wrap err "failed to create request"), sent)
  | None =>
      let req := setHeaders c (mkHTTPRequest "GET" endpoint ∅ None) in
      match send t req sent with
      | (Err err, sent) => (Err (Wrap err "failed to send request"), sent)
      | (Ok resp, sent) =>
          if negb (Z.eqb (resp_StatusCode resp) StatusOK) then
            (Err (status_error "failed to list users" resp), sent)
          else
            match decode_response "users"
                    (Json.slice_ Json.user User.zero) [] resp with
            | Err err => (Err (Wrap err "failed to decode response"), sent)
            | Ok users => (Ok users, sent)
            end
      end
  end.

(** [ListServices] lists services in the PagerDuty account. *)
Definition ListServices (t : Transport) (c : PagerDutyClient) (sent : Wire)
    : result (list Service.t) * Wire :=
  let endpoint := pagerDutyAPIBaseURL ++ servicesEndpoint in
  match NewRequest_error t "GET" endpoint with
  | Some err => (Err (Wrap err "failed to create request"), sent)
  | None =>
      let req := setHeaders c (mkHTTPRequest "GET" endpoint ∅ None) in
      match send t req sent with
      | (Err err, sent) => (Err (Wrap err "failed to send request"), sent)
      | (Ok resp, sent) =>
          if negb (Z.eqb (resp_StatusCode resp) StatusOK) then
            (Err (status_error "failed to list services" resp), sent)
          else
            match decode_response "services"
                    (Json.slice_ Json.service Service.zero) [] resp with
            | Err err => (Err (Wrap err "failed to decode response"), sent)
            | Ok services => (Ok services, sent)
            end
      end
  end.

(** A request carries the credentials of the client. *)
Definition authenticated (c : PagerDutyClient) (req : HTTPRequest) : Prop :=
  req_Header req !! "Authorization" = Some ("Token token=" ++ apiKey c)
  /\ req_Header req !! "Accept"
     = Some "application/vnd.pagerduty+json;version=2"
  /\ req_Header req !! "Content-Type" = Some "application/json".

(** A method sent nothing, or one request with the credentials. *)
Definition at_most_one_authenticated (c : PagerDutyClient) (before after : Wire)
    : Prop :=
  after = before
  \/ exists req, after = (before ++ [req])%list /\ authenticated c req.

End client.

(** ** Sample transports *)

(** A server that answers every request with [resp]. *)
Definition answering (resp : client.HTTPResponse) : client.Transport :=
  client.mkTransport (fun _ _ => None) (fun _ => Ok resp).

(** A 200 response that carries [v]. *)
Definition ok_response (v : json) : client.HTTPResponse :=
  client.mkHTTPResponse StatusOK (Json.render v) (Some v).

Definition sample_client : client.PagerDutyClient :=
  client.NewPagerDutyClient "api-key".

(** ** strconv and strings, as far as the commands use them *)

(** [strconv.Atoi(s)], where [int] has 64 bits: an optional sign, then
    one or more decimal digits, and a value that fits. The callers only
    test [err == nil]: [None] stands for any error. *)
Definition Atoi (s : string) : option Z :=
  let '(negative, digits) :=
    match s with
    | String "-" r => (true, r)
    | String "+" r => (false, r)
    | _ => (false, s)
    end in
  if String.eqb digits "" then None
  else
    match digits_value 0 digits with
    | None => None
    | Some n =>
        let v := if negative then - n else n in
        if (- 2 ^ 63 <=? v)%Z && (v <=? 2 ^ 63 - 1)%Z then Some v
        else None
    end.

(** [strconv.Itoa(n)] *)
Definition Itoa (n : Z) : string := pretty n.

(** [strings.SplitN(s, "=", 2)]: [s] alone when it has no "=", and what
    is before and after its first "=" otherwise. *)
Fixpoint SplitN_eq_2 (s : string) : list string :=
  match s with
  | EmptyString => [EmptyString]
  | String c r =>
      if Ascii.eqb c "="%char then [EmptyString; r]
      else
        match SplitN_eq_2 r with
        | [a; b] => [String c a; b]
        | _ => [s]
        end
  end.

Definition newline : string := String "010"%char "".

(** ** server/command: the slash commands that reach PagerDuty *)

Module command.

Definition CommandResponseTypeInChannel : string := "in_channel".
Definition CommandResponseTypeEphemeral : string := "ephemeral".

Record CommandResponse := mkCommandResponse {
  ResponseType : string;
  Text : string }.

(** The variables of the loop over the parameters of
    [listIncidentsCommand]. *)
Record Filters := mkFilters {
  options : client.Values;
  status : string;
  service : string;
  urgency : string }.

(** One turn of [for _, param := range params]. *)
Definition read_param (f : Filters) (param : string) : Filters :=
  match SplitN_eq_2 param with
  | [k; value] =>
      let key := ToLower k in
      if String.eqb key "limit" then
        match Atoi value with
        | Some limit =>
            if (0 <? limit)%Z && (limit <=? 25)%Z then
              mkFilters (client.Values_Set "limit" value (options f))
                        (status f) (service f) (urgency f)
            else f
        | None => f
        end
      else if String.eqb key "status" then
        mkFilters (client.Values_Set "statuses[]" value (options f))
                  value (service f) (urgency f)
      else if String.eqb key "service" then
        mkFilters (client.Values_Set "service_ids[]" value (options f))
                  (status f) value (urgency f)
      else if String.eqb key "urgency" then
        mkFilters (client.Values_Set "urgencies[]" value (options f))
                  (status f) (service f) value
      else f
  | _ => f
  end.

Definition read_params (params : list string) : Filters :=
  fold_left read_param params
    (mkFilters (client.Values_Set "limit" "10" ∅) "" "" "").

(** The condition of the loop that keeps the incidents to show. *)
Definition matches (f : Filters) (incident : Incident.t) : bool :=
  (String.eqb (status f) "" || String.eqb (Incident.Status incident) (status f))
  && (String.eqb (service f) ""
      || String.eqb (Service.ID (Incident.Service incident)) (service f))
  && (String.eqb (urgency f) ""
      || String.eqb (Incident.Urgency incident) (urgency f)).

Definition assignees_text (incident : Incident.t) : string :=
  if (0 <? length (Incident.Assignments incident))%nat then
    Join (map (fun assignment => User.Name (Assignment.Assignee assignment))
              (Incident.Assignments incident)) ", "
  else "Unassigned".

Section WithEncode.

(** [url.Values.Encode] and [cases.Title(language.English).String], as
    the libraries compute them. *)
Variable Encode : client.Values -> string.
Variable Title : string -> string.

(** One row of the table of [listIncidentsCommand]. *)
Definition row (incident : Incident.t) : string :=
  "| [#" ++ pretty (int_val (Incident.IncidentNumber incident)) ++ "]("
  ++ Incident.HTMLURL incident ++ ") | "
  ++ Title (Incident.Status incident) ++ " | "
  ++ Service.Name (Incident.Service incident) ++ " | "
  ++ Incident.Title incident ++ " | "
  ++ assignees_text incident ++ " |" ++ newline.

(** [listIncidentsCommand] handles listing incidents. *)
Definition listIncidentsCommand (t : client.Transport)
    (c : client.PagerDutyClient) (params : list string) (sent : client.Wire)
    : CommandResponse * client.Wire :=
  let f := read_params params in
  match client.ListIncidents Encode t c (options f) sent with
  | (Err err, sent) =>
      (mkCommandResponse CommandResponseTypeEphemeral
         ("Error getting incidents: " ++ err), sent)
  | (Ok incidents, sent) =>
      let filteredIncidents :=
        fold_left (fun kept incident =>
                     if matches f incident then (kept ++ [incident])%list
                     else kept)
                  incidents [] in
      let text := "### PagerDuty Incidents" ++ newline ++ newline in
      let text :=
        if (length filteredIncidents =? 0)%nat then
          text ++ "No incidents found matching your criteria."
        else
          let text :=
            text ++ "| # | Status | Service | Title | Assigned To |" ++ newline in
          let text := text ++ "| --- | --- | --- | --- | --- |" ++ newline in
          fold_left (fun text incident => text ++ row incident)
                    filteredIncidents text in
      (mkCommandResponse CommandResponseTypeInChannel text, sent)
  end.

(** The text [getIncidentCommand] shows for an incident. *)
Definition incident_text (incident : Incident.t) : string :=
  let text :=
    "### PagerDuty Incident #"
    ++ pretty (int_val (Incident.IncidentNumber incident))
    ++ ": " ++ Incident.Title incident ++ newline ++ newline in
  let text := text ++ "**Status:** " ++ Title (Incident.Status incident) ++ newline in
  let text := text ++ "**Urgency:** " ++ Title (Incident.Urgency incident) ++ newline in
  let text :=
    text ++ "**Service:** " ++ Service.Name (Incident.Service incident)
    ++ newline in
  let text :=
    if (0 <? length (Incident.Assignments incident))%nat then
      text ++ "**Assigned To:** "
      ++ Join (map (fun assignment => User.Name (Assignment.Assignee assignment))
                   (Incident.Assignments incident)) ", " ++ newline
    else text ++ "**Assigned To:** Unassigned" ++ newline in
  let text :=
    text ++ "**Created:** "
    ++ time.Format_RFC3339 (Incident.CreatedAt incident) ++ newline in
  let text :=
    if negb (time.IsZero (Incident.LastStatusChangeAt incident)) then
      text ++ "**Last Status Change:** "
      ++ time.Format_RFC3339 (Incident.LastStatusChangeAt incident) ++ newline
    else text in
  let text := text ++ newline ++ "**Description:**" ++ newline in
  let text := text ++ Incident.Description incident in
  text ++ newline ++ newline ++ "[View in PagerDuty]("
  ++ Incident.HTMLURL incident ++ ")".

(** [getIncidentCommand] handles getting a single incident. *)
Definition getIncidentCommand (t : client.Transport)
    (c : client.PagerDutyClient) (incidentIdentifier : string)
    (sent : client.Wire) : CommandResponse * client.Wire :=
  match Atoi incidentIdentifier with
  | Some incidentNumber =>
      let options :=
        client.Values_Set "incident_number" (Itoa incidentNumber) ∅ in
      match client.ListIncidents Encode t c options sent with
      | (Err listErr, sent) =>
          (mkCommandResponse CommandResponseTypeEphemeral
             ("Error getting incident: " ++ listErr), sent)
      | (Ok [], sent) =>
          (mkCommandResponse CommandResponseTypeEphemeral
             ("No incident found with number: " ++ pretty incidentNumber), sent)
      | (Ok (incident :: _), sent) =>
          (mkCommandResponse CommandResponseTypeInChannel
             (incident_text incident), sent)
      end
  | None =>
      match client.GetIncident t c incidentIdentifier sent with
      | (Err err, sent) =>
          (mkCommandResponse CommandResponseTypeEphemeral
             ("Error getting incident: " ++ err), sent)
      | (Ok incident, sent) =>
          (mkCommandResponse CommandResponseTypeInChannel
             (incident_text incident), sent)
      end
  end.

End WithEncode.

End command.

(** A stand-in for [url.Values.Encode] in the samples: the incident
    number or else the limit, if any. *)
Definition sample_encode (v : client.Values) : string :=
  match v !! "incident_number", v !! "limit" with
  | Some [n], _ => "incident_number=" ++ n
  | _, Some [n] => "limit=" ++ n
  | _, _ => ""
  end.

(** A server without channel "general" by identifier, with one team
    whose channel list names it in capitals. *)
Definition folded_env : Collaborators :=
  mkCollaborators
    (fun _ => Err "channel not found")
    (Ok [Team.mk "team1" "Team"])
    (fun _ _ => Err "channel not found")
    (fun team _ =>
       if String.eqb team "team1"
       then Ok [Channel.mk "c1" "town-square" "Town Square";
                Channel.mk "c2" "GENERAL" "General"]
       else Err "team not found")
    (fun _ => Err "user not found")
    (fun _ => None) (fun _ => None) (fun _ => None) (fun _ => None)
    (fun _ _ _ _ => Err "incident not found")
    (fun _ _ _ => Err "incident not found")
    (Ok []).

(** What the loop over the parameters of [listIncidentsCommand] keeps
    true of its variables: the limit sent is a number from 1 to 25, a
    filter is sent as it is applied, and no other option is sent. *)
Definition limit_in_range (v : client.Values) : Prop :=
  exists value n,
    v !! "limit" = Some [value] /\ Atoi value = Some n /\ (1 <= n <= 25)%Z.

Definition filter_sent (key value : string) (v : client.Values) : Prop :=
  (v !! key = None /\ value = "") \/ v !! key = Some [value].

Definition only_list_options (v : client.Values) : Prop :=
  forall key,
    key <> "limit" -> key <> "statuses[]" -> key <> "service_ids[]" ->
    key <> "urgencies[]" -> v !! key = None.

Definition consistent (f : command.Filters) : Prop :=
  limit_in_range (command.options f)
  /\ filter_sent "statuses[]" (command.status f) (command.options f)
  /\ filter_sent "service_ids[]" (command.service f) (command.options f)
  /\ filter_sent "urgencies[]" (command.urgency f) (command.options f)
  /\ only_list_options (command.options f).

(** The request [GetIncident] and [ListIncidents] send. *)
Definition get_request (c : client.PagerDutyClient) (url : string)
    : client.HTTPRequest :=
  client.setHeaders c (client.mkHTTPRequest "GET" url ∅ None).

(** A transport that answers a listing with [incidents]. *)
Definition listing (incidents : list Incident.t) : client.Transport :=
  answering (ok_response (JObj [("incidents", JArr (map Json.of_incident incidents))])).

(** Two payloads [json.Unmarshal] refuses: a time that is no time, and a
    number that does not fit an [int]. *)
Definition payload_with (member : string * json) : json :=
  JObj [("event",
         JObj [("resource_type", JStr "incident");
               ("event_type", JStr "incident.triggered");
               ("data", JObj [("id", JStr "INC1"); member])])].

Definition bad_time_request : Request :=
  webhook_request "" (payload_with ("created_at", JStr "yesterday")).

Definition bad_number_request : Request :=
  webhook_request "" (payload_with ("incident_number", JNum (2 ^ 63))).

(** A tag of lower-case ASCII letters and signs other than "s" and "k":
    no letter outside ASCII folds to one of its letters. *)
Definition plain_char (c : ascii) : bool :=
  (N_of_ascii c <? 128)%N && negb (Ascii.eqb c "s"%char)
  && negb (Ascii.eqb c "k"%char).

Fixpoint plain (t : string) : bool :=
  match t with
  | EmptyString => true
  | String c r => plain_char c && plain r
  end.

(** * Properties *)

(** ** Test vectors of SHA-256 and HMAC-SHA256 *)

Example sha256_abc :
  EncodeToString (SHA256.Sum256 (bytes_of_string "abc"))
  = "ba7816bf8f01cfea414140de5dae2223b00361a396177a9cb410ff61f20015ad".
Proof. vm_compute. reflexivity. Qed.

Example sha256_two_blocks :
  EncodeToString (SHA256.Sum256 (bytes_of_string
    "abcdbcdecdefdefgefghfghighijhijkijkljklmklmnlmnomnopnopq"))
  = "248d6a61d20638b8e5c026930c3e6039a33ce45964ff2167f6ecedd419db06c1".
Proof. vm_compute. reflexivity. Qed.

Example hmac_rfc4231_case2 :
  EncodeToString (HMAC.Sum (bytes_of_string "Jefe")
                           (bytes_of_string "what do ya want for nothing?"))
  = "5bdcc146bf60754e6a042426089575c75a003f089d2739839dec58b964ec3843".
Proof. vm_compute. reflexivity. Qed.

Example hmac_rfc4231_case6 :
  EncodeToString (HMAC.Sum (repeat 0xaa 131)
    (bytes_of_string "Test Using Larger Than Block-Size Key - Hash Key First"))
  = "60e431591ee0b67f0d8a26aacbf5b77f8e0bc6213728c5140546040f0ee37f54".
Proof. vm_compute. reflexivity. Qed.

(** ** Rendering *)

(** C9: the actions rendered for an incident hold the acknowledge button
    exactly when its status is "triggered", the resolve button exactly
    when its status is not "resolved", and the reassign selector in every
    case. *)
Theorem C9_action_set (incident : Incident.t) :
  ((ActionAcknowledge, "button") ∈ buttons (getIncidentActions incident)
     <-> Incident.Status incident = "triggered")
  /\ ((ActionResolve, "button") ∈ buttons (getIncidentActions incident)
     <-> Incident.Status incident <> "resolved")
  /\ (ActionReassign, "select") ∈ buttons (getIncidentActions incident).
Proof.
  unfold getIncidentActions, StatusTriggered, StatusResolved.
  destruct (String.eqb_spec (Incident.Status incident) "triggered") as [Ht|Ht];
    destruct (String.eqb_spec (Incident.Status incident) "resolved") as [Hr|Hr];
    cbn [negb app buttons map PostAction.Id PostAction.Type_];
    unfold ActionAcknowledge, ActionResolve, ActionReassign;
    repeat split; intros;
    repeat match goal with
    | H : _ ∈ _ :: _ |- _ => apply elem_of_cons in H; destruct H
    | H : _ ∈ [] |- _ => apply elem_of_nil in H; destruct H
    | H : (_, _) = (_, _) |- _ => discriminate H
    end;
    try congruence;
    repeat (first [ apply list_elem_of_here | apply list_elem_of_further ]).
Qed.

(** ** Normalisation of the events of the current format *)


(** ** Signature verification *)

Lemma bytes_of_string_inj (a b : string) :
  bytes_of_string a = bytes_of_string b -> a = b.
Proof.
  unfold bytes_of_string. revert b.
  induction a as [|c a IH]; intros [|d b] H; cbn in H; try discriminate.
  - reflexivity.
  - injection H as Hc Hr. f_equal.
    + apply N2Z.inj in Hc.
      rewrite <- (ascii_N_embedding c), <- (ascii_N_embedding d).
      now f_equal.
    + now apply IH.
Qed.

Lemma hmac_Equal_strings (a b : string) :
  hmac_Equal (bytes_of_string a) (bytes_of_string b) = true <-> a = b.
Proof.
  unfold hmac_Equal. rewrite bool_decide_eq_true. split.
  - apply bytes_of_string_inj.
  - now intros ->.
Qed.

Lemma HasPrefix_v1 (s : string) :
  HasPrefix s "v1=" = true <-> exists t, s = "v1=" ++ t.
Proof.
  split.
  - destruct s as [|c1 [|c2 [|c3 t]]]; cbn [HasPrefix];
      rewrite ?andb_false_r; try discriminate.
    rewrite andb_true_r, !andb_true_iff, !Ascii.eqb_eq.
    intros (-> & -> & ->). now exists t.
  - intros [t ->]. reflexivity.
Qed.

Lemma TrimPrefix_v1 (t : string) : TrimPrefix ("v1=" ++ t) "v1=" = t.
Proof. reflexivity. Qed.

Lemma hexdigit_not_v (n : Z) : hexdigit n <> "v"%char.
Proof.
  unfold hexdigit, hextable. generalize (Z.to_nat n). intros k.
  do 17 (destruct k as [|k]; [cbn; congruence|]).
  cbn. congruence.
Qed.

Lemma Sum256_shape (data : list Z) :
  length (SHA256.Sum256 data) = 32%nat
  /\ Forall (fun b => 0 <= b < 256) (SHA256.Sum256 data).
Proof.
  unfold SHA256.Sum256.
  generalize (SHA256.blocks (length (data ++ SHA256.pad (length data)) / 64)
                SHA256.init (data ++ SHA256.pad (length data))).
  intros s. cbn [flat_map SHA256.words SHA256.be_bytes app length].
  split; [reflexivity|].
  repeat constructor;
    change 255 with (Z.ones 8); rewrite Z.land_ones by lia;
    apply Z.mod_pos_bound; lia.
Qed.

Lemma calculatedSignature_shape (body secret : string) :
  exists c rest,
    calculatedSignature body secret = String c rest /\ c <> "v"%char.
Proof.
  unfold calculatedSignature, HMAC.Sum.
  destruct (Sum256_shape
    (HMAC.opad (bytes_of_string secret)
       ++ SHA256.Sum256 (HMAC.ipad (bytes_of_string secret)
                           ++ bytes_of_string body))%list) as [Hlen _].
  destruct (SHA256.Sum256 _) as [|b l]; [discriminate Hlen|].
  cbn [EncodeToString]. eexists _, _. split; [reflexivity|].
  apply hexdigit_not_v.
Qed.

Lemma calculatedSignature_not_empty (body secret : string) :
  String.eqb (calculatedSignature body secret) "" = false.
Proof.
  destruct (calculatedSignature_shape body secret) as (c & rest & -> & _).
  reflexivity.
Qed.

Lemma calculatedSignature_no_prefix (body secret : string) :
  HasPrefix (calculatedSignature body secret) "v1=" = false.
Proof.
  destruct (calculatedSignature_shape body secret) as (c & rest & -> & Hc).
  cbn [HasPrefix]. apply andb_false_intro1. now apply Ascii.eqb_neq.
Qed.

Lemma hexdigit_inj (m n : Z) :
  0 <= m < 16 -> 0 <= n < 16 -> hexdigit m = hexdigit n -> m = n.
Proof.
  intros Hm Hn H. apply Z2Nat.inj; try lia.
  assert (Hi : (Z.to_nat m < 16)%nat) by lia.
  assert (Hj : (Z.to_nat n < 16)%nat) by lia.
  revert H Hi Hj. unfold hexdigit, hextable.
  generalize (Z.to_nat m) (Z.to_nat n). intros i j.
  do 16 (destruct i as [|i]; [do 16 (destruct j as [|j];
          [cbn; first [reflexivity|discriminate]|]); intros; lia|]).
  intros; lia.
Qed.

Lemma EncodeToString_inj (a b : list Z) :
  Forall (fun x => 0 <= x < 256) a -> Forall (fun x => 0 <= x < 256) b ->
  EncodeToString a = EncodeToString b -> a = b.
Proof.
  intros Ha. revert b.
  induction Ha as [|x a Hx Ha IH]; intros b Hb; destruct Hb as [|y b Hy Hb];
    cbn [EncodeToString]; intros H; try discriminate; [reflexivity|].
  injection H as Hhi Hlo Hrest.
  assert (Hdiv : forall z, 0 <= z < 256 -> 0 <= Z.shiftr z 4 < 16).
  { intros z Hz. rewrite Z.shiftr_div_pow2 by lia. change (2 ^ 4) with 16.
    split; [apply Z.div_pos; lia|apply Z.div_lt_upper_bound; lia]. }
  assert (Hmod : forall z, Z.land z 15 = z mod 16).
  { intros z. change 15 with (Z.ones 4). now rewrite Z.land_ones by lia. }
  apply hexdigit_inj in Hhi; [|now apply Hdiv..].
  rewrite !Hmod in Hlo.
  apply hexdigit_inj in Hlo; [|apply Z.mod_pos_bound; lia..].
  rewrite !Z.shiftr_div_pow2 in Hhi by lia. change (2 ^ 4) with 16 in Hhi.
  f_equal; [|now apply IH].
  rewrite (Z.div_mod x 16), (Z.div_mod y 16) by lia. congruence.
Qed.

Lemma calculatedSignature_eq (body secret body0 secret0 : string) :
  calculatedSignature body secret = calculatedSignature body0 secret0
  <-> HMAC.Sum (bytes_of_string secret) (bytes_of_string body)
      = HMAC.Sum (bytes_of_string secret0) (bytes_of_string body0).
Proof.
  unfold calculatedSignature. split; [|now intros ->].
  apply EncodeToString_inj; apply Sum256_shape.
Qed.

Lemma verify_spec (r : Request) (secret : string) :
  verifyWebhookSignature r secret = None
  <-> Header r "X-Pagerduty-Signature" <> ""
      /\ TrimPrefix (Header r "X-Pagerduty-Signature") "v1="
         = calculatedSignature (Body r) secret.
Proof.
  unfold verifyWebhookSignature, TrimPrefix.
  destruct (String.eqb_spec (Header r "X-Pagerduty-Signature") "") as [He|He].
  - split; [discriminate|]. now intros [? _].
  - destruct (HasPrefix _ "v1=");
      destruct (hmac_Equal _ _) eqn:Heq;
      (split; [intros H; try discriminate H|intros [_ H]]);
      first [ apply hmac_Equal_strings in Heq; now split
            | reflexivity
            | apply hmac_Equal_strings in H; congruence ].
Qed.

Lemma verify_cases (r : Request) (secret : string) :
  verifyWebhookSignature r secret = None
  \/ verifyWebhookSignature r secret
     = Some "no signature provided in X-Pagerduty-Signature header"
  \/ verifyWebhookSignature r secret = Some "invalid signature".
Proof.
  unfold verifyWebhookSignature.
  repeat match goal with |- context [if ?b then _ else _] => destruct b end;
    auto.
Qed.

Lemma verify_no_signature (r : Request) (secret : string) :
  verifyWebhookSignature r secret
  = Some "no signature provided in X-Pagerduty-Signature header" ->
  Header r "X-Pagerduty-Signature" = "".
Proof.
  unfold verifyWebhookSignature.
  destruct (String.eqb_spec (Header r "X-Pagerduty-Signature") "") as [He|He];
    [easy|].
  destruct (hmac_Equal _ _); discriminate.
Qed.

(** The signature "v1=" followed by the hexadecimal HMAC-SHA256 of the
    body under the secret verifies; a signature verifies only when, once
    a leading "v1=" is stripped, it is that hexadecimal digest; so the
    signature made for one body and secret verifies against other ones
    exactly when their HMAC-SHA256 is the same. Whether a changed byte
    always changes the HMAC-SHA256 is a property of the hash that is not
    settled here. *)
Theorem signature_roundtrip (r : Request) (secret : string) :
  (Header r "X-Pagerduty-Signature"
     = "v1=" ++ calculatedSignature (Body r) secret ->
   verifyWebhookSignature r secret = None)
  /\ (verifyWebhookSignature r secret = None <->
      Header r "X-Pagerduty-Signature" <> ""
      /\ TrimPrefix (Header r "X-Pagerduty-Signature") "v1="
         = calculatedSignature (Body r) secret)
  /\ (forall body0 secret0,
        Header r "X-Pagerduty-Signature"
          = "v1=" ++ calculatedSignature body0 secret0 ->
        (verifyWebhookSignature r secret = None <->
         HMAC.Sum (bytes_of_string secret) (bytes_of_string (Body r))
         = HMAC.Sum (bytes_of_string secret0) (bytes_of_string body0))).
Proof.
  split; [|split].
  - intros H. apply verify_spec. rewrite H, TrimPrefix_v1. now split.
  - apply verify_spec.
  - intros body0 secret0 H.
    rewrite verify_spec, H, TrimPrefix_v1, <- calculatedSignature_eq.
    split; [now intros [_ ->]|now intros ->].
Qed.

Lemma signature_roundtrip_witness :
  verifyWebhookSignature
    (webhook_request ("v1=" ++ calculatedSignature "{}" "s3cret") (JObj []))
    "s3cret" = None.
Proof.
  apply (proj1 (signature_roundtrip
    (webhook_request ("v1=" ++ calculatedSignature "{}" "s3cret") (JObj []))
    "s3cret")).
  reflexivity.
Defined.

(** The signature made for the body "1" under "s3cret" is refused once
    a byte of the body or of the secret is changed. *)
Example flipped_byte_is_refused :
  verifyWebhookSignature
    (webhook_request ("v1=" ++ calculatedSignature "1" "s3cret") (JNum 3))
    "s3cret" = Some "invalid signature"
  /\ verifyWebhookSignature
    (webhook_request ("v1=" ++ calculatedSignature "1" "s3cret") (JNum 1))
    "s3crat" = Some "invalid signature".
Proof. split; vm_compute; reflexivity. Qed.

Lemma length_append (p s : string) :
  String.length (p ++ s) = (String.length p + String.length s)%nat.
Proof. induction p as [|c p IH]; simpl; [reflexivity|now rewrite IH]. Qed.

Lemma append_cancel_r (s p q : string) : p ++ s = q ++ s -> p = q.
Proof.
  revert q. induction p as [|c p IH]; intros [|d q] H; simpl in H.
  - reflexivity.
  - apply (f_equal String.length) in H.
    simpl in H. rewrite ?length_append in H. simpl in H. lia.
  - apply (f_equal String.length) in H.
    simpl in H. rewrite ?length_append in H. simpl in H. lia.
  - injection H as -> H. f_equal. now apply IH.
Qed.

(** C10: a signature without the "v1=" prefix is compared as it is, so
    the bare hexadecimal digest verifies, and the digest behind any
    other non-empty prefix does not. *)
Theorem C10_bare_signature (r : Request) (secret : string) :
  (HasPrefix (Header r "X-Pagerduty-Signature") "v1=" = false ->
     (verifyWebhookSignature r secret = None <->
      Header r "X-Pagerduty-Signature" = calculatedSignature (Body r) secret))
  /\ (Header r "X-Pagerduty-Signature" = calculatedSignature (Body r) secret ->
      verifyWebhookSignature r secret = None)
  /\ (forall prefix,
        prefix <> "" -> prefix <> "v1=" ->
        Header r "X-Pagerduty-Signature"
          = prefix ++ calculatedSignature (Body r) secret ->
        verifyWebhookSignature r secret = Some "invalid signature").
Proof.
  assert (Hbare : Header r "X-Pagerduty-Signature"
                  = calculatedSignature (Body r) secret ->
                  verifyWebhookSignature r secret = None).
  { intros H. apply verify_spec. rewrite H. unfold TrimPrefix.
    rewrite calculatedSignature_no_prefix. split; [|reflexivity].
    intros He. pose proof (calculatedSignature_not_empty (Body r) secret) as Hn.
    rewrite He in Hn. discriminate Hn. }
  split; [|split].
  - intros Hp. split; [|exact Hbare].
    intros H. apply verify_spec in H as [_ H].
    unfold TrimPrefix in H. now rewrite Hp in H.
  - exact Hbare.
  - intros prefix Hne Hv1 H.
    destruct (verify_cases r secret) as [Hv|[Hv|Hv]]; [exfalso|exfalso|exact Hv].
    + apply verify_spec in Hv as [_ Hv]. rewrite H in Hv.
      unfold TrimPrefix in Hv.
      destruct (HasPrefix (prefix ++ _) "v1=") eqn:Hp.
      * apply HasPrefix_v1 in Hp as [t Ht]. rewrite Ht in Hv.
        change (drop_chars (String.length "v1=") ("v1=" ++ t)) with t in Hv.
        subst t. apply append_cancel_r in Ht. contradiction.
      * apply (append_cancel_r _ prefix "") in Hv. contradiction.
    + apply verify_no_signature in Hv. rewrite H in Hv.
      destruct prefix as [|c prefix]; [contradiction|discriminate Hv].
Qed.

Lemma C10_bare_signature_witness :
  verifyWebhookSignature
    (webhook_request (calculatedSignature "{}" "s3cret") (JObj [])) "s3cret"
  = None
  /\ verifyWebhookSignature
    (webhook_request ("v2=" ++ calculatedSignature "{}" "s3cret") (JObj []))
    "s3cret" = Some "invalid signature".
Proof.
  split.
  - apply (proj1 (proj2 (C10_bare_signature
      (webhook_request (calculatedSignature "{}" "s3cret") (JObj []))
      "s3cret"))).
    reflexivity.
  - apply (proj2 (proj2 (C10_bare_signature
      (webhook_request ("v2=" ++ calculatedSignature "{}" "s3cret") (JObj []))
      "s3cret")) "v2="); [discriminate|discriminate|reflexivity].
Defined.

(** ** The stored record survives the key-value store *)

Lemma user_roundtrip (u : User.t) :
  Json.user (Json.of_user u) (User.mk "" "" "") = Ok u.
Proof.
  destruct u as [id name email]. unfold Json.of_user, Json.omitempty_string.
  cbn [User.Email User.ID User.Name].
  destruct (String.eqb_spec email ""); subst; reflexivity.
Qed.

Lemma service_roundtrip (s cur : Service.t) :
  Json.service (Json.of_service s) cur = Ok s.
Proof. destruct s, cur. reflexivity. Qed.

Lemma escalation_policy_roundtrip (e cur : EscalationPolicy.t) :
  Json.escalation_policy (Json.of_escalation_policy e) cur = Ok e.
Proof. destruct e, cur. reflexivity. Qed.

Lemma int_eq (a b : int) : int_val a = int_val b -> a = b.
Proof.
  destruct a as [x Hx], b as [y Hy]. cbn [int_val]. intros ->.
  f_equal. apply proof_irrel.
Qed.

Lemma int_roundtrip (n cur : int) : Json.int_ (JNum (int_val n)) cur = Ok n.
Proof.
  unfold Json.int_. destruct (Is_true_dec (fits_int (int_val n))) as [H|H].
  - f_equal. now apply int_eq.
  - destruct H. apply int_fits.
Qed.

Lemma time_eq (a b : Time) : time.text a = time.text b -> a = b.
Proof.
  destruct a as [x Hx], b as [y Hy]. cbn [time.text]. intros ->.
  f_equal. apply proof_irrel.
Qed.

Lemma time_roundtrip (t cur : Time) : Json.time_ (Json.of_time t) cur = Ok t.
Proof.
  unfold Json.time_, Json.of_time, time.of_text.
  destruct (Is_true_dec (time.accepts (time.text t))) as [H|H].
  - f_equal. now apply time_eq.
  - destruct H. apply time.accepted.
Qed.

Ltac json_fields :=
  lazy -[Json.user Json.of_user Json.service Json.of_service Json.slice_
         Json.escalation_policy Json.of_escalation_policy
         Json.int_ int_val Json.time_ Json.of_time].

Lemma assignment_roundtrip (a : Assignment.t) :
  Json.assignment (Json.of_assignment a) Assignment.zero = Ok a.
Proof.
  destruct a as [who at_]. unfold Json.of_assignment.
  json_fields. rewrite user_roundtrip.
  json_fields. rewrite time_roundtrip. reflexivity.
Qed.

Lemma assignments_roundtrip (l : list Assignment.t) (cur : list Assignment.t) :
  Json.slice_ Json.assignment Assignment.zero
    (JArr (map Json.of_assignment l)) cur = Ok l.
Proof.
  cbn [Json.slice_]. induction l as [|a l IH]; [reflexivity|].
  cbn [map Json.elements]. rewrite assignment_roundtrip, IH. reflexivity.
Qed.

Lemma incident_roundtrip (i : Incident.t) :
  Json.incident (Json.of_incident i) Incident.zero = Ok i.
Proof.
  destruct i. unfold Json.of_incident, Json.omitempty_int.
  cbn [Incident.ID Incident.IncidentNumber Incident.Title Incident.Description
       Incident.Status Incident.Urgency Incident.CreatedAt Incident.Service
       Incident.Assignments Incident.LastStatusChangeBy
       Incident.LastStatusChangeAt Incident.AlertCount Incident.HTMLURL
       Incident.EscalationPolicy].
  destruct (Z.eqb_spec (int_val AlertCount) 0) as [Hzero|Hzero].
  - assert (AlertCount = mkInt 0 I) as -> by now apply int_eq.
    json_fields. rewrite int_roundtrip.
    json_fields. rewrite time_roundtrip.
    json_fields. rewrite service_roundtrip.
    json_fields. rewrite assignments_roundtrip.
    json_fields. rewrite user_roundtrip.
    json_fields. rewrite time_roundtrip.
    json_fields. rewrite escalation_policy_roundtrip. reflexivity.
  - json_fields. rewrite int_roundtrip.
    json_fields. rewrite time_roundtrip.
    json_fields. rewrite service_roundtrip.
    json_fields. rewrite assignments_roundtrip.
    json_fields. rewrite user_roundtrip.
    json_fields. rewrite time_roundtrip.
    json_fields. rewrite int_roundtrip.
    json_fields. rewrite escalation_policy_roundtrip. reflexivity.
Qed.

Lemma post_attachment_roundtrip (a : PostAttachment.t) :
  Json.post_attachment (Json.of_post_attachment a) PostAttachment.zero = Ok a.
Proof.
  destruct a. unfold Json.of_post_attachment.
  lazy -[Json.incident Json.of_incident]. rewrite incident_roundtrip.
  reflexivity.
Qed.

(** ** The correlator *)

Lemma getChannelID_reads (w : World) :
  getChannelID w = (fst (getChannelID w), w).
Proof.
  unfold getChannelID, bind, read, ret.
  destruct (String.eqb _ ""); [reflexivity|].
  destruct (GetChannel _ _); [reflexivity|].
  destruct (GetTeams _); reflexivity.
Qed.

Lemma getChannelID_frame (w w' : World) :
  config w' = config w -> env w' = env w ->
  fst (getChannelID w') = fst (getChannelID w).
Proof.
  intros Hc He. unfold getChannelID, bind, read, ret. cbv beta iota.
  rewrite Hc.
  destruct (String.eqb _ ""); [reflexivity|]. rewrite He.
  destruct (GetChannel _ _); [reflexivity|].
  destruct (GetTeams _); reflexivity.
Qed.

Lemma getIncidentAttachment_reads (incidentID : string) (w : World) :
  getIncidentAttachment incidentID w
  = (fst (getIncidentAttachment incidentID w), w).
Proof.
  unfold getIncidentAttachment, bind, ret, API.KVGet.
  destruct (KVGet_fault _ _); [reflexivity|].
  destruct (kv w !! _) as [data|]; [|reflexivity].
  destruct (Json.post_attachment _ _); reflexivity.
Qed.

Lemma getIncidentAttachment_absent (incidentID : string) (w : World) :
  kv w !! record_key incidentID = None ->
  match fst (getIncidentAttachment incidentID w) with
  | Ok a => a
  | Err _ => None
  end = None.
Proof.
  intros H. unfold getIncidentAttachment, bind, ret, API.KVGet.
  destruct (KVGet_fault _ _); [reflexivity|].
  unfold record_key in H. now rewrite H.
Qed.

Lemma getIncidentAttachment_present (incidentID : string) (w : World)
    (attachment : PostAttachment.t) :
  KVGet_fault (env w) (record_key incidentID) = None ->
  kv w !! record_key incidentID = Some (Json.of_post_attachment attachment) ->
  fst (getIncidentAttachment incidentID w) = Ok (Some attachment).
Proof.
  intros Hf H. unfold getIncidentAttachment, bind, ret, API.KVGet.
  unfold record_key in Hf, H. rewrite Hf, H, post_attachment_roundtrip.
  reflexivity.
Qed.

Lemma handleTriggeredIncident_ok (incident : Incident.t) (channelID : string)
    (w : World) :
  CreatePost_fault (env w) (draft_post incident channelID w) = None ->
  KVSet_fault (env w) (record_key (Incident.ID incident)) = None ->
  handleTriggeredIncident incident channelID w
  = (None, created incident channelID w).
Proof.
  intros Hc Hs.
  unfold handleTriggeredIncident, createIncidentPost, storeIncidentAttachment,
    bind, read, ret, API.CreatePost, API.KVSet.
  cbn [env record_call set_posts set_kv Post.with_Id Post.Id Post.UserId
       Post.ChannelId Post.Props PostAttachment.ID posts kv config botUserID
       calls].
  fold (draft_post incident channelID w). rewrite Hc.
  cbn [env record_call set_posts set_kv Post.with_Id Post.Id Post.UserId
       Post.ChannelId Post.Props PostAttachment.ID posts kv config botUserID
       calls].
  fold (record_key (Incident.ID incident)). rewrite Hs.
  unfold created, new_record, next_post_id, draft_post, record_key.
  unfold set_kv, set_posts, record_call.
  cbn [config botUserID kv posts env calls].
  rewrite <- app_assoc. reflexivity.
Qed.

Lemma processWebhookMessage_unfold (message : WebhookMessage.t) (w : World)
    (channelID : string) :
  fst (getChannelID w) = Ok channelID ->
  processWebhookMessage message w
  = let incident := WebhookMessage.Incident message in
    let attachment :=
      match fst (getIncidentAttachment (Incident.ID incident) w) with
      | Ok a => a
      | Err _ => None
      end in
    let event := WebhookMessage.Event message in
    if String.eqb event EventIncidentTriggered then
      handleTriggeredIncident incident channelID w
    else if String.eqb event EventIncidentAcknowledged
            || String.eqb event EventIncidentResolved
            || String.eqb event EventIncidentReassigned
            || String.eqb event EventIncidentStatusUpdated then
      match attachment with
      | Some attachment => updateIncidentPost incident attachment w
      | None => handleTriggeredIncident incident channelID w
      end
    else (None, w).
Proof.
  intros Hch. unfold processWebhookMessage, bind.
  rewrite getChannelID_reads, Hch, getIncidentAttachment_reads.
  cbv beta iota zeta.
  destruct (String.eqb _ EventIncidentTriggered); [reflexivity|].
  destruct (_ || _); [|reflexivity].
  destruct (fst (getIncidentAttachment _ _)) as [[a|]|]; reflexivity.
Qed.

Lemma update_event_kind_tests (event : string) :
  event ∈ update_event_kinds ->
  String.eqb event EventIncidentTriggered = false
  /\ String.eqb event EventIncidentAcknowledged
     || String.eqb event EventIncidentResolved
     || String.eqb event EventIncidentReassigned
     || String.eqb event EventIncidentStatusUpdated = true.
Proof.
  unfold update_event_kinds. intros H.
  repeat (apply elem_of_cons in H; destruct H as [->|H]; [now split|]).
  apply elem_of_nil in H. destruct H.
Qed.

Lemma updateIncidentPost_missing (incident : Incident.t)
    (attachment : PostAttachment.t) (w : World) :
  posts w !! PostAttachment.PostID attachment = None ->
  updateIncidentPost incident attachment w
  = handleTriggeredIncident incident (PostAttachment.ChannelID attachment) w.
Proof.
  intros H. unfold updateIncidentPost, bind, API.GetPost. now rewrite H.
Qed.

Lemma updateIncidentPost_ok (incident : Incident.t)
    (attachment : PostAttachment.t) (post : Post.t) (w : World) :
  posts w !! PostAttachment.PostID attachment = Some post ->
  Post.Id post = PostAttachment.PostID attachment ->
  UpdatePost_fault (env w)
    (Post.with_Props post (createIncidentProps incident)) = None ->
  KVSet_fault (env w) (record_key (PostAttachment.ID attachment)) = None ->
  updateIncidentPost incident attachment w
  = (None, refreshed incident attachment post w).
Proof.
  intros Hp Hid Hu Hs.
  unfold updateIncidentPost, storeIncidentAttachment, bind, ret, API.GetPost,
    API.UpdatePost, API.KVSet.
  rewrite Hp. unfold record_call, set_posts, set_kv.
  cbn [config botUserID kv posts env calls Post.with_Props Post.Id
       PostAttachment.ID].
  rewrite Hu, Hid, Hp.
  cbn [config botUserID kv posts env calls Post.with_Props Post.Id
       PostAttachment.ID].
  fold (record_key (PostAttachment.ID attachment)). rewrite Hs.
  unfold refreshed. cbn [Post.with_Props Post.Id]. rewrite Hid, <- app_assoc.
  reflexivity.
Qed.

(** C6: an Acknowledged, Resolved, Reassigned or StatusUpdated event for
    an incident without a stored record is processed exactly as a
    Triggered event carrying the same incident; when the channel is
    found and the server accepts the post and the record, a new message
    is created and a new record stored with the incident of the event. *)
Theorem C6_out_of_order_healing (message : WebhookMessage.t) (w : World) :
  WebhookMessage.Event message ∈ update_event_kinds ->
  kv w !! record_key (Incident.ID (WebhookMessage.Incident message)) = None ->
  processWebhookMessage message w
  = processWebhookMessage
      (WebhookMessage.mk (WebhookMessage.ID message) EventIncidentTriggered
         (WebhookMessage.CreatedOn message) (WebhookMessage.Incident message))
      w
  /\ (forall channelID,
        fst (getChannelID w) = Ok channelID ->
        CreatePost_fault (env w)
          (draft_post (WebhookMessage.Incident message) channelID w) = None ->
        KVSet_fault (env w)
          (record_key (Incident.ID (WebhookMessage.Incident message))) = None ->
        processWebhookMessage message w
        = (None, created (WebhookMessage.Incident message) channelID w)).
Proof.
  intros Hev Habsent.
  apply update_event_kind_tests in Hev as [Hnot Hupd].
  apply getIncidentAttachment_absent in Habsent.
  assert (Hpath : forall channelID,
            fst (getChannelID w) = Ok channelID ->
            processWebhookMessage message w
            = handleTriggeredIncident (WebhookMessage.Incident message)
                channelID w).
  { intros channelID Hch.
    rewrite (processWebhookMessage_unfold _ _ _ Hch). cbv zeta.
    now rewrite Hnot, Hupd, Habsent. }
  split.
  - destruct (fst (getChannelID w)) as [channelID|e] eqn:Hch.
    + rewrite (Hpath _ eq_refl).
      now rewrite (processWebhookMessage_unfold _ _ _ Hch).
    + unfold processWebhookMessage, bind.
      rewrite getChannelID_reads, Hch. reflexivity.
  - intros channelID Hch Hc Hs. rewrite (Hpath _ Hch).
    now apply handleTriggeredIncident_ok.
Qed.

Lemma C6_out_of_order_healing_witness :
  processWebhookMessage acknowledged_message (sample_world "alerts")
  = (None, created (sample_incident "acknowledged") "alerts"
             (sample_world "alerts")).
Proof.
  apply (proj2 (C6_out_of_order_healing acknowledged_message
                  (sample_world "alerts")
                  (list_elem_of_here _ _) (lookup_empty _)) "alerts");
    reflexivity.
Defined.

Lemma next_post_id_fresh (w : World) : posts w !! next_post_id w = None.
Proof. unfold next_post_id. apply not_elem_of_dom. apply is_fresh. Qed.

Lemma created_record (incident : Incident.t) (channelID : string) (w : World) :
  KVGet_fault (env w) (record_key (Incident.ID incident)) = None ->
  stored_record (Incident.ID incident) (created incident channelID w)
  = Some (new_record incident channelID w).
Proof.
  intros Hf. unfold stored_record.
  erewrite getIncidentAttachment_present; [reflexivity|exact Hf|].
  apply lookup_insert_eq.
Qed.

Lemma created_post (incident : Incident.t) (channelID : string) (w : World) :
  posts (created incident channelID w) !! next_post_id w
  = Some (Post.with_Id (draft_post incident channelID w) (next_post_id w)).
Proof. apply lookup_insert_eq. Qed.

(** The claim, as it is written, fails for a Triggered event: the record
    of INC1 names the channel "alerts" and a message that is gone, the
    plugin now posts to "ops", and the new message and the record end up
    in "ops". *)
Lemma C7_counterexample :
  let w := lost_message_world "ops" in
  let w' := snd (processWebhookMessage triggered_message w) in
  (PostAttachment.ChannelID <$> stored_record "INC1" w) = Some "alerts"
  /\ (stored_record "INC1" w ≫= fun a => posts w !! PostAttachment.PostID a)
     = None
  /\ fst (processWebhookMessage triggered_message w) = None
  /\ post_channels w' = ["ops"]
  /\ (PostAttachment.ChannelID <$> stored_record "INC1" w') = Some "ops".
Proof. vm_compute. repeat split. Qed.

(** C7 (amended): when the message of an existing record is gone, every
    later event for the incident is processed without error, provided
    the channel is found and the server accepts the post and the record:
    a new message is created, in the channel of the record for an
    Acknowledged, Resolved, Reassigned or StatusUpdated event and in the
    configured channel for a Triggered event, and the record is
    overwritten with the new message identifier, that channel and the
    incident of the event. *)
Theorem C7_deleted_message_self_heal (message : WebhookMessage.t) (w : World)
    (attachment : PostAttachment.t) (channelID : string) :
  let incident := WebhookMessage.Incident message in
  let target :=
    if String.eqb (WebhookMessage.Event message) EventIncidentTriggered
    then channelID else PostAttachment.ChannelID attachment in
  WebhookMessage.Event message ∈ map snd documented_event_kinds ->
  fst (getChannelID w) = Ok channelID ->
  fst (getIncidentAttachment (Incident.ID incident) w) = Ok (Some attachment) ->
  posts w !! PostAttachment.PostID attachment = None ->
  CreatePost_fault (env w) (draft_post incident target w) = None ->
  KVSet_fault (env w) (record_key (Incident.ID incident)) = None ->
  processWebhookMessage message w = (None, created incident target w).
Proof.
  intros incident target Hev Hch Hrec Hgone Hc Hs.
  rewrite (processWebhookMessage_unfold _ _ _ Hch). cbv zeta.
  fold incident. rewrite Hrec. subst target.
  cbn [map snd documented_event_kinds] in Hev.
  apply elem_of_cons in Hev as [Hev|Hev].
  - rewrite Hev in *. cbn [String.eqb] in *.
    change (String.eqb EventIncidentTriggered EventIncidentTriggered)
      with true in *. cbv iota in *.
    now apply handleTriggeredIncident_ok.
  - apply update_event_kind_tests in Hev as [Hnot Hupd].
    rewrite Hnot in *. rewrite Hupd.
    rewrite updateIncidentPost_missing by exact Hgone.
    now apply handleTriggeredIncident_ok.
Qed.

Lemma C7_deleted_message_self_heal_witness :
  processWebhookMessage acknowledged_message (lost_message_world "ops")
  = (None, created (sample_incident "acknowledged") "alerts"
             (lost_message_world "ops")).
Proof.
  apply (C7_deleted_message_self_heal acknowledged_message
           (lost_message_world "ops")
           (PostAttachment.mk "INC1" "gone" "alerts"
                              (sample_incident "triggered")) "ops").
  - apply list_elem_of_further, list_elem_of_here.
  - reflexivity.
  - vm_compute. reflexivity.
  - reflexivity.
  - reflexivity.
  - reflexivity.
Defined.

(** ** Repeated Triggered events *)

(** The claim, as it is written, fails: the same Triggered event
    delivered twice to the sample installation creates two messages, and
    the post is never updated. *)
Lemma C1_counterexample :
  let w1 := snd (processWebhookMessage triggered_message (sample_world "alerts")) in
  let w2 := snd (processWebhookMessage triggered_message w1) in
  map call_name (calls w2) = ["CreatePost"; "KVSet"; "CreatePost"; "KVSet"]
  /\ size (posts w2) = 2%nat
  /\ ~ (length (List.filter (String.eqb "CreatePost")
                            (map call_name (calls w2))) <= 1)%nat.
Proof. vm_compute. repeat split. lia. Qed.

(** C1 (amended): the same Triggered event delivered twice is processed
    twice on the create path, provided the channel is found and the
    server accepts the posts and the records: two messages are created,
    the second delivery does not look at the existing record, and the
    store ends with exactly one record for the incident, which names the
    second message. *)
Theorem C1_duplicate_trigger (message : WebhookMessage.t) (w : World)
    (channelID : string) :
  let incident := WebhookMessage.Incident message in
  let w1 := created incident channelID w in
  let w2 := created incident channelID w1 in
  WebhookMessage.Event message = EventIncidentTriggered ->
  fst (getChannelID w) = Ok channelID ->
  CreatePost_fault (env w) (draft_post incident channelID w) = None ->
  KVSet_fault (env w) (record_key (Incident.ID incident)) = None ->
  processWebhookMessage message w = (None, w1)
  /\ processWebhookMessage message w1 = (None, w2)
  /\ kv w2
     = <[record_key (Incident.ID incident) :=
           Json.of_post_attachment (new_record incident channelID w1)]> (kv w)
  /\ next_post_id w1 <> next_post_id w
  /\ is_Some (posts w2 !! next_post_id w)
  /\ is_Some (posts w2 !! next_post_id w1)
  /\ map call_name (calls w2)
     = (map call_name (calls w)
        ++ ["CreatePost"; "KVSet"; "CreatePost"; "KVSet"])%list.
Proof.
  intros incident w1 w2 Hev Hch Hc Hs.
  assert (Hpath : forall w0, fst (getChannelID w0) = Ok channelID ->
            processWebhookMessage message w0
            = handleTriggeredIncident incident channelID w0).
  { intros w0 H0. rewrite (processWebhookMessage_unfold _ _ _ H0). cbv zeta.
    rewrite Hev. reflexivity. }
  assert (Hne : next_post_id w1 <> next_post_id w).
  { intros Heq. pose proof (next_post_id_fresh w1) as Hf.
    rewrite Heq in Hf. subst w1. rewrite created_post in Hf. discriminate Hf. }
  split; [|split; [|split; [|split; [|split; [|split]]]]].
  - rewrite (Hpath _ Hch). now apply handleTriggeredIncident_ok.
  - rewrite Hpath.
    + apply handleTriggeredIncident_ok; assumption.
    + rewrite <- Hch. now apply getChannelID_frame.
  - subst w2 w1. cbn [kv created]. apply insert_insert_eq.
  - exact Hne.
  - subst w2. cbn [posts created]. rewrite lookup_insert_ne by exact Hne.
    subst w1. rewrite created_post. eauto.
  - subst w2. rewrite created_post. eauto.
  - subst w2 w1. cbn [calls created]. rewrite !map_app, <- app_assoc.
    reflexivity.
Qed.

Lemma C1_duplicate_trigger_witness :
  processWebhookMessage triggered_message (sample_world "alerts")
  = (None, created (sample_incident "triggered") "alerts"
             (sample_world "alerts")).
Proof.
  apply (C1_duplicate_trigger triggered_message (sample_world "alerts")
           "alerts"); reflexivity.
Defined.

(** ** The action handler *)

Lemma HandleIncidentAction_dispatch (r : Request) (incidentID action : string)
    (w : World) (payload : IncidentActionPayload.t) (user : ModelUser.t) :
  dispatchable r w payload user ->
  HandleIncidentAction r incidentID action w
  = if String.eqb action ActionAcknowledge then
      (match UpdateIncident (env w) incidentID StatusAcknowledged
               (ModelUser.Email user) "" with
       | Ok _ => success_response
       | Err _ => http_Error "Failed to update incident" StatusInternalServerError
       end,
       record_call (CallUpdateIncident incidentID StatusAcknowledged
                      (ModelUser.Email user) "") w)
    else if String.eqb action ActionResolve then
      (match UpdateIncident (env w) incidentID StatusResolved
               (ModelUser.Email user) "" with
       | Ok _ => success_response
       | Err _ => http_Error "Failed to update incident" StatusInternalServerError
       end,
       record_call (CallUpdateIncident incidentID StatusResolved
                      (ModelUser.Email user) "") w)
    else if String.eqb action ActionReassign then
      performReassign incidentID (IncidentActionPayload.AssigneeID payload)
                      (ModelUser.Email user) w
    else (http_Error "Invalid action" StatusBadRequest, w).
Proof.
  intros (Hh & (v & Hv & Hp) & Hu). unfold HandleIncidentAction.
  destruct (String.eqb_spec (Header r "Mattermost-User-ID") "") as [|_];
    [contradiction|].
  rewrite Hv, Hp. unfold bind at 1, read. cbv beta iota. rewrite Hu.
  destruct (String.eqb action ActionAcknowledge);
    [|destruct (String.eqb action ActionResolve);
      [|destruct (String.eqb action ActionReassign); reflexivity]];
    unfold bind, pdClient.UpdateIncident; cbv beta iota;
    destruct (UpdateIncident _ _ _ _ _); reflexivity.
Qed.

Lemma other_action_tests (action : string) :
  action ∉ [ActionAcknowledge; ActionResolve; ActionReassign] ->
  String.eqb action ActionAcknowledge = false
  /\ String.eqb action ActionResolve = false
  /\ String.eqb action ActionReassign = false.
Proof.
  intros H. repeat split; apply String.eqb_neq; intros ->; apply H;
    repeat (first [ apply list_elem_of_here | apply list_elem_of_further ]).
Qed.

Lemma HandleIncidentAction_invalid (r : Request) (incidentID action : string)
    (w : World) :
  action ∉ [ActionAcknowledge; ActionResolve; ActionReassign] ->
  snd (HandleIncidentAction r incidentID action w) = w
  /\ StatusCode (fst (HandleIncidentAction r incidentID action w)) <> StatusOK.
Proof.
  intros H. apply other_action_tests in H as (Ha & Hr & Hs).
  assert (Herr : forall msg code, code <> StatusOK ->
            snd (ret (http_Error msg code) w) = w
            /\ StatusCode (fst (ret (http_Error msg code) w)) <> StatusOK)
    by (intros msg code Hcode; now split).
  unfold HandleIncidentAction.
  destruct (String.eqb _ ""); [now apply Herr|].
  destruct (match BodyJSON r with Some _ => _ | None => _ end);
    [|now apply Herr].
  unfold bind, read. cbv beta iota.
  destruct (GetUser _ _); [|now apply Herr].
  rewrite Ha, Hr, Hs. now apply Herr.
Qed.

(** C8: an action other than acknowledge, resolve and reassign is
    answered with an error and reaches no collaborator, and on a request
    the dispatcher can work on the answer is 400 "Invalid action"; a
    reassign whose assignee is "fetch_users" makes one ListUsers call
    and no other, and answers with the users it lists: the answer is 200
    with a JSON body whose one action, the select "reassign", has one
    option for every listed user, in their order, with the name of the
    user as its text and the identifier of the user as its value. *)
Theorem C8_action_validation (r : Request) (incidentID action : string)
    (w : World) (payload : IncidentActionPayload.t) (user : ModelUser.t) :
  (action ∉ [ActionAcknowledge; ActionResolve; ActionReassign] ->
     snd (HandleIncidentAction r incidentID action w) = w
     /\ StatusCode (fst (HandleIncidentAction r incidentID action w)) <> StatusOK
     /\ (dispatchable r w payload user ->
         HandleIncidentAction r incidentID action w
         = (http_Error "Invalid action" StatusBadRequest, w)))
  /\ (action = ActionReassign ->
      IncidentActionPayload.AssigneeID payload = "fetch_users" ->
      dispatchable r w payload user ->
      calls (snd (HandleIncidentAction r incidentID action w))
        = (calls w ++ [CallListUsers])%list
      /\ forall users,
           ListUsers (env w) = Ok users ->
           HandleIncidentAction r incidentID action w
           = (mkResponse StatusOK "application/json"
                (JSONBody
                   (JObj [("update",
                     JObj [("props",
                       JObj [("attachments",
                         JArr [JObj [("actions",
                           JArr [JObj
                             [("id", JStr "reassign");
                              ("name", JStr "Reassign");
                              ("options",
                               match users with
                               | [] => JNull
                               | _ =>
                                   JArr (map (fun user =>
                                                JObj [("text", JStr (User.Name user));
                                                      ("value", JStr (User.ID user))])
                                             users)
                               end);
                              ("type", JStr "select")]])]])])])])),
              record_call CallListUsers w)).
Proof.
  split.
  - intros H. destruct (HandleIncidentAction_invalid r incidentID action w H)
      as [Hw Hc].
    repeat split; [exact Hw|exact Hc|].
    intros Hd. rewrite (HandleIncidentAction_dispatch _ _ _ _ _ _ Hd).
    apply other_action_tests in H as (-> & -> & ->). reflexivity.
  - intros -> Hfetch Hd.
    rewrite (HandleIncidentAction_dispatch _ _ _ _ _ _ Hd), Hfetch.
    change (String.eqb ActionReassign ActionAcknowledge) with false.
    change (String.eqb ActionReassign ActionResolve) with false.
    change (String.eqb ActionReassign ActionReassign) with true.
    cbv iota. unfold performReassign.
    change (String.eqb "fetch_users" "fetch_users") with true. cbv iota.
    unfold bind, pdClient.ListUsers. cbv beta iota.
    split.
    + destruct (ListUsers (env w)); reflexivity.
    + intros users ->. reflexivity.
Qed.

Lemma C8_action_validation_witness :
  HandleIncidentAction launch_missiles_request "INC1" "launch_missiles"
    notified_world
  = (http_Error "Invalid action" StatusBadRequest, notified_world)
  /\ HandleIncidentAction fetch_users_request "INC1" ActionReassign
       notified_world
     = (mkResponse StatusOK "application/json"
          (JSONBody
             (JObj [("update",
               JObj [("props",
                 JObj [("attachments",
                   JArr [JObj [("actions",
                     JArr [JObj
                       [("id", JStr "reassign");
                        ("name", JStr "Reassign");
                        ("options",
                         JArr [JObj [("text", JStr "Alice");
                                     ("value", JStr "PD1")];
                               JObj [("text", JStr "Bob");
                                     ("value", JStr "PD2")]]);
                        ("type", JStr "select")]])]])])])])),
        record_call CallListUsers notified_world).
Proof.
  assert (Hd : forall action assignee,
            dispatchable (action_request "user1" (action_body "INC1" action assignee))
              notified_world
              (IncidentActionPayload.mk "INC1" action "user1" assignee)
              (ModelUser.mk "user1" "a@example.com")).
  { intros action assignee. split; [discriminate|split; [|reflexivity]].
    eexists. split; [reflexivity|].
    unfold action_body, Json.omitempty_string.
    destruct (String.eqb_spec assignee ""); subst; reflexivity. }
  split.
  - apply (proj1 (C8_action_validation launch_missiles_request "INC1"
             "launch_missiles" notified_world
             (IncidentActionPayload.mk "INC1" "launch_missiles" "user1" "")
             (ModelUser.mk "user1" "a@example.com"))).
    + intros H.
      repeat (apply elem_of_cons in H; destruct H as [H|H]; [discriminate H|]).
      apply elem_of_nil in H. destruct H.
    + apply Hd.
  - apply (proj2 (proj2 (C8_action_validation fetch_users_request "INC1"
             ActionReassign notified_world
             (IncidentActionPayload.mk "INC1" "reassign" "user1" "fetch_users")
             (ModelUser.mk "user1" "a@example.com"))
             eq_refl eq_refl (Hd _ _))
             [User.mk "PD1" "Alice" "a@example.com"; User.mk "PD2" "Bob" ""]).
    reflexivity.
Defined.

(** The claim, as it is written, fails: after the notification of INC1
    was posted, an acknowledge that PagerDuty applies is answered with
    success, and the stored record still says "triggered", the message
    is the one posted before, and no post was updated. *)
Lemma C2_counterexample :
  let w := notified_world in
  let result :=
    HandleIncidentAction acknowledge_request "INC1" ActionAcknowledge w in
  UpdateIncident (env w) "INC1" StatusAcknowledged "a@example.com" ""
    = Ok (sample_incident "acknowledged")
  /\ fst result = success_response
  /\ (fun a => Incident.Status (PostAttachment.Incident a))
       <$> stored_record "INC1" (snd result) = Some "triggered"
  /\ posts (snd result) = posts w
  /\ map call_name (calls (snd result))
     = ["CreatePost"; "KVSet"; "UpdateIncident"].
Proof. vm_compute. repeat split. Qed.

(** C2 (amended): for an acknowledge or a resolve on a request the
    dispatcher can work on, when PagerDuty applies the update the handler
    made exactly one call, [UpdateIncident] with the incident, the new
    status, the e-mail address of the user and no note, and answers with
    success; it leaves the stored records and the posted messages as they
    were. *)
Theorem C2_action_without_refresh (r : Request)
    (incidentID action status : string) (w : World)
    (payload : IncidentActionPayload.t) (user : ModelUser.t)
    (updated : Incident.t) :
  dispatchable r w payload user ->
  (action, status) ∈ [(ActionAcknowledge, StatusAcknowledged);
                      (ActionResolve, StatusResolved)] ->
  UpdateIncident (env w) incidentID status (ModelUser.Email user) ""
    = Ok updated ->
  let result := HandleIncidentAction r incidentID action w in
  fst result = success_response
  /\ calls (snd result)
     = (calls w ++ [CallUpdateIncident incidentID status
                      (ModelUser.Email user) ""])%list
  /\ kv (snd result) = kv w
  /\ posts (snd result) = posts w.
Proof.
  intros Hd Hin Hup result. subst result.
  rewrite (HandleIncidentAction_dispatch _ _ _ _ _ _ Hd).
  apply elem_of_cons in Hin as [Hin|Hin].
  - injection Hin as -> ->.
    change (String.eqb ActionAcknowledge ActionAcknowledge) with true.
    cbv iota. rewrite Hup. repeat split.
  - apply elem_of_cons in Hin as [Hin|Hin];
      [|apply elem_of_nil in Hin; destruct Hin].
    injection Hin as -> ->.
    change (String.eqb ActionResolve ActionAcknowledge) with false.
    change (String.eqb ActionResolve ActionResolve) with true.
    cbv iota. rewrite Hup. repeat split.
Qed.

Lemma C2_action_without_refresh_witness :
  let result :=
    HandleIncidentAction acknowledge_request "INC1" ActionAcknowledge
      notified_world in
  fst result = success_response
  /\ calls (snd result)
     = (calls notified_world
        ++ [CallUpdateIncident "INC1" StatusAcknowledged "a@example.com" ""])%list
  /\ kv (snd result) = kv notified_world
  /\ posts (snd result) = posts notified_world.
Proof.
  apply (C2_action_without_refresh acknowledge_request "INC1"
           ActionAcknowledge StatusAcknowledged notified_world
           (IncidentActionPayload.mk "INC1" "acknowledge" "user1" "")
           (ModelUser.mk "user1" "a@example.com")
           (sample_incident "acknowledged")).
  - split; [discriminate|split; [|reflexivity]].
    eexists. split; reflexivity.
  - apply list_elem_of_here.
  - reflexivity.
Defined.

(** ** The webhook ingress and the earlier payload format *)

Lemma lower_ascii_high (c : ascii) :
  (128 <=? N_of_ascii c)%N = true -> lower_ascii c = c.
Proof.
  destruct c as [[] [] [] [] [] [] [] []]; intros H;
    try discriminate H; reflexivity.
Qed.

Lemma plain_char_not (c a : ascii) :
  plain_char a = true ->
  Ascii.eqb "s"%char a = false /\ Ascii.eqb "k"%char a = false
  /\ ((128 <=? N_of_ascii c)%N = true -> Ascii.eqb c a = false).
Proof.
  unfold plain_char. intros H.
  apply andb_true_iff in H as [H Hk]. apply andb_true_iff in H as [Hlow Hs].
  apply negb_true_iff in Hs, Hk. apply N.ltb_lt in Hlow.
  split; [now rewrite Ascii.eqb_sym|split; [now rewrite Ascii.eqb_sym|]].
  intros Hc. apply N.leb_le in Hc. apply Ascii.eqb_neq. intros ->. lia.
Qed.

Lemma foldName_plain (t k : string) :
  plain t = true ->
  String.eqb (Json.foldName k) t = String.eqb (ToLower k) t.
Proof.
  revert k. induction t as [|a t IH]; intros k Ht.
  - destruct k as [|c [|d [|e r]]]; cbn [Json.foldName ToLower];
      repeat match goal with
      | |- context [if ?b then _ else _] => destruct b
      end; reflexivity.
  - cbn [plain] in Ht. apply andb_true_iff in Ht as [Ha Ht].
    destruct k as [|c r]; [reflexivity|].
    assert (Hstep : String.eqb (String (lower_ascii c) (Json.foldName r))
                               (String a t)
                    = String.eqb (ToLower (String c r)) (String a t)).
    { cbn [ToLower String.eqb]. now rewrite (IH r Ht). }
    assert (Hhigh : forall n, (128 <=? n)%N = true ->
              Json.is_byte n c = true ->
              String.eqb (ToLower (String c r)) (String a t) = false).
    { intros n Hn Hc. unfold Json.is_byte in Hc. apply N.eqb_eq in Hc.
      subst n. cbn [ToLower String.eqb]. rewrite (lower_ascii_high c Hn).
      now rewrite (proj2 (proj2 (plain_char_not c a Ha)) Hn). }
    destruct (plain_char_not c a Ha) as (Hs & Hk & _).
    destruct r as [|d r']; [exact Hstep|].
    cbn [Json.foldName].
    destruct (Json.is_byte 197 c && Json.is_byte 191 d) eqn:Hlong.
    { apply andb_true_iff in Hlong as [Hc _].
      rewrite (Hhigh 197%N eq_refl Hc). cbn [String.eqb]. now rewrite Hs. }
    destruct r' as [|e r'']; [exact Hstep|].
    destruct (Json.is_byte 226 c && Json.is_byte 132 d && Json.is_byte 170 e)
      eqn:Hkelvin; [|exact Hstep].
    apply andb_true_iff in Hkelvin as [Hcd _].
    apply andb_true_iff in Hcd as [Hc _].
    rewrite (Hhigh 226%N eq_refl Hc). cbn [String.eqb]. now rewrite Hk.
Qed.

Lemma v3payload_without_event (members : list (string * json))
    (cur : V3WebhookPayload.t) :
  (forall k v, (k, v) ∈ members -> EqualFold k "event" = false) ->
  Json.v3payload (JObj members) cur = Ok cur.
Proof.
  unfold Json.v3payload, Json.struct_. revert cur.
  induction members as [|[k v] members IH]; intros cur H; [reflexivity|].
  cbn [fold_left rbind fst snd]. unfold Json.v3payload_field at 2.
  unfold Json.tagged. change (Json.foldName "event") with "event".
  rewrite (foldName_plain "event" k eq_refl).
  change (String.eqb (ToLower k) "event") with (EqualFold k "event").
  rewrite (H k v) by apply list_elem_of_here.
  apply IH. intros k' v' Hin. apply (H k' v'). now apply list_elem_of_further.
Qed.

(** The claim, as it is written, fails: the body decodes, by the tags of
    [WebhookPayload], to a list with one Triggered message; the handler
    answers 200 and does nothing, where processing that message creates
    a post and stores a record. *)
Lemma C5_counterexample :
  let w := sample_world "alerts" in
  Json.webhook_payload legacy_payload (WebhookPayload.mk [])
    = Ok (WebhookPayload.mk [triggered_message])
  /\ HandleWebhook (webhook_request "" legacy_payload) w
     = (mkResponse StatusOK "" NoBody, w)
  /\ map call_name (calls (snd (processWebhookMessage triggered_message w)))
     = ["CreatePost"; "KVSet"].
Proof. vm_compute. repeat split. Qed.

(** C5 (amended): the webhook ingress decodes the body in the current
    format only. A POST whose body is an object without an "event"
    member, as a payload of the earlier format with its list of messages
    is, is answered with 200 and gives no canonical event: nothing is
    processed, whatever the list holds. *)
Theorem C5_legacy_payload_ignored (r : Request) (w : World)
    (members : list (string * json)) :
  Method r = "POST" ->
  BodyJSON r = Some (JObj members) ->
  (forall k v, (k, v) ∈ members -> EqualFold k "event" = false) ->
  HandleWebhook r w = (mkResponse StatusOK "" NoBody, w).
Proof.
  intros Hm Hb Hk. unfold HandleWebhook. rewrite Hm, Hb.
  change (negb (String.eqb "POST" "POST")) with false. cbv iota.
  unfold bind at 1, read. cbv beta iota zeta.
  rewrite (v3payload_without_event _ _ Hk). reflexivity.
Qed.

Lemma C5_legacy_payload_ignored_witness :
  HandleWebhook (webhook_request "" legacy_payload) (sample_world "alerts")
  = (mkResponse StatusOK "" NoBody, sample_world "alerts").
Proof.
  apply (C5_legacy_payload_ignored (webhook_request "" legacy_payload)
           (sample_world "alerts")
           [("messages",
             JArr [JObj [("id", JStr "EV1");
                         ("event", JStr "incident.triggered");
                         ("incident",
                          Json.of_incident (sample_incident "triggered"))]])]).
  - reflexivity.
  - reflexivity.
  - intros k v H. apply elem_of_cons in H as [H|H].
    + injection H as -> _. reflexivity.
    + apply elem_of_nil in H. destruct H.
Defined.


(** ** The scenarios of the specification *)

(** A Triggered event of the current format for INC1, high urgency: one
    record, one red message with the three actions. *)
Example scenario_trigger :
  let result :=
    HandleWebhook
      (webhook_request "" (v3_payload "incident.triggered"
                                      (sample_incident "triggered")))
      (sample_world "alerts") in
  result = (mkResponse StatusOK "" NoBody, notified_world)
  /\ shown "INC1" (snd result)
     = Some ("#FF0000", [(ActionAcknowledge, "button");
                         (ActionResolve, "button");
                         (ActionReassign, "select")]).
Proof. vm_compute. split; reflexivity. Qed.

(** An Acknowledged event that follows updates the message in place:
    yellow, without the acknowledge button. *)
Example scenario_acknowledged_event :
  let result :=
    HandleWebhook
      (webhook_request "" (v3_payload "incident.acknowledged"
                                      (sample_incident "acknowledged")))
      notified_world in
  fst result = mkResponse StatusOK "" NoBody
  /\ map call_name (calls (snd result))
     = ["CreatePost"; "KVSet"; "UpdatePost"; "KVSet"]
  /\ size (posts (snd result)) = 1%nat
  /\ shown "INC1" (snd result)
     = Some ("#FFFF00", [(ActionResolve, "button");
                         (ActionReassign, "select")]).
Proof. vm_compute. repeat split. Qed.

(** * Further properties of the code *)

(** ** The paths of the correlator, case by case *)

Lemma handleTriggeredIncident_create_refused (incident : Incident.t)
    (channelID : string) (w : World) (e : string) :
  CreatePost_fault (env w) (draft_post incident channelID w) = Some e ->
  handleTriggeredIncident incident channelID w
  = (Some ("failed to create post: " ++ e),
     record_call (CallCreatePost (draft_post incident channelID w)) w).
Proof.
  intros Hc.
  unfold handleTriggeredIncident, createIncidentPost, bind, read, ret,
    API.CreatePost.
  cbn [env record_call]. fold (draft_post incident channelID w).
  now rewrite Hc.
Qed.

Lemma handleTriggeredIncident_unrecorded (incident : Incident.t)
    (channelID : string) (w : World) (e : string) :
  CreatePost_fault (env w) (draft_post incident channelID w) = None ->
  KVSet_fault (env w) (record_key (Incident.ID incident)) = Some e ->
  handleTriggeredIncident incident channelID w
  = (Some (Wrap ("failed to store attachment in KV store: " ++ e)
                "failed to store incident attachment"),
     create_unrecorded incident channelID w).
Proof.
  intros Hc Hs.
  unfold handleTriggeredIncident, createIncidentPost, storeIncidentAttachment,
    bind, read, ret, API.CreatePost, API.KVSet.
  cbn [env record_call]. fold (draft_post incident channelID w). rewrite Hc.
  unfold set_posts, record_call.
  cbn [env config botUserID kv posts calls PostAttachment.ID].
  fold (record_key (Incident.ID incident)). rewrite Hs.
  unfold create_unrecorded, new_record, next_post_id.
  cbn [Post.with_Id Post.Id]. rewrite <- app_assoc. reflexivity.
Qed.

Lemma handleTriggeredIncident_outcome (incident : Incident.t)
    (channelID : string) (w : World) :
  outcome w (fst (handleTriggeredIncident incident channelID w))
            (snd (handleTriggeredIncident incident channelID w)).
Proof.
  destruct (CreatePost_fault (env w) (draft_post incident channelID w))
    as [e|] eqn:Hc.
  - rewrite (handleTriggeredIncident_create_refused _ _ _ _ Hc).
    cbn [fst snd]. apply outcome_create_refused.
  - destruct (KVSet_fault (env w) (record_key (Incident.ID incident)))
      as [e|] eqn:Hs.
    + rewrite (handleTriggeredIncident_unrecorded _ _ _ _ Hc Hs).
      cbn [fst snd]. apply outcome_create_unrecorded.
    + rewrite (handleTriggeredIncident_ok _ _ _ Hc Hs).
      cbn [fst snd]. apply outcome_created.
Qed.

Lemma updateIncidentPost_refused (incident : Incident.t)
    (attachment : PostAttachment.t) (post : Post.t) (w : World) :
  posts w !! PostAttachment.PostID attachment = Some post ->
  UpdatePost_fault (env w)
    (Post.with_Props post (createIncidentProps incident)) <> None
  \/ posts w !! Post.Id post = None ->
  exists e,
    updateIncidentPost incident attachment w
    = (Some ("failed to update post: " ++ e),
       record_call
         (CallUpdatePost (Post.with_Props post (createIncidentProps incident)))
         w).
Proof.
  intros Hp Hwhy.
  unfold updateIncidentPost, bind, ret, API.GetPost, API.UpdatePost.
  rewrite Hp. cbn [env record_call posts Post.with_Props Post.Id].
  destruct (UpdatePost_fault _ _) as [e|]; [now exists e|].
  destruct Hwhy as [Hf|Hn]; [contradiction|]. rewrite Hn. now eexists.
Qed.

Lemma updateIncidentPost_unrecorded (incident : Incident.t)
    (attachment : PostAttachment.t) (post : Post.t) (w : World) (e : string) :
  posts w !! PostAttachment.PostID attachment = Some post ->
  UpdatePost_fault (env w)
    (Post.with_Props post (createIncidentProps incident)) = None ->
  is_Some (posts w !! Post.Id post) ->
  KVSet_fault (env w) (record_key (PostAttachment.ID attachment)) = Some e ->
  updateIncidentPost incident attachment w
  = (Some (Wrap ("failed to store attachment in KV store: " ++ e)
                "failed to update incident attachment"),
     update_unrecorded incident attachment post w).
Proof.
  intros Hp Hu [q Hq] Hs.
  unfold updateIncidentPost, storeIncidentAttachment, bind, ret, API.GetPost,
    API.UpdatePost, API.KVSet.
  rewrite Hp. unfold record_call, set_posts, set_kv.
  cbn [config botUserID kv posts env calls Post.with_Props Post.Id
       PostAttachment.ID].
  rewrite Hu, Hq.
  cbn [config botUserID kv posts env calls Post.with_Props Post.Id
       PostAttachment.ID].
  fold (record_key (PostAttachment.ID attachment)). rewrite Hs.
  unfold update_unrecorded. cbn [Post.with_Props Post.Id].
  rewrite <- app_assoc. reflexivity.
Qed.

Lemma updateIncidentPost_refreshed (incident : Incident.t)
    (attachment : PostAttachment.t) (post : Post.t) (w : World) :
  posts w !! PostAttachment.PostID attachment = Some post ->
  UpdatePost_fault (env w)
    (Post.with_Props post (createIncidentProps incident)) = None ->
  is_Some (posts w !! Post.Id post) ->
  KVSet_fault (env w) (record_key (PostAttachment.ID attachment)) = None ->
  updateIncidentPost incident attachment w
  = (None, refreshed incident attachment post w).
Proof.
  intros Hp Hu [q Hq] Hs.
  unfold updateIncidentPost, storeIncidentAttachment, bind, ret, API.GetPost,
    API.UpdatePost, API.KVSet.
  rewrite Hp. unfold record_call, set_posts, set_kv.
  cbn [config botUserID kv posts env calls Post.with_Props Post.Id
       PostAttachment.ID].
  rewrite Hu, Hq.
  cbn [config botUserID kv posts env calls Post.with_Props Post.Id
       PostAttachment.ID].
  fold (record_key (PostAttachment.ID attachment)). rewrite Hs.
  unfold refreshed. cbn [Post.with_Props Post.Id].
  rewrite <- app_assoc. reflexivity.
Qed.

Lemma updateIncidentPost_outcome (incident : Incident.t)
    (attachment : PostAttachment.t) (w : World) :
  outcome w (fst (updateIncidentPost incident attachment w))
            (snd (updateIncidentPost incident attachment w)).
Proof.
  destruct (posts w !! PostAttachment.PostID attachment) as [post|] eqn:Hp.
  - destruct (UpdatePost_fault (env w)
                (Post.with_Props post (createIncidentProps incident)))
      as [e|] eqn:Hu.
    + destruct (updateIncidentPost_refused incident attachment post w Hp)
        as [e' He'].
      * left. rewrite Hu. discriminate.
      * rewrite He'. cbn [fst snd]. apply outcome_update_refused.
    + destruct (posts w !! Post.Id post) as [q|] eqn:Hq.
      * destruct (KVSet_fault (env w)
                    (record_key (PostAttachment.ID attachment))) as [e|] eqn:Hs.
        -- rewrite (updateIncidentPost_unrecorded _ _ _ _ _ Hp Hu
                      (ex_intro _ q Hq) Hs).
           cbn [fst snd]. apply outcome_update_unrecorded;
             [exact Hp|now exists q].
        -- rewrite (updateIncidentPost_refreshed _ _ _ _ Hp Hu
                      (ex_intro _ q Hq) Hs).
           cbn [fst snd]. apply outcome_refreshed; [exact Hp|now exists q].
      * destruct (updateIncidentPost_refused incident attachment post w Hp)
          as [e' He'].
        -- now right.
        -- rewrite He'. cbn [fst snd]. apply outcome_update_refused.
  - rewrite (updateIncidentPost_missing _ _ _ Hp).
    apply handleTriggeredIncident_outcome.
Qed.

Lemma processWebhookMessage_outcome (message : WebhookMessage.t) (w : World) :
  outcome w (fst (processWebhookMessage message w))
            (snd (processWebhookMessage message w)).
Proof.
  destruct (fst (getChannelID w)) as [channelID|e] eqn:Hch.
  - rewrite (processWebhookMessage_unfold _ _ _ Hch). cbv zeta.
    destruct (String.eqb _ EventIncidentTriggered);
      [apply handleTriggeredIncident_outcome|].
    destruct (_ || _); [|cbn [fst snd]; apply outcome_untouched].
    destruct (match fst (getIncidentAttachment _ _) with
              | Ok a => a | Err _ => None end) as [a|].
    + apply updateIncidentPost_outcome.
    + apply handleTriggeredIncident_outcome.
  - unfold processWebhookMessage, bind.
    rewrite getChannelID_reads, Hch. cbn [fst snd]. apply outcome_untouched.
Qed.

Lemma handleTriggeredIncident_success (incident : Incident.t)
    (channelID : string) (w : World) :
  fst (handleTriggeredIncident incident channelID w) = None ->
  handleTriggeredIncident incident channelID w
  = (None, created incident channelID w).
Proof.
  intros H.
  destruct (CreatePost_fault (env w) (draft_post incident channelID w))
    as [e|] eqn:Hc.
  - rewrite (handleTriggeredIncident_create_refused _ _ _ _ Hc) in H.
    discriminate H.
  - destruct (KVSet_fault (env w) (record_key (Incident.ID incident)))
      as [e|] eqn:Hs.
    + rewrite (handleTriggeredIncident_unrecorded _ _ _ _ Hc Hs) in H.
      discriminate H.
    + now apply handleTriggeredIncident_ok.
Qed.

Lemma updateIncidentPost_success (incident : Incident.t)
    (attachment : PostAttachment.t) (w : World) :
  fst (updateIncidentPost incident attachment w) = None ->
  (posts w !! PostAttachment.PostID attachment = None
   /\ updateIncidentPost incident attachment w
      = (None, created incident (PostAttachment.ChannelID attachment) w))
  \/ (exists post,
        posts w !! PostAttachment.PostID attachment = Some post
        /\ is_Some (posts w !! Post.Id post)
        /\ updateIncidentPost incident attachment w
           = (None, refreshed incident attachment post w)).
Proof.
  intros H.
  destruct (posts w !! PostAttachment.PostID attachment) as [post|] eqn:Hp.
  - right. exists post. split; [reflexivity|].
    destruct (UpdatePost_fault (env w)
                (Post.with_Props post (createIncidentProps incident)))
      as [e|] eqn:Hu.
    + destruct (updateIncidentPost_refused incident attachment post w Hp)
        as [e' He']; [left; rewrite Hu; discriminate|].
      rewrite He' in H. discriminate H.
    + destruct (posts w !! Post.Id post) as [q|] eqn:Hq.
      * split; [now exists q|].
        destruct (KVSet_fault (env w)
                    (record_key (PostAttachment.ID attachment))) as [e|] eqn:Hs.
        -- rewrite (updateIncidentPost_unrecorded _ _ _ _ _ Hp Hu
                      (ex_intro _ q Hq) Hs) in H.
           discriminate H.
        -- apply updateIncidentPost_refreshed; [exact Hp|exact Hu| |exact Hs].
           now exists q.
      * destruct (updateIncidentPost_refused incident attachment post w Hp)
          as [e' He']; [now right|].
        rewrite He' in H. discriminate H.
  - left. split; [reflexivity|].
    rewrite (updateIncidentPost_missing _ _ _ Hp) in *.
    now apply handleTriggeredIncident_success.
Qed.

Lemma record_key_inj (a b : string) : record_key a = record_key b -> a = b.
Proof.
  unfold record_key, KeyIncidentAttachments. intros H.
  repeat (simpl in H; injection H as H). exact H.
Qed.

Lemma stored_record_present (incidentID : string) (w : World)
    (a : PostAttachment.t) :
  stored_record incidentID w = Some a ->
  fst (getIncidentAttachment incidentID w) = Ok (Some a).
Proof.
  unfold stored_record.
  destruct (fst (getIncidentAttachment incidentID w)) as [[b|]|e];
    intros H; now inversion H.
Qed.

(** ** The record in the key-value store *)

(** X1: a record that was stored is read back as it was, when the store
    accepts the write and the read. *)
Theorem X1_store_then_get (attachment : PostAttachment.t) (w : World) :
  KVSet_fault (env w) (record_key (PostAttachment.ID attachment)) = None ->
  KVGet_fault (env w) (record_key (PostAttachment.ID attachment)) = None ->
  fst (storeIncidentAttachment attachment w) = None
  /\ fst (getIncidentAttachment (PostAttachment.ID attachment)
            (snd (storeIncidentAttachment attachment w)))
     = Ok (Some attachment).
Proof.
  intros Hs Hg.
  unfold storeIncidentAttachment, bind, ret, API.KVSet.
  cbn [env record_call]. fold (record_key (PostAttachment.ID attachment)).
  rewrite Hs. cbn [fst snd]. split; [reflexivity|].
  apply getIncidentAttachment_present; [exact Hg|].
  unfold set_kv. cbn [kv]. apply lookup_insert_eq.
Qed.

Lemma X1_store_then_get_witness :
  fst (getIncidentAttachment "INC1"
         (snd (storeIncidentAttachment
                 (PostAttachment.mk "INC1" "post1" "alerts"
                                    (sample_incident "resolved"))
                 (sample_world "alerts"))))
  = Ok (Some (PostAttachment.mk "INC1" "post1" "alerts"
                                (sample_incident "resolved"))).
Proof.
  apply (X1_store_then_get
           (PostAttachment.mk "INC1" "post1" "alerts"
                              (sample_incident "resolved"))
           (sample_world "alerts")); reflexivity.
Defined.

(** ** Creating and refreshing a notification *)

(** X2: when the server refuses the post, [handleTriggeredIncident]
    returns the error of the server behind "failed to create post: ",
    stores no record, and has made the one call [CreatePost]. *)
Theorem X2_create_refused (incident : Incident.t) (channelID : string)
    (w : World) (e : string) :
  CreatePost_fault (env w) (draft_post incident channelID w) = Some e ->
  let result := handleTriggeredIncident incident channelID w in
  fst result = Some ("failed to create post: " ++ e)
  /\ kv (snd result) = kv w
  /\ posts (snd result) = posts w
  /\ calls (snd result)
     = (calls w ++ [CallCreatePost (draft_post incident channelID w)])%list.
Proof.
  intros Hc result. subst result.
  rewrite (handleTriggeredIncident_create_refused _ _ _ _ Hc).
  repeat split.
Qed.

Lemma X2_create_refused_witness :
  fst (handleTriggeredIncident (sample_incident "triggered") "alerts"
         (with_env (refuse_posts sample_env) (sample_world "alerts")))
  = Some "failed to create post: post refused".
Proof.
  apply (X2_create_refused (sample_incident "triggered") "alerts"
           (with_env (refuse_posts sample_env) (sample_world "alerts"))
           "post refused").
  reflexivity.
Defined.

(** X3: when the server accepts the post and the store refuses the
    record, [handleTriggeredIncident] returns an error although the
    message now exists: the new post is in place and the store is as it
    was, so the message has no record. *)
Theorem X3_create_unrecorded (incident : Incident.t) (channelID : string)
    (w : World) (e : string) :
  CreatePost_fault (env w) (draft_post incident channelID w) = None ->
  KVSet_fault (env w) (record_key (Incident.ID incident)) = Some e ->
  let result := handleTriggeredIncident incident channelID w in
  fst result
    = Some ("failed to store incident attachment: "
            ++ "failed to store attachment in KV store: " ++ e)
  /\ kv (snd result) = kv w
  /\ posts w !! next_post_id w = None
  /\ posts (snd result) !! next_post_id w
     = Some (Post.mk (next_post_id w)
               (if String.eqb (botUserID w) "" then "system" else botUserID w)
               channelID (createIncidentProps incident)).
Proof.
  intros Hc Hs result. subst result.
  rewrite (handleTriggeredIncident_unrecorded _ _ _ _ Hc Hs).
  cbn [fst snd kv posts create_unrecorded].
  split; [reflexivity|split; [reflexivity|split]].
  - apply next_post_id_fresh.
  - apply lookup_insert_eq.
Qed.

Lemma X3_create_unrecorded_witness :
  fst (handleTriggeredIncident (sample_incident "triggered") "alerts"
         (with_env (refuse_writes sample_env) (sample_world "alerts")))
  = Some ("failed to store incident attachment: "
          ++ "failed to store attachment in KV store: " ++ "store refused").
Proof.
  apply (X3_create_unrecorded (sample_incident "triggered") "alerts"
           (with_env (refuse_writes sample_env) (sample_world "alerts"))
           "store refused"); reflexivity.
Defined.

(** X4: when the message of a record exists and the server accepts the
    update and the record, [updateIncidentPost] refreshes in place: the
    record keeps its incident identifier, message identifier and
    channel and takes the new incident; the message keeps its
    identifier, author and channel and takes the props of the new
    incident; no post is added and [CreatePost] is not called. *)
Theorem X4_update_in_place (incident : Incident.t)
    (attachment : PostAttachment.t) (post : Post.t) (w : World) :
  posts w !! PostAttachment.PostID attachment = Some post ->
  Post.Id post = PostAttachment.PostID attachment ->
  UpdatePost_fault (env w)
    (Post.with_Props post (createIncidentProps incident)) = None ->
  KVSet_fault (env w) (record_key (PostAttachment.ID attachment)) = None ->
  let result := updateIncidentPost incident attachment w in
  fst result = None
  /\ kv (snd result)
     = <[record_key (PostAttachment.ID attachment) :=
           Json.of_post_attachment
             (PostAttachment.mk (PostAttachment.ID attachment)
                (PostAttachment.PostID attachment)
                (PostAttachment.ChannelID attachment) incident)]> (kv w)
  /\ posts (snd result)
     = <[PostAttachment.PostID attachment :=
           Post.mk (Post.Id post) (Post.UserId post) (Post.ChannelId post)
                   (createIncidentProps incident)]> (posts w)
  /\ dom (posts (snd result)) = dom (posts w)
  /\ map call_name (calls (snd result))
     = (map call_name (calls w) ++ ["UpdatePost"; "KVSet"])%list.
Proof.
  intros Hp Hid Hu Hs result. subst result.
  rewrite (updateIncidentPost_ok _ _ _ _ Hp Hid Hu Hs).
  cbn [fst snd kv posts calls refreshed]. rewrite <- Hid.
  split; [reflexivity|split; [reflexivity|split; [reflexivity|split]]].
  - rewrite dom_insert_L, Hid.
    assert (Hin : PostAttachment.PostID attachment ∈ dom (posts w))
      by (apply elem_of_dom; now exists post).
    apply set_eq. intros k. rewrite elem_of_union, elem_of_singleton.
    split; [intros [->|Hk]; assumption|now right].
  - rewrite map_app. reflexivity.
Qed.

Lemma X4_update_in_place_witness :
  fst (updateIncidentPost (sample_incident "acknowledged")
         (new_record (sample_incident "triggered") "alerts"
                     (sample_world "alerts"))
         notified_world) = None.
Proof.
  apply (X4_update_in_place (sample_incident "acknowledged")
           (new_record (sample_incident "triggered") "alerts"
                       (sample_world "alerts"))
           (Post.with_Id (draft_post (sample_incident "triggered") "alerts"
                                     (sample_world "alerts"))
                         (next_post_id (sample_world "alerts")))
           notified_world).
  - apply created_post.
  - reflexivity.
  - reflexivity.
  - reflexivity.
Defined.

(** X5: when the server refuses the update of the message,
    [updateIncidentPost] returns the error of the server behind "failed
    to update post: " and leaves the record and the posts as they were:
    the stored incident is not replaced. *)
Theorem X5_update_refused (incident : Incident.t)
    (attachment : PostAttachment.t) (post : Post.t) (w : World) (e : string) :
  posts w !! PostAttachment.PostID attachment = Some post ->
  UpdatePost_fault (env w)
    (Post.with_Props post (createIncidentProps incident)) = Some e ->
  let result := updateIncidentPost incident attachment w in
  fst result = Some ("failed to update post: " ++ e)
  /\ kv (snd result) = kv w
  /\ posts (snd result) = posts w
  /\ map call_name (calls (snd result))
     = (map call_name (calls w) ++ ["UpdatePost"])%list.
Proof.
  intros Hp Hu result. subst result.
  unfold updateIncidentPost, bind, ret, API.GetPost, API.UpdatePost.
  rewrite Hp. cbn [env record_call posts Post.with_Props Post.Id].
  rewrite Hu. unfold record_call. cbn [fst snd kv posts calls].
  split; [reflexivity|split; [reflexivity|split; [reflexivity|]]].
  rewrite map_app. reflexivity.
Qed.

Lemma X5_update_refused_witness :
  fst (updateIncidentPost (sample_incident "acknowledged")
         (new_record (sample_incident "triggered") "alerts"
                     (sample_world "alerts"))
         (with_env (refuse_updates sample_env) notified_world))
  = Some "failed to update post: update refused".
Proof.
  apply (X5_update_refused (sample_incident "acknowledged")
           (new_record (sample_incident "triggered") "alerts"
                       (sample_world "alerts"))
           (Post.with_Id (draft_post (sample_incident "triggered") "alerts"
                                     (sample_world "alerts"))
                         (next_post_id (sample_world "alerts")))
           (with_env (refuse_updates sample_env) notified_world)
           "update refused").
  - apply created_post.
  - reflexivity.
Defined.

(** ** One delivery, from the outside *)

(** X6: after a Triggered, Acknowledged, Resolved, Reassigned or
    StatusUpdated event was processed without error, the record of the
    incident holds the incident of the event, and the message that record
    names exists and shows that incident. The posts are filed under
    their identifiers and the record read for the incident, if any, is
    the record of that incident. *)
Theorem X6_processed_event_is_shown (message : WebhookMessage.t) (w : World) :
  let incident := WebhookMessage.Incident message in
  let w' := snd (processWebhookMessage message w) in
  WebhookMessage.Event message ∈ map snd documented_event_kinds ->
  posts_keyed w ->
  (forall a, stored_record (Incident.ID incident) w = Some a ->
             PostAttachment.ID a = Incident.ID incident) ->
  fst (processWebhookMessage message w) = None ->
  exists a p,
    kv w' !! record_key (Incident.ID incident)
      = Some (Json.of_post_attachment a)
    /\ PostAttachment.ID a = Incident.ID incident
    /\ PostAttachment.Incident a = incident
    /\ posts w' !! PostAttachment.PostID a = Some p
    /\ Post.Id p = PostAttachment.PostID a
    /\ Post.Props p = createIncidentProps incident.
Proof.
  intros incident w' Hev Hkeyed Hown Hok. subst w'.
  assert (Hcreated : forall channelID,
            let w' := created incident channelID w in
            exists a p,
              kv w' !! record_key (Incident.ID incident)
                = Some (Json.of_post_attachment a)
              /\ PostAttachment.ID a = Incident.ID incident
              /\ PostAttachment.Incident a = incident
              /\ posts w' !! PostAttachment.PostID a = Some p
              /\ Post.Id p = PostAttachment.PostID a
              /\ Post.Props p = createIncidentProps incident).
  { intros channelID. exists (new_record incident channelID w).
    eexists. cbn [kv posts created].
    split; [apply lookup_insert_eq|].
    split; [reflexivity|split; [reflexivity|]].
    split; [apply lookup_insert_eq|split; reflexivity]. }
  destruct (fst (getChannelID w)) as [channelID|e] eqn:Hch.
  2:{ unfold processWebhookMessage, bind in Hok.
      rewrite getChannelID_reads, Hch in Hok. discriminate Hok. }
  rewrite (processWebhookMessage_unfold _ _ _ Hch) in *. cbv zeta in *.
  fold incident in Hok |- *.
  fold (stored_record (Incident.ID incident) w) in Hok |- *.
  cbn [map snd documented_event_kinds] in Hev.
  apply elem_of_cons in Hev as [Hev|Hev].
  - rewrite Hev in *.
    change (String.eqb EventIncidentTriggered EventIncidentTriggered)
      with true in *. cbv iota in *.
    rewrite (handleTriggeredIncident_success _ _ _ Hok). apply Hcreated.
  - apply update_event_kind_tests in Hev as [Hnot Hupd].
    rewrite Hnot, Hupd in *.
    destruct (stored_record (Incident.ID incident) w) as [a0|] eqn:Hrec.
    + destruct (updateIncidentPost_success _ _ _ Hok)
        as [[_ ->]|(post & Hp & _ & ->)]; [apply Hcreated|].
      pose proof (Hown a0 eq_refl) as Ha0.
      pose proof (Hkeyed _ _ Hp) as Hid.
      exists (PostAttachment.mk (PostAttachment.ID a0)
                (PostAttachment.PostID a0) (PostAttachment.ChannelID a0)
                incident).
      exists (Post.with_Props post (createIncidentProps incident)).
      cbn [snd kv posts refreshed PostAttachment.ID PostAttachment.PostID
           PostAttachment.Incident].
      rewrite Ha0, Hid.
      split; [apply lookup_insert_eq|].
      split; [reflexivity|split; [reflexivity|]].
      split; [apply lookup_insert_eq|split; [exact Hid|reflexivity]].
    + rewrite (handleTriggeredIncident_success _ _ _ Hok). apply Hcreated.
Qed.

Lemma posts_keyed_empty (w : World) : posts w = ∅ -> posts_keyed w.
Proof. intros H k p Hk. rewrite H, lookup_empty in Hk. discriminate Hk. Qed.

Lemma X6_processed_event_is_shown_witness :
  exists a p,
    kv (snd (processWebhookMessage acknowledged_message (sample_world "alerts")))
      !! record_key "INC1" = Some (Json.of_post_attachment a)
    /\ PostAttachment.ID a = "INC1"
    /\ PostAttachment.Incident a = sample_incident "acknowledged"
    /\ posts (snd (processWebhookMessage acknowledged_message
                     (sample_world "alerts")))
         !! PostAttachment.PostID a = Some p
    /\ Post.Id p = PostAttachment.PostID a
    /\ Post.Props p = createIncidentProps (sample_incident "acknowledged").
Proof.
  apply (X6_processed_event_is_shown acknowledged_message
           (sample_world "alerts")).
  - apply list_elem_of_further, list_elem_of_here.
  - now apply posts_keyed_empty.
  - intros a H. vm_compute in H. discriminate H.
  - vm_compute. reflexivity.
Defined.

Lemma handleTriggeredIncident_kv (incident : Incident.t) (channelID : string)
    (w : World) (k : string) :
  k <> record_key (Incident.ID incident) ->
  kv (snd (handleTriggeredIncident incident channelID w)) !! k = kv w !! k.
Proof.
  intros Hk.
  destruct (CreatePost_fault (env w) (draft_post incident channelID w))
    as [e|] eqn:Hc.
  - now rewrite (handleTriggeredIncident_create_refused _ _ _ _ Hc).
  - destruct (KVSet_fault (env w) (record_key (Incident.ID incident)))
      as [e|] eqn:Hs.
    + now rewrite (handleTriggeredIncident_unrecorded _ _ _ _ Hc Hs).
    + rewrite (handleTriggeredIncident_ok _ _ _ Hc Hs).
      cbn [snd kv created]. now apply lookup_insert_ne.
Qed.

Lemma updateIncidentPost_kv (incident : Incident.t)
    (attachment : PostAttachment.t) (w : World) (k : string) :
  k <> record_key (Incident.ID incident) ->
  k <> record_key (PostAttachment.ID attachment) ->
  kv (snd (updateIncidentPost incident attachment w)) !! k = kv w !! k.
Proof.
  intros Hk Hk'.
  destruct (posts w !! PostAttachment.PostID attachment) as [post|] eqn:Hp.
  - assert (Hrefused : (exists e, updateIncidentPost incident attachment w
              = (Some ("failed to update post: " ++ e),
                 record_call (CallUpdatePost
                   (Post.with_Props post (createIncidentProps incident))) w)) ->
              kv (snd (updateIncidentPost incident attachment w)) !! k
              = kv w !! k)
      by (intros [e ->]; reflexivity).
    destruct (UpdatePost_fault (env w)
                (Post.with_Props post (createIncidentProps incident)))
      as [e|] eqn:Hu.
    + apply Hrefused, (updateIncidentPost_refused _ _ _ _ Hp).
      left. rewrite Hu. discriminate.
    + destruct (posts w !! Post.Id post) as [q|] eqn:Hq.
      * destruct (KVSet_fault (env w)
                    (record_key (PostAttachment.ID attachment))) as [e|] eqn:Hs.
        -- now rewrite (updateIncidentPost_unrecorded _ _ _ _ _ Hp Hu
                          (ex_intro _ q Hq) Hs).
        -- rewrite (updateIncidentPost_refreshed _ _ _ _ Hp Hu
                      (ex_intro _ q Hq) Hs).
           cbn [snd kv refreshed]. now apply lookup_insert_ne.
      * apply Hrefused, (updateIncidentPost_refused _ _ _ _ Hp). now right.
  - rewrite (updateIncidentPost_missing _ _ _ Hp).
    now apply handleTriggeredIncident_kv.
Qed.

(** X7: processing an event for one incident leaves the record of every
    other incident as it was, provided the record read for the incident,
    if any, is the record of that incident. *)
Theorem X7_other_records_untouched (message : WebhookMessage.t) (w : World)
    (k : string) :
  let incident := WebhookMessage.Incident message in
  (forall a, stored_record (Incident.ID incident) w = Some a ->
             PostAttachment.ID a = Incident.ID incident) ->
  k <> record_key (Incident.ID incident) ->
  kv (snd (processWebhookMessage message w)) !! k = kv w !! k.
Proof.
  intros incident Hown Hk.
  destruct (fst (getChannelID w)) as [channelID|e] eqn:Hch.
  2:{ unfold processWebhookMessage, bind.
      now rewrite getChannelID_reads, Hch. }
  rewrite (processWebhookMessage_unfold _ _ _ Hch). cbv zeta.
  fold incident. fold (stored_record (Incident.ID incident) w).
  destruct (String.eqb _ EventIncidentTriggered);
    [now apply handleTriggeredIncident_kv|].
  destruct (_ || _); [|reflexivity].
  destruct (stored_record (Incident.ID incident) w) as [a0|] eqn:Hrec.
  - apply updateIncidentPost_kv; [exact Hk|].
    now rewrite (Hown a0 eq_refl).
  - now apply handleTriggeredIncident_kv.
Qed.

Lemma X7_other_records_untouched_witness :
  kv (snd (processWebhookMessage acknowledged_message notified_world))
    !! record_key "INC2"
  = kv notified_world !! record_key "INC2".
Proof.
  apply (X7_other_records_untouched acknowledged_message notified_world
           (record_key "INC2")).
  - intros a H. vm_compute in H. injection H as <-. reflexivity.
  - discriminate.
Defined.

(** X8: while no default channel is configured, [processWebhookMessage]
    fails for every message, whatever its event and whatever the store
    and the server hold, and changes nothing; the webhook handler then
    answers 500 to every incident event of a documented type. *)
Theorem X8_unconfigured_channel (w : World) :
  DefaultChannel (config w) = "" ->
  (forall message,
     processWebhookMessage message w
     = (Some "failed to get channel ID: default channel not configured", w))
  /\ (forall r payload,
        Method r = "POST" ->
        match BodyJSON r with
        | None => Err "invalid character"
        | Some v => Json.v3payload v V3WebhookPayload.zero
        end = Ok payload ->
        V3Event.ResourceType (V3WebhookPayload.Event payload) = "incident" ->
        V3Event.EventType (V3WebhookPayload.Event payload)
          ∈ map fst documented_event_kinds ->
        HandleWebhook r w
        = (http_Error "Failed to process event" StatusInternalServerError, w)).
Proof.
  intros Hcfg.
  assert (Hmsg : forall message,
     processWebhookMessage message w
     = (Some "failed to get channel ID: default channel not configured", w)).
  { intros message. unfold processWebhookMessage, bind.
    rewrite getChannelID_reads. unfold getChannelID, bind, read, ret.
    cbv beta iota. rewrite Hcfg. reflexivity. }
  split; [exact Hmsg|].
  intros r payload Hm Hdec Hres Hty.
  unfold HandleWebhook. rewrite Hm, Hdec.
  change (negb (String.eqb "POST" "POST")) with false. cbv iota.
  unfold bind at 1, read. cbv beta iota zeta.
  unfold processV3WebhookEvent. rewrite Hres.
  change (negb (String.eqb "incident" "incident")) with false. cbv iota.
  cbn [map fst documented_event_kinds] in Hty.
  unfold bind.
  repeat (apply elem_of_cons in Hty as [Hty|Hty];
          [rewrite Hty; cbv zeta; cbn [String.eqb Ascii.eqb Bool.eqb];
           rewrite Hmsg; reflexivity|]).
  apply elem_of_nil in Hty. destruct Hty.
Qed.

Lemma X8_unconfigured_channel_witness :
  HandleWebhook
    (webhook_request "" (v3_payload "incident.triggered"
                                    (sample_incident "triggered")))
    (sample_world "")
  = (http_Error "Failed to process event" StatusInternalServerError,
     sample_world "").
Proof.
  apply (proj2 (X8_unconfigured_channel (sample_world "") eq_refl)
           (webhook_request "" (v3_payload "incident.triggered"
                                           (sample_incident "triggered")))
           (V3WebhookPayload.mk
              (V3Event.mk "EV1" "incident.triggered" "incident" ""
                          V3Reference.zero (sample_incident "triggered")))).
  - reflexivity.
  - vm_compute. reflexivity.
  - reflexivity.
  - apply list_elem_of_here.
Defined.

Lemma processV3WebhookEvent_outcome (event : V3Event.t) (w : World) :
  outcome w (fst (processV3WebhookEvent event w))
            (snd (processV3WebhookEvent event w)).
Proof.
  unfold processV3WebhookEvent.
  destruct (negb _); [apply outcome_untouched|]. cbv zeta.
  repeat match goal with
  | |- context [if String.eqb ?a ?b then _ else _] =>
      destruct (String.eqb a b); [apply processWebhookMessage_outcome|]
  end.
  apply outcome_untouched.
Qed.

Lemma HandleWebhook_outcome (r : Request) (w : World) :
  exists err, outcome w err (snd (HandleWebhook r w)).
Proof.
  unfold HandleWebhook.
  destruct (negb _); [exists None; apply outcome_untouched|].
  unfold bind at 1, read. cbv beta iota zeta.
  destruct (match BodyJSON r with Some _ => _ | None => _ end) as [payload|e];
    [|exists None; apply outcome_untouched].
  unfold bind.
  pose proof (processV3WebhookEvent_outcome
                (V3WebhookPayload.Event payload) w) as Ho.
  destruct (processV3WebhookEvent (V3WebhookPayload.Event payload) w)
    as [[e|] w'] eqn:Hp; cbn [fst snd] in Ho |- *; eauto.
Qed.

Lemma outcome_calls (w w' : World) (err : option string) :
  outcome w err w' ->
  exists new,
    calls w' = (calls w ++ new)%list
    /\ map call_name new ∈ delivery_call_names.
Proof.
  unfold delivery_call_names.
  intros [ | | | | | | ].
  - exists []. split; [now rewrite app_nil_r|apply list_elem_of_here].
  - eexists [_]. split; [reflexivity|].
    apply list_elem_of_further, list_elem_of_here.
  - eexists [_; _]. split; [reflexivity|].
    do 2 apply list_elem_of_further. apply list_elem_of_here.
  - eexists [_; _]. split; [reflexivity|].
    do 2 apply list_elem_of_further. apply list_elem_of_here.
  - eexists [_]. split; [reflexivity|].
    do 3 apply list_elem_of_further. apply list_elem_of_here.
  - eexists [_; _]. split; [reflexivity|].
    do 4 apply list_elem_of_further. apply list_elem_of_here.
  - eexists [_; _]. split; [reflexivity|].
    do 4 apply list_elem_of_further. apply list_elem_of_here.
Qed.

(** X9: whatever the request, one run of the webhook handler adds to the
    calls already made at most one write of a post, a create or an
    update, followed by at most one write of a record; it never calls
    PagerDuty. *)
Theorem X9_delivery_writes_at_most_twice (r : Request) (w : World) :
  exists new,
    calls (snd (HandleWebhook r w)) = (calls w ++ new)%list
    /\ map call_name new ∈ delivery_call_names
    /\ existsb is_remote_call new = false.
Proof.
  destruct (HandleWebhook_outcome r w) as [err Ho].
  destruct (outcome_calls _ _ _ Ho) as (new & Hcalls & Hnames).
  exists new. split; [exact Hcalls|split; [exact Hnames|]].
  unfold delivery_call_names in Hnames.
  repeat (apply elem_of_cons in Hnames as [Hnames|Hnames];
          [repeat (destruct new as [|[] new]; try discriminate Hnames);
           reflexivity|]).
  apply elem_of_nil in Hnames. destruct Hnames.
Qed.

Lemma outcome_posts (w w' : World) (err : option string) :
  outcome w err w' ->
  posts_keyed w ->
  posts_keyed w'
  /\ forall k p,
       posts w !! k = Some p ->
       exists p',
         posts w' !! k = Some p'
         /\ Post.Id p' = Post.Id p
         /\ Post.UserId p' = Post.UserId p
         /\ Post.ChannelId p' = Post.ChannelId p.
Proof.
  assert (Hsame : forall m : gmap string Post.t, forall k p,
            m !! k = Some p ->
            exists p', m !! k = Some p' /\ Post.Id p' = Post.Id p
                       /\ Post.UserId p' = Post.UserId p
                       /\ Post.ChannelId p' = Post.ChannelId p)
    by (intros m k p H; exists p; auto).
  assert (Hnew : forall incident channelID,
            posts_keyed w ->
            let m := <[next_post_id w :=
                         Post.with_Id (draft_post incident channelID w)
                                      (next_post_id w)]> (posts w) in
            (forall k p, m !! k = Some p -> Post.Id p = k)
            /\ forall k p,
                 posts w !! k = Some p ->
                 exists p', m !! k = Some p' /\ Post.Id p' = Post.Id p
                            /\ Post.UserId p' = Post.UserId p
                            /\ Post.ChannelId p' = Post.ChannelId p).
  { intros incident channelID Hk m. subst m. split.
    - intros k p. rewrite lookup_insert. case_decide as Hd.
      + intros H. injection H as <-. now subst k.
      + apply Hk.
    - intros k p Hp. exists p. rewrite lookup_insert_ne; [auto|].
      intros <-. rewrite next_post_id_fresh in Hp. discriminate Hp. }
  assert (Hupd : forall incident attachment post,
            posts w !! PostAttachment.PostID attachment = Some post ->
            posts_keyed w ->
            let m := <[Post.Id post :=
                         Post.with_Props post (createIncidentProps incident)]>
                       (posts w) in
            (forall k p, m !! k = Some p -> Post.Id p = k)
            /\ forall k p,
                 posts w !! k = Some p ->
                 exists p', m !! k = Some p' /\ Post.Id p' = Post.Id p
                            /\ Post.UserId p' = Post.UserId p
                            /\ Post.ChannelId p' = Post.ChannelId p).
  { intros incident attachment post Hpost Hk m. subst m.
    pose proof (Hk _ _ Hpost) as Hid. split.
    - intros k p. rewrite lookup_insert. case_decide as Hd.
      + intros H. injection H as <-. exact Hd.
      + apply Hk.
    - intros k p Hp. rewrite lookup_insert. case_decide as Hd.
      + subst k. rewrite Hid, Hpost in Hp. injection Hp as <-.
        eexists. split; [reflexivity|]. now split.
      + now exists p. }
  intros [ | | | | | incident attachment post e Hpost _
           | incident attachment post Hpost _ ] Hk;
    try (split; [exact Hk|intros k p; apply Hsame]).
  - apply (Hnew incident channelID Hk).
  - apply (Hnew incident channelID Hk).
  - apply (Hupd incident attachment post Hpost Hk).
  - apply (Hupd incident attachment post Hpost Hk).
Qed.

(** X10: when the posts are filed under their identifiers, they still
    are after a run of the webhook handler, and every post that existed
    still exists under its identifier, with its author and in its
    channel: the handler deletes no message and moves none. *)
Theorem X10_posts_are_kept (r : Request) (w : World) :
  posts_keyed w ->
  posts_keyed (snd (HandleWebhook r w))
  /\ forall k p,
       posts w !! k = Some p ->
       exists p',
         posts (snd (HandleWebhook r w)) !! k = Some p'
         /\ Post.Id p' = Post.Id p
         /\ Post.UserId p' = Post.UserId p
         /\ Post.ChannelId p' = Post.ChannelId p.
Proof.
  intros Hk. destruct (HandleWebhook_outcome r w) as [err Ho].
  exact (outcome_posts _ _ _ Ho Hk).
Qed.

Lemma posts_keyed_notified : posts_keyed notified_world.
Proof.
  intros k p. unfold notified_world, created. cbn [posts].
  rewrite lookup_insert. case_decide as Hk.
  - intros H. injection H as <-. exact Hk.
  - unfold sample_world. cbn [posts]. now rewrite lookup_empty.
Qed.

Lemma X10_posts_are_kept_witness :
  exists p p',
    posts notified_world !! next_post_id (sample_world "alerts") = Some p
    /\ posts (snd (HandleWebhook
                     (webhook_request ""
                        (v3_payload "incident.acknowledged"
                                    (sample_incident "acknowledged")))
                     notified_world))
         !! next_post_id (sample_world "alerts") = Some p'
    /\ Post.Id p' = Post.Id p
    /\ Post.UserId p' = Post.UserId p
    /\ Post.ChannelId p' = Post.ChannelId p.
Proof.
  assert (Hp : posts notified_world !! next_post_id (sample_world "alerts")
               = Some (Post.with_Id
                         (draft_post (sample_incident "triggered") "alerts"
                                     (sample_world "alerts"))
                         (next_post_id (sample_world "alerts"))))
    by apply lookup_insert_eq.
  destruct (proj2 (X10_posts_are_kept
                     (webhook_request ""
                        (v3_payload "incident.acknowledged"
                                    (sample_incident "acknowledged")))
                     notified_world posts_keyed_notified) _ _ Hp)
    as (p' & Hp' & Hsame).
  eexists. exists p'. split; [exact Hp|]. split; [exact Hp'|exact Hsame].
Defined.

(** X11: the webhook handler does not act on the signature: two
    requests with the same method and the same JSON body are handled
    alike, whatever their headers and whatever secret is configured, so
    a delivery whose signature is missing or wrong is processed like a
    signed one. *)
Theorem X11_signature_is_not_enforced (r r' : Request) (w : World) :
  Method r = Method r' ->
  BodyJSON r = BodyJSON r' ->
  HandleWebhook r w = HandleWebhook r' w.
Proof.
  intros Hm Hb. unfold HandleWebhook. rewrite Hm, Hb.
  destruct (negb _); [reflexivity|].
  unfold bind at 1 3, read. cbv beta iota zeta. reflexivity.
Qed.

Lemma X11_signature_is_not_enforced_witness :
  verifyWebhookSignature
    (webhook_request "v1=00" (v3_payload "incident.triggered"
                                         (sample_incident "triggered")))
    "s3cret" = Some "invalid signature"
  /\ HandleWebhook
       (webhook_request "v1=00" (v3_payload "incident.triggered"
                                            (sample_incident "triggered")))
       secured_world
     = HandleWebhook
         (webhook_request
            ("v1=" ++ calculatedSignature
                        (Json.render (v3_payload "incident.triggered"
                                        (sample_incident "triggered")))
                        "s3cret")
            (v3_payload "incident.triggered" (sample_incident "triggered")))
         secured_world.
Proof.
  split; [vm_compute; reflexivity|].
  apply (X11_signature_is_not_enforced
           (webhook_request "v1=00" (v3_payload "incident.triggered"
                                                (sample_incident "triggered")))
           (webhook_request
              ("v1=" ++ calculatedSignature
                          (Json.render (v3_payload "incident.triggered"
                                          (sample_incident "triggered")))
                          "s3cret")
              (v3_payload "incident.triggered" (sample_incident "triggered")))
           secured_world); reflexivity.
Defined.

(** X12: the webhook handler answers with one of five fixed responses.
    A method other than POST gets 405; a POST whose body cannot be read
    gets 400 "Failed to read request body" and one whose body does not
    decode gets 400 "Invalid JSON payload"; the three are without any
    effect. A body that decodes gets 200 when the event was processed
    without error and 500 otherwise, and the text of the 500 answer does
    not depend on the error. *)
Theorem X12_webhook_answers (d : Delivery) (w : World) :
  match d with
  | Broken method header err =>
      (method <> "POST" ->
         HandleWebhook_on d w
         = (http_Error "Method not allowed" StatusMethodNotAllowed, w))
      /\ (method = "POST" ->
          HandleWebhook_on d w
          = (http_Error "Failed to read request body" StatusBadRequest, w))
  | Delivered r =>
      (Method r <> "POST" ->
         HandleWebhook_on d w
         = (http_Error "Method not allowed" StatusMethodNotAllowed, w))
      /\ (Method r = "POST" ->
          (forall e, decoded_event r = Err e ->
             HandleWebhook_on d w
             = (http_Error "Invalid JSON payload" StatusBadRequest, w))
          /\ (forall payload, decoded_event r = Ok payload ->
                let processed :=
                  processV3WebhookEvent (V3WebhookPayload.Event payload) w in
                snd (HandleWebhook_on d w) = snd processed
                /\ (fst processed = None ->
                    fst (HandleWebhook_on d w) = mkResponse StatusOK "" NoBody)
                /\ (fst processed <> None ->
                    fst (HandleWebhook_on d w)
                    = http_Error "Failed to process event"
                                 StatusInternalServerError)))
  end.
Proof.
  destruct d as [r|method header err]; cbn [HandleWebhook_on].
  - unfold HandleWebhook, decoded_event. split.
    + intros Hm. apply String.eqb_neq in Hm. now rewrite Hm.
    + intros ->. change (negb (String.eqb "POST" "POST")) with false.
      cbv iota. unfold bind at 1 3 5 7, read. cbv beta iota zeta. split.
      * intros e ->. reflexivity.
      * intros payload ->. unfold bind.
        destruct (processV3WebhookEvent (V3WebhookPayload.Event payload) w)
          as [[e|] w']; cbn [fst snd]; repeat split; try reflexivity;
          intros H; try discriminate H; now destruct H.
  - split.
    + intros Hm. apply String.eqb_neq in Hm. now rewrite Hm.
    + intros ->. reflexivity.
Qed.

Lemma X12_webhook_answers_witness :
  HandleWebhook_on (Delivered (mkRequest "GET" (fun _ => "") "" None))
    notified_world
  = (http_Error "Method not allowed" StatusMethodNotAllowed, notified_world)
  /\ HandleWebhook_on (Delivered (mkRequest "POST" (fun _ => "") "{" None))
       notified_world
     = (http_Error "Invalid JSON payload" StatusBadRequest, notified_world)
  /\ HandleWebhook_on (Broken "POST" (fun _ => "") "unexpected EOF")
       notified_world
     = (http_Error "Failed to read request body" StatusBadRequest,
        notified_world)
  /\ HandleWebhook_on (Delivered bad_time_request) notified_world
     = (http_Error "Invalid JSON payload" StatusBadRequest, notified_world)
  /\ HandleWebhook_on (Delivered bad_number_request) notified_world
     = (http_Error "Invalid JSON payload" StatusBadRequest, notified_world).
Proof.
  split; [|split; [|split; [|split]]].
  - apply (proj1 (X12_webhook_answers
                    (Delivered (mkRequest "GET" (fun _ => "") "" None))
                    notified_world)).
    discriminate.
  - apply (proj1 (proj2 (X12_webhook_answers
                    (Delivered (mkRequest "POST" (fun _ => "") "{" None))
                    notified_world)
                    eq_refl) "invalid character").
    reflexivity.
  - apply (proj2 (X12_webhook_answers
                    (Broken "POST" (fun _ => "") "unexpected EOF")
                    notified_world)).
    reflexivity.
  - apply (proj1 (proj2 (X12_webhook_answers (Delivered bad_time_request)
                            notified_world)
                    eq_refl) ("parsing time " ++ "yesterday")).
    vm_compute. reflexivity.
  - apply (proj1 (proj2 (X12_webhook_answers (Delivered bad_number_request)
                            notified_world)
                    eq_refl) (Json.type_error "int")).
    vm_compute. reflexivity.
Defined.

(** ** Rendering, further *)

(** X13: the props of an incident hold one attachment and the marker
    from_webhook = "true"; the attachment is red exactly for a triggered
    incident of high urgency, yellow exactly for an acknowledged one,
    green exactly for a resolved one, and orange in every other case,
    an unknown status included. *)
Theorem X13_colors (incident : Incident.t) :
  exists attachment,
    createIncidentProps incident = Props.mk [attachment] "true"
    /\ SlackAttachment.Actions attachment = getIncidentActions incident
    /\ (SlackAttachment.Color attachment = "#FF0000"
        <-> Incident.Status incident = "triggered"
            /\ Incident.Urgency incident = "high")
    /\ (SlackAttachment.Color attachment = "#FFFF00"
        <-> Incident.Status incident = "acknowledged")
    /\ (SlackAttachment.Color attachment = "#008000"
        <-> Incident.Status incident = "resolved")
    /\ (SlackAttachment.Color attachment <> "#FF0000" ->
        SlackAttachment.Color attachment <> "#FFFF00" ->
        SlackAttachment.Color attachment <> "#008000" ->
        SlackAttachment.Color attachment = "#FFA500").
Proof.
  unfold createIncidentProps. eexists. split; [reflexivity|].
  cbn [SlackAttachment.Color SlackAttachment.Actions].
  split; [reflexivity|].
  unfold StatusTriggered, StatusAcknowledged, StatusResolved.
  destruct (String.eqb_spec (Incident.Status incident) "triggered") as [Ht|Ht];
    [destruct (String.eqb_spec (Incident.Urgency incident) "high") as [Hu|Hu]|
     destruct (String.eqb_spec (Incident.Status incident) "acknowledged")
       as [Ha|Ha];
     [|destruct (String.eqb_spec (Incident.Status incident) "resolved")
         as [Hr|Hr]]];
    repeat split; intros; try discriminate; try congruence;
    repeat match goal with H : _ /\ _ |- _ => destruct H end;
    try congruence.
Qed.

(** X14: every action rendered for an incident is wired to that
    incident: its URL is the route of the plugin for the incident and
    for the action's own identifier, and its context names the incident
    and that identifier; the identifiers are taken, in this order and
    without repetition, from acknowledge, resolve, reassign. *)
Theorem X14_actions_are_wired (incident : Incident.t) :
  Forall (fun a =>
            PostAction.Integration a
            = PostActionIntegration.mk
                ("/plugins/com.github.mnzsyu.mattermost-pagerduty-plugin"
                 ++ "/api/v1/incidents/" ++ Incident.ID incident ++ "/"
                 ++ PostAction.Id a)
                [("incident_id", Incident.ID incident);
                 ("action", PostAction.Id a)])
         (getIncidentActions incident)
  /\ sublist (map PostAction.Id (getIncidentActions incident))
             [ActionAcknowledge; ActionResolve; ActionReassign].
Proof.
  unfold getIncidentActions.
  destruct (String.eqb _ StatusTriggered); destruct (negb _);
    cbn [app map PostAction.Id]; split;
    repeat (constructor; try reflexivity).
Qed.

(** ** Finding the channel *)

Lemma match_channel_sound (channelValue : string) (channels : list Channel.t)
    (id : string) :
  match_channel channelValue channels = Some id ->
  exists ch,
    ch ∈ channels /\ Channel.Id ch = id
    /\ (EqualFold (Channel.Name ch) channelValue = true
        \/ EqualFold (Channel.DisplayName ch) channelValue = true).
Proof.
  induction channels as [|ch channels IH]; cbn [match_channel];
    [discriminate|].
  destruct (EqualFold (Channel.Name ch) channelValue
            || EqualFold (Channel.DisplayName ch) channelValue) eqn:Hm.
  - intros H. injection H as <-. exists ch.
    split; [apply list_elem_of_here|split; [reflexivity|]].
    now apply orb_true_iff.
  - intros H. destruct (IH H) as (ch' & Hin & Hrest).
    exists ch'. split; [now apply list_elem_of_further|exact Hrest].
Qed.

Lemma match_channel_none (channelValue : string) (channels : list Channel.t) :
  match_channel channelValue channels = None ->
  forall ch, ch ∈ channels ->
    EqualFold (Channel.Name ch) channelValue = false
    /\ EqualFold (Channel.DisplayName ch) channelValue = false.
Proof.
  induction channels as [|c channels IH]; cbn [match_channel]; intros H ch Hin.
  - apply elem_of_nil in Hin. destruct Hin.
  - destruct (EqualFold (Channel.Name c) channelValue
              || EqualFold (Channel.DisplayName c) channelValue) eqn:Hm;
      [discriminate H|].
    apply elem_of_cons in Hin as [->|Hin]; [now apply orb_false_iff|].
    now apply IH.
Qed.

(** X15: the search of [getChannelID] through the teams is exact. When
    it answers with a channel, some team has a channel of exactly that
    name, or a channel whose name or display name is the wanted one up
    to letter case; when it answers "channel not found in any team", no
    team has either. *)
Theorem X15_team_search (c : Collaborators) (channelValue : string)
    (teams : list Team.t) :
  (forall id,
     search_teams c channelValue teams = Ok id ->
     exists team, team ∈ teams
       /\ ((exists ch, GetChannelByName c (Team.Id team) channelValue = Ok ch
                       /\ Channel.Id ch = id)
           \/ (exists channels ch,
                 GetChannelsForTeamForUser c (Team.Id team) "me" = Ok channels
                 /\ ch ∈ channels /\ Channel.Id ch = id
                 /\ (EqualFold (Channel.Name ch) channelValue = true
                     \/ EqualFold (Channel.DisplayName ch) channelValue
                        = true))))
  /\ (forall e,
        search_teams c channelValue teams = Err e ->
        e = "channel not found in any team: " ++ channelValue
        /\ forall team, team ∈ teams ->
             (forall ch, GetChannelByName c (Team.Id team) channelValue
                         <> Ok ch)
             /\ forall channels ch,
                  GetChannelsForTeamForUser c (Team.Id team) "me" = Ok channels ->
                  ch ∈ channels ->
                  EqualFold (Channel.Name ch) channelValue = false
                  /\ EqualFold (Channel.DisplayName ch) channelValue = false).
Proof.
  induction teams as [|team teams [IHok IHerr]]; cbn [search_teams].
  - split; [discriminate|].
    intros e H. injection H as <-. split; [reflexivity|].
    intros team Hin. apply elem_of_nil in Hin. destruct Hin.
  - assert (Hlift : forall id,
              (exists t, t ∈ teams
                 /\ ((exists ch, GetChannelByName c (Team.Id t) channelValue
                                 = Ok ch /\ Channel.Id ch = id)
                     \/ (exists channels ch,
                           GetChannelsForTeamForUser c (Team.Id t) "me"
                           = Ok channels
                           /\ ch ∈ channels /\ Channel.Id ch = id
                           /\ (EqualFold (Channel.Name ch) channelValue = true
                               \/ EqualFold (Channel.DisplayName ch)
                                    channelValue = true)))) ->
              exists t, t ∈ team :: teams
                 /\ ((exists ch, GetChannelByName c (Team.Id t) channelValue
                                 = Ok ch /\ Channel.Id ch = id)
                     \/ (exists channels ch,
                           GetChannelsForTeamForUser c (Team.Id t) "me"
                           = Ok channels
                           /\ ch ∈ channels /\ Channel.Id ch = id
                           /\ (EqualFold (Channel.Name ch) channelValue = true
                               \/ EqualFold (Channel.DisplayName ch)
                                    channelValue = true)))).
    { intros id (t & Hin & H). exists t.
      split; [now apply list_elem_of_further|exact H]. }
    destruct (GetChannelByName c (Team.Id team) channelValue)
      as [channel|e0] eqn:Hname.
    { split; [|discriminate].
      intros id H. injection H as <-. exists team.
      split; [apply list_elem_of_here|]. left. now exists channel. }
    destruct (GetChannelsForTeamForUser c (Team.Id team) "me")
      as [channels|e1] eqn:Hlist.
    + destruct (match_channel channelValue channels) as [found|] eqn:Hfound.
      * split; [|discriminate].
        intros id H. injection H as <-. exists team.
        split; [apply list_elem_of_here|]. right.
        destruct (match_channel_sound _ _ _ Hfound) as (ch & Hin & Hid & Hm).
        now exists channels, ch.
      * split; [intros id H; apply Hlift, IHok, H|].
        intros e H. destruct (IHerr e H) as [-> Hall].
        split; [reflexivity|].
        intros t Hin. apply elem_of_cons in Hin as [->|Hin]; [|now apply Hall].
        rewrite Hname, Hlist. split; [discriminate|].
        intros chans ch Heq Hch. injection Heq as <-.
        now apply (match_channel_none _ _ Hfound).
    + split; [intros id H; apply Hlift, IHok, H|].
      intros e H. destruct (IHerr e H) as [-> Hall].
      split; [reflexivity|].
      intros t Hin. apply elem_of_cons in Hin as [->|Hin]; [|now apply Hall].
      rewrite Hname, Hlist. split; discriminate.
Qed.

Lemma X15_team_search_witness :
  exists team, team ∈ [Team.mk "team1" "Team"]
    /\ ((exists ch, GetChannelByName folded_env (Team.Id team) "general" = Ok ch
                    /\ Channel.Id ch = "c2")
        \/ (exists channels ch,
              GetChannelsForTeamForUser folded_env (Team.Id team) "me"
              = Ok channels
              /\ ch ∈ channels /\ Channel.Id ch = "c2"
              /\ (EqualFold (Channel.Name ch) "general" = true
                  \/ EqualFold (Channel.DisplayName ch) "general" = true))).
Proof.
  apply (proj1 (X15_team_search folded_env "general"
                  [Team.mk "team1" "Team"]) "c2").
  reflexivity.
Defined.

(** X16: [getChannelID] changes nothing. Without a configured channel it
    fails with "default channel not configured", whatever the server
    would answer; a configured value that is the identifier of a channel
    wins over every channel of that name: the answer is the channel
    [GetChannel] returns, whatever the teams hold; otherwise the answer
    is that of the search through the teams. *)
Theorem X16_channel_by_identifier (w : World) :
  snd (getChannelID w) = w
  /\ (DefaultChannel (config w) = "" ->
      forall server,
        fst (getChannelID (with_env server w))
        = Err "default channel not configured")
  /\ (forall channel,
        DefaultChannel (config w) <> "" ->
        GetChannel (env w) (DefaultChannel (config w)) = Ok channel ->
        fst (getChannelID w) = Ok (Channel.Id channel))
  /\ (forall e,
        DefaultChannel (config w) <> "" ->
        GetChannel (env w) (DefaultChannel (config w)) = Err e ->
        fst (getChannelID w)
        = match GetTeams (env w) with
          | Err appErr => Err ("failed to get teams: " ++ appErr)
          | Ok teams => search_teams (env w) (DefaultChannel (config w)) teams
          end).
Proof.
  split; [now rewrite getChannelID_reads|].
  unfold getChannelID, bind, read, ret. cbv beta iota.
  split; [intros Hnone server; cbn [with_env config]; now rewrite Hnone|].
  split.
  - intros channel Hne Hget. apply String.eqb_neq in Hne.
    rewrite Hne. cbv beta iota. now rewrite Hget.
  - intros e Hne Hget. apply String.eqb_neq in Hne.
    rewrite Hne. cbv beta iota. rewrite Hget.
    destruct (GetTeams (env w)); reflexivity.
Qed.

Lemma X16_channel_by_identifier_witness :
  fst (getChannelID (sample_world "")) = Err "default channel not configured"
  /\ fst (getChannelID (sample_world "ops")) = Ok "ops".
Proof.
  split.
  - apply (proj1 (proj2 (X16_channel_by_identifier (sample_world "")))
             eq_refl sample_env).
  - apply (proj1 (proj2 (proj2 (X16_channel_by_identifier (sample_world "ops"))))
             (Channel.mk "ops" "ops" "Ops")); [discriminate|reflexivity].
Defined.

(** ** The action handler, further *)

(** X17: the action handler checks the request before it looks at the
    action: without the user header it answers 401; with it and a body
    that does not decode, 400 "Invalid request"; with a body that
    decodes and a user Mattermost does not know, 500 "Failed to get
    user". In the three cases nothing is called and nothing changes,
    whatever the action is. *)
Theorem X17_action_request_checks (r : Request) (incidentID action : string)
    (w : World) :
  (Header r "Mattermost-User-ID" = "" ->
     HandleIncidentAction r incidentID action w
     = (http_Error "Not authorized" StatusUnauthorized, w))
  /\ (Header r "Mattermost-User-ID" <> "" ->
      (forall e, decoded_action r = Err e ->
         HandleIncidentAction r incidentID action w
         = (http_Error "Invalid request" StatusBadRequest, w))
      /\ (forall payload e,
            decoded_action r = Ok payload ->
            GetUser (env w) (Header r "Mattermost-User-ID") = Err e ->
            HandleIncidentAction r incidentID action w
            = (http_Error "Failed to get user" StatusInternalServerError, w))).
Proof.
  unfold HandleIncidentAction, decoded_action. split.
  - intros ->. reflexivity.
  - intros Hne. apply String.eqb_neq in Hne. rewrite Hne. split.
    + intros e ->. reflexivity.
    + intros payload e -> Hu. unfold bind, read. cbv beta iota.
      now rewrite Hu.
Qed.

Lemma X17_action_request_checks_witness :
  HandleIncidentAction (action_request "" (action_body "INC1" "resolve" ""))
    "INC1" ActionResolve notified_world
  = (http_Error "Not authorized" StatusUnauthorized, notified_world)
  /\ HandleIncidentAction (action_request "user1" (JStr "resolve"))
       "INC1" ActionResolve notified_world
     = (http_Error "Invalid request" StatusBadRequest, notified_world)
  /\ HandleIncidentAction
       (action_request "stranger" (action_body "INC1" "resolve" ""))
       "INC1" ActionResolve notified_world
     = (http_Error "Failed to get user" StatusInternalServerError,
        notified_world).
Proof.
  split; [|split].
  - apply (proj1 (X17_action_request_checks
             (action_request "" (action_body "INC1" "resolve" ""))
             "INC1" ActionResolve notified_world)).
    reflexivity.
  - apply (proj1 (proj2 (X17_action_request_checks
             (action_request "user1" (JStr "resolve"))
             "INC1" ActionResolve notified_world) ltac:(discriminate))
             (Json.type_error "struct")).
    reflexivity.
  - apply (proj2 (proj2 (X17_action_request_checks
             (action_request "stranger" (action_body "INC1" "resolve" ""))
             "INC1" ActionResolve notified_world) ltac:(discriminate))
             (IncidentActionPayload.mk "INC1" "resolve" "user1" "")
             "user not found"); reflexivity.
Defined.

Lemma performReassign_effects (incidentID assigneeID userEmail : string)
    (w : World) :
  exists c,
    snd (performReassign incidentID assigneeID userEmail w) = record_call c w
    /\ (c = CallListUsers
        \/ c = CallAssignIncident incidentID [assigneeID] userEmail).
Proof.
  unfold performReassign.
  destruct (String.eqb assigneeID "fetch_users").
  - exists CallListUsers. unfold bind, pdClient.ListUsers. cbv beta iota.
    split; [destruct (ListUsers (env w)); reflexivity|now left].
  - exists (CallAssignIncident incidentID [assigneeID] userEmail).
    unfold bind, pdClient.AssignIncident. cbv beta iota.
    split; [destruct (AssignIncident (env w) _ _ _); reflexivity|now right].
Qed.

Lemma HandleIncidentAction_effects (r : Request) (incidentID action : string)
    (w : World) :
  snd (HandleIncidentAction r incidentID action w) = w
  \/ exists c,
       snd (HandleIncidentAction r incidentID action w) = record_call c w
       /\ ((exists email,
              c = CallUpdateIncident incidentID StatusAcknowledged email ""
              /\ action = ActionAcknowledge)
           \/ (exists email,
                 c = CallUpdateIncident incidentID StatusResolved email ""
                 /\ action = ActionResolve)
           \/ (c = CallListUsers /\ action = ActionReassign)
           \/ (exists assignee email,
                 c = CallAssignIncident incidentID [assignee] email
                 /\ action = ActionReassign)).
Proof.
  unfold HandleIncidentAction.
  destruct (String.eqb _ ""); [now left|].
  destruct (match BodyJSON r with Some _ => _ | None => _ end) as [payload|e];
    [|now left].
  unfold bind, read. cbv beta iota.
  destruct (GetUser _ _) as [user|e]; [|now left].
  destruct (String.eqb_spec action ActionAcknowledge) as [->|_].
  { right.
    exists (CallUpdateIncident incidentID StatusAcknowledged
              (ModelUser.Email user) "").
    unfold pdClient.UpdateIncident. cbv beta iota.
    split; [destruct (UpdateIncident (env w) incidentID StatusAcknowledged
                        (ModelUser.Email user) ""); reflexivity|].
    left. exists (ModelUser.Email user). now split. }
  destruct (String.eqb_spec action ActionResolve) as [->|_].
  { right.
    exists (CallUpdateIncident incidentID StatusResolved
              (ModelUser.Email user) "").
    unfold pdClient.UpdateIncident. cbv beta iota.
    split; [destruct (UpdateIncident (env w) incidentID StatusResolved
                        (ModelUser.Email user) ""); reflexivity|].
    right. left. exists (ModelUser.Email user). now split. }
  destruct (String.eqb_spec action ActionReassign) as [->|_]; [|now left].
  right.
  destruct (performReassign_effects incidentID
              (IncidentActionPayload.AssigneeID payload)
              (ModelUser.Email user) w) as (c & Hc & [->| ->]).
  - exists CallListUsers. split; [exact Hc|]. right. right. now left.
  - eexists. split; [exact Hc|]. right. right. right.
    exists (IncidentActionPayload.AssigneeID payload), (ModelUser.Email user).
    now split.
Qed.

(** X18: whatever the request and the action, one run of the action
    handler makes at most one call, and that call goes to PagerDuty: it
    never writes a post or a record, and the posts, the store and the
    configuration are as they were. The call is an update to
    "acknowledged" only for acknowledge, an update to "resolved" only
    for resolve, and a user list or an assignment only for reassign. *)
Theorem X18_action_effects (r : Request) (incidentID action : string)
    (w : World) :
  let w' := snd (HandleIncidentAction r incidentID action w) in
  kv w' = kv w /\ posts w' = posts w /\ config w' = config w
  /\ (calls w' = calls w
      \/ exists c,
           calls w' = (calls w ++ [c])%list
           /\ is_remote_call c = true
           /\ (call_name c = "UpdateIncident" ->
               (exists email,
                  c = CallUpdateIncident incidentID StatusAcknowledged email ""
                  /\ action = ActionAcknowledge)
               \/ (exists email,
                     c = CallUpdateIncident incidentID StatusResolved email ""
                     /\ action = ActionResolve))
           /\ (call_name c <> "UpdateIncident" -> action = ActionReassign)).
Proof.
  intros w'. subst w'.
  destruct (HandleIncidentAction_effects r incidentID action w)
    as [->|(c & -> & Hc)].
  - repeat split. now left.
  - unfold record_call. cbn [kv posts config calls].
    repeat split. right. exists c. split; [reflexivity|].
    destruct Hc as [(email & -> & ->)|[(email & -> & ->)|[[-> ->]|
                    (assignee & email & -> & ->)]]];
      cbn [is_remote_call call_name]; (split; [reflexivity|]); split;
      intros H; try discriminate H; try (now destruct H); try reflexivity.
    + left. now exists email.
    + right. now exists email.
Qed.

(** X19: of the body of an action request only the assignee is used.
    The incident and the action come from the route and the user from
    the header: two requests of the same user whose bodies decode and
    name the same assignee are handled alike, whatever incident, action
    and user their bodies name. *)
Theorem X19_body_is_not_trusted (r r' : Request) (incidentID action : string)
    (w : World) (payload payload' : IncidentActionPayload.t) :
  Header r "Mattermost-User-ID" = Header r' "Mattermost-User-ID" ->
  decoded_action r = Ok payload ->
  decoded_action r' = Ok payload' ->
  IncidentActionPayload.AssigneeID payload
    = IncidentActionPayload.AssigneeID payload' ->
  HandleIncidentAction r incidentID action w
  = HandleIncidentAction r' incidentID action w.
Proof.
  unfold decoded_action. intros Hh Hp Hp' Ha.
  unfold HandleIncidentAction. rewrite Hh, Hp, Hp', Ha. reflexivity.
Qed.

Lemma X19_body_is_not_trusted_witness :
  HandleIncidentAction
    (action_request "user1" (action_body "INC1" "acknowledge" ""))
    "INC1" ActionAcknowledge notified_world
  = HandleIncidentAction
      (action_request "user1" (action_body "INC9" "resolve" ""))
      "INC1" ActionAcknowledge notified_world.
Proof.
  apply (X19_body_is_not_trusted
           (action_request "user1" (action_body "INC1" "acknowledge" ""))
           (action_request "user1" (action_body "INC9" "resolve" ""))
           "INC1" ActionAcknowledge notified_world
           (IncidentActionPayload.mk "INC1" "acknowledge" "user1" "")
           (IncidentActionPayload.mk "INC9" "resolve" "user1" ""));
    reflexivity.
Defined.

(** X20: a reassign to an assignee other than "fetch_users" makes one
    call, [AssignIncident] with the incident, that one assignee and the
    e-mail address of the user, and does not list the users; the answer
    is success when PagerDuty applies it and 500 "Failed to assign
    incident" otherwise. The assignee is not checked: an empty one is
    sent as it is. *)
Theorem X20_reassign (incidentID assigneeID userEmail : string) (w : World) :
  assigneeID <> "fetch_users" ->
  performReassign incidentID assigneeID userEmail w
  = (match AssignIncident (env w) incidentID [assigneeID] userEmail with
     | Ok _ => success_response
     | Err _ =>
         http_Error "Failed to assign incident" StatusInternalServerError
     end,
     record_call (CallAssignIncident incidentID [assigneeID] userEmail) w).
Proof.
  intros Hne. apply String.eqb_neq in Hne.
  unfold performReassign. rewrite Hne.
  unfold bind, pdClient.AssignIncident. cbv beta iota.
  destruct (AssignIncident (env w) incidentID [assigneeID] userEmail);
    reflexivity.
Qed.

Lemma X20_reassign_witness :
  performReassign "INC1" "" "a@example.com" notified_world
  = (success_response,
     record_call (CallAssignIncident "INC1" [""] "a@example.com")
                 notified_world).
Proof.
  apply (X20_reassign "INC1" "" "a@example.com" notified_world).
  discriminate.
Defined.

(** X21: the three routes fix the action. Without an incident
    identifier each answers 400 "Missing incident ID" and does nothing;
    otherwise the acknowledge route can only update to "acknowledged"
    and the resolve route only to "resolved", whatever the body asks
    for, and neither lists users or assigns. *)
Theorem X21_routes (r : Request) (w : World) :
  handleAcknowledge r "" w
    = (http_Error "Missing incident ID" StatusBadRequest, w)
  /\ handleResolve r "" w
     = (http_Error "Missing incident ID" StatusBadRequest, w)
  /\ handleReassign r "" w
     = (http_Error "Missing incident ID" StatusBadRequest, w)
  /\ forall incidentID,
       (snd (handleAcknowledge r incidentID w) = w
        \/ exists email,
             snd (handleAcknowledge r incidentID w)
             = record_call (CallUpdateIncident incidentID StatusAcknowledged
                              email "") w)
       /\ (snd (handleResolve r incidentID w) = w
           \/ exists email,
                snd (handleResolve r incidentID w)
                = record_call (CallUpdateIncident incidentID StatusResolved
                                 email "") w).
Proof.
  split; [reflexivity|split; [reflexivity|split; [reflexivity|]]].
  intros incidentID. unfold handleAcknowledge, handleResolve, handleAction.
  destruct (String.eqb incidentID ""); [split; now left|].
  split.
  - destruct (HandleIncidentAction_effects r incidentID ActionAcknowledge w)
      as [H|(c & H & Hc)]; [now left|right].
    destruct Hc as [(email & -> & _)|[(email & _ & Hx)|[[_ Hx]|
                    (assignee & email & _ & Hx)]]];
      try discriminate Hx.
    now exists email.
  - destruct (HandleIncidentAction_effects r incidentID ActionResolve w)
      as [H|(c & H & Hc)]; [now left|right].
    destruct Hc as [(email & _ & Hx)|[(email & -> & _)|[[_ Hx]|
                    (assignee & email & _ & Hx)]]];
      try discriminate Hx.
    now exists email.
Qed.

(** ** The PagerDuty client over HTTP *)

Lemma setHeaders_authenticated (c : client.PagerDutyClient)
    (req : client.HTTPRequest) :
  client.authenticated c (client.setHeaders c req).
Proof.
  unfold client.authenticated, client.setHeaders, client.Header_Set.
  cbn [client.req_Header].
  split; [apply lookup_insert_eq|split].
  - rewrite lookup_insert_ne by discriminate. apply lookup_insert_eq.
  - do 2 (rewrite lookup_insert_ne by discriminate). apply lookup_insert_eq.
Qed.

Lemma set_From_authenticated (c : client.PagerDutyClient) (userEmail : string)
    (req : client.HTTPRequest) :
  client.authenticated c req ->
  client.authenticated c (client.set_From userEmail req).
Proof.
  unfold client.set_From. destruct (negb _); [|easy].
  unfold client.authenticated, client.Header_Set. cbn [client.req_Header].
  intros (Ha & Hb & Hc).
  rewrite !lookup_insert_ne by discriminate. now repeat split.
Qed.

(** What is left of a method once its request is built: send it and
    read the response. *)
Ltac client_method_sends :=
  unfold client.send; cbv zeta;
  match goal with
  | |- context [client.Do ?t ?r] =>
      destruct (client.Do t r) as [resp|err]; cbn [snd];
      [ destruct (negb _); [|destruct (client.decode_response _ _ _ _)] | ];
      cbn [snd]; right; exists r; (split; [reflexivity|])
  end.

(** X22: every method of the client sends at most one request, and
    every request it sends carries the API key of the client in its
    Authorization header, with the Accept and Content-Type headers of
    the PagerDuty API. *)
Theorem X22_requests_are_authenticated (Encode : client.Values -> string)
    (t : client.Transport) (c : client.PagerDutyClient) (sent : client.Wire) :
  (forall incidentID,
     client.at_most_one_authenticated c sent
       (snd (client.GetIncident t c incidentID sent)))
  /\ (forall params,
        client.at_most_one_authenticated c sent
          (snd (client.ListIncidents Encode t c params sent)))
  /\ (forall incidentID status userEmail note,
        client.at_most_one_authenticated c sent
          (snd (client.UpdateIncident t c incidentID status userEmail note
                  sent)))
  /\ (forall incidentID userIDs userEmail,
        client.at_most_one_authenticated c sent
          (snd (client.AssignIncident t c incidentID userIDs userEmail sent)))
  /\ client.at_most_one_authenticated c sent (snd (client.ListUsers t c sent))
  /\ client.at_most_one_authenticated c sent
       (snd (client.ListServices t c sent)).
Proof.
  unfold client.at_most_one_authenticated.
  repeat split; intros;
    unfold client.GetIncident, client.ListIncidents, client.UpdateIncident,
      client.AssignIncident, client.ListUsers, client.ListServices;
    cbv zeta;
    (destruct (client.NewRequest_error t _ _); [now left|]);
    client_method_sends;
    first [ apply setHeaders_authenticated
          | apply set_From_authenticated, setHeaders_authenticated ].
Qed.

(** X23: when the request can be built, [UpdateIncident] sends one PUT
    to the incident under https://api.pagerduty.com/incidents/, whose
    body names the new status; the From header is the address of the
    acting user when there is one and is absent otherwise, and the body
    carries a note exactly when the note is not empty. When the request
    cannot be built, nothing is sent. *)
Theorem X23_update_request (t : client.Transport) (c : client.PagerDutyClient)
    (incidentID status userEmail note : string) (sent : client.Wire) :
  let url := "https://api.pagerduty.com/incidents/" ++ incidentID in
  let result :=
    client.UpdateIncident t c incidentID status userEmail note sent in
  (forall e, client.NewRequest_error t "PUT" url = Some e ->
     result = (Err ("failed to create request: " ++ e), sent))
  /\ (client.NewRequest_error t "PUT" url = None ->
      exists req,
        snd result = (sent ++ [req])%list
        /\ client.req_Method req = "PUT"
        /\ client.req_URL req = url
        /\ client.req_Header req !! "From"
           = (if String.eqb userEmail "" then None else Some userEmail)
        /\ client.req_Body req
           = Some (JObj
               ([("incident",
                  JObj [("status", JStr status);
                        ("type", JStr "incident_reference")])]
                ++ (if String.eqb note "" then []
                    else [("note", JObj [("content", JStr note)])]))%list)).
Proof.
  intros url result. subst url result.
  unfold client.UpdateIncident. cbv zeta.
  change (client.pagerDutyAPIBaseURL ++ client.incidentsEndpoint ++ "/"
          ++ incidentID)
    with ("https://api.pagerduty.com/incidents/" ++ incidentID).
  split.
  - intros e ->. reflexivity.
  - intros ->. unfold client.send; cbv zeta.
    match goal with
    | |- context [client.Do t ?r] =>
        exists r; split;
        [destruct (client.Do t r) as [resp|err];
         [destruct (negb _); [|destruct (client.decode_response _ _ _ _)]|];
         reflexivity|]
    end.
    unfold client.set_From, client.update_payload.
    destruct (String.eqb userEmail ""); destruct (String.eqb note "");
      cbn [negb]; repeat split.
Qed.

Lemma X23_update_request_witness :
  exists req,
    snd (client.UpdateIncident
           (answering (ok_response (JObj []))) sample_client
           "INC1" "acknowledged" "" "" [])
    = ([] ++ [req])%list
    /\ client.req_Method req = "PUT"
    /\ client.req_URL req = "https://api.pagerduty.com/incidents/" ++ "INC1"
    /\ client.req_Header req !! "From" = None
    /\ client.req_Body req
       = Some (JObj [("incident",
                      JObj [("status", JStr "acknowledged");
                            ("type", JStr "incident_reference")])]).
Proof.
  apply (proj2 (X23_update_request
                  (answering (ok_response (JObj []))) sample_client
                  "INC1" "acknowledged" "" "" [])).
  reflexivity.
Defined.

(** X24: a response whose status is not 200 is an error for every
    method, whatever its body: the error quotes the body and the status,
    and the body is not decoded. *)
Theorem X24_status_errors (Encode : client.Values -> string)
    (t : client.Transport) (c : client.PagerDutyClient)
    (resp : client.HTTPResponse) (sent : client.Wire) :
  (forall method url, client.NewRequest_error t method url = None) ->
  (forall req, client.Do t req = Ok resp) ->
  client.resp_StatusCode resp <> 200 ->
  let tail :=
    ": " ++ client.resp_Body resp ++ ", status: "
    ++ pretty (client.resp_StatusCode resp) in
  (forall incidentID,
     fst (client.GetIncident t c incidentID sent)
     = Err ("failed to get incident" ++ tail))
  /\ (forall params,
        fst (client.ListIncidents Encode t c params sent)
        = Err ("failed to list incidents" ++ tail))
  /\ (forall incidentID status userEmail note,
        fst (client.UpdateIncident t c incidentID status userEmail note sent)
        = Err ("failed to update incident" ++ tail))
  /\ (forall incidentID userIDs userEmail,
        fst (client.AssignIncident t c incidentID userIDs userEmail sent)
        = Err ("failed to assign incident" ++ tail))
  /\ fst (client.ListUsers t c sent) = Err ("failed to list users" ++ tail)
  /\ fst (client.ListServices t c sent)
     = Err ("failed to list services" ++ tail).
Proof.
  intros Hnew Hdo Hcode tail. subst tail.
  apply Z.eqb_neq in Hcode.
  repeat split; intros;
    unfold client.GetIncident, client.ListIncidents, client.UpdateIncident,
      client.AssignIncident, client.ListUsers, client.ListServices,
      client.send;
    cbv zeta; rewrite Hnew, Hdo; unfold StatusOK; rewrite Hcode; reflexivity.
Qed.

Lemma X24_status_errors_witness :
  fst (client.GetIncident
         (answering (client.mkHTTPResponse 404 "Not Found" None))
         sample_client "INC1" [])
  = Err ("failed to get incident" ++ ": " ++ "Not Found" ++ ", status: "
         ++ pretty 404).
Proof.
  apply (X24_status_errors (fun _ => "")
           (answering (client.mkHTTPResponse 404 "Not Found" None))
           sample_client (client.mkHTTPResponse 404 "Not Found" None) []);
    [reflexivity|reflexivity|discriminate].
Defined.

Lemma decode_incident_response (i : Incident.t) :
  client.decode_response "incident" Json.incident Incident.zero
    (ok_response (JObj [("incident", Json.of_incident i)]))
  = Ok i.
Proof.
  unfold client.decode_response, ok_response. cbn [client.resp_JSON].
  lazy -[Json.incident Json.of_incident]. apply incident_roundtrip.
Qed.

(** X25: an incident comes back from the client as PagerDuty wrote it:
    when the server answers 200 with an object whose member "incident"
    encodes an incident, [GetIncident], [UpdateIncident] and
    [AssignIncident] return that incident. *)
Theorem X25_incident_comes_back (t : client.Transport)
    (c : client.PagerDutyClient) (i : Incident.t) (sent : client.Wire) :
  (forall method url, client.NewRequest_error t method url = None) ->
  (forall req,
     client.Do t req
     = Ok (ok_response (JObj [("incident", Json.of_incident i)]))) ->
  (forall incidentID, fst (client.GetIncident t c incidentID sent) = Ok i)
  /\ (forall incidentID status userEmail note,
        fst (client.UpdateIncident t c incidentID status userEmail note sent)
        = Ok i)
  /\ (forall incidentID userIDs userEmail,
        fst (client.AssignIncident t c incidentID userIDs userEmail sent)
        = Ok i).
Proof.
  intros Hnew Hdo.
  repeat split; intros;
    unfold client.GetIncident, client.UpdateIncident, client.AssignIncident,
      client.send;
    cbv zeta; rewrite Hnew, Hdo;
    change (negb (Z.eqb (client.resp_StatusCode (ok_response
              (JObj [("incident", Json.of_incident i)]))) StatusOK))
      with false;
    cbv iota; rewrite decode_incident_response; reflexivity.
Qed.

Lemma X25_incident_comes_back_witness :
  fst (client.GetIncident
         (answering (ok_response
            (JObj [("incident", Json.of_incident (sample_incident "resolved"))])))
         sample_client "INC1" [])
  = Ok (sample_incident "resolved").
Proof.
  apply (X25_incident_comes_back
           (answering (ok_response
              (JObj [("incident",
                      Json.of_incident (sample_incident "resolved"))])))
           sample_client (sample_incident "resolved") []);
    reflexivity.
Defined.

Lemma decode_response_without_member {T} (tag : string)
    (field : json -> T -> result T) (zero : T)
    (members : list (string * json)) :
  (forall k v, (k, v) ∈ members -> Json.tagged k tag = false) ->
  client.decode_response tag field zero (ok_response (JObj members)) = Ok zero.
Proof.
  unfold client.decode_response, ok_response, Json.struct_.
  cbn [client.resp_JSON]. generalize zero.
  induction members as [|[k v] members IH]; intros cur H; [reflexivity|].
  cbn [fold_left rbind fst snd].
  rewrite (H k v) by apply list_elem_of_here.
  apply IH. intros k' v' Hin. apply (H k' v'). now apply list_elem_of_further.
Qed.

Lemma not_tagged_incident (k : string) :
  EqualFold k "incident" = false -> Json.tagged k "incident" = false.
Proof.
  intros H. unfold Json.tagged.
  change (Json.foldName "incident") with "incident".
  rewrite (foldName_plain "incident" k eq_refl). exact H.
Qed.

(** X26: a 200 response that is an object without the member "incident"
    is not an error: [GetIncident], [UpdateIncident] and
    [AssignIncident] return the zero incident, with an empty
    identifier. *)
Theorem X26_missing_incident_member (t : client.Transport)
    (c : client.PagerDutyClient) (members : list (string * json))
    (sent : client.Wire) :
  (forall method url, client.NewRequest_error t method url = None) ->
  (forall req, client.Do t req = Ok (ok_response (JObj members))) ->
  (forall k v, (k, v) ∈ members -> EqualFold k "incident" = false) ->
  (forall incidentID,
     fst (client.GetIncident t c incidentID sent) = Ok Incident.zero)
  /\ (forall incidentID status userEmail note,
        fst (client.UpdateIncident t c incidentID status userEmail note sent)
        = Ok Incident.zero)
  /\ (forall incidentID userIDs userEmail,
        fst (client.AssignIncident t c incidentID userIDs userEmail sent)
        = Ok Incident.zero).
Proof.
  intros Hnew Hdo Hno.
  repeat split; intros;
    unfold client.GetIncident, client.UpdateIncident, client.AssignIncident,
      client.send;
    cbv zeta; rewrite Hnew, Hdo;
    change (negb (Z.eqb (client.resp_StatusCode (ok_response (JObj members)))
                        StatusOK))
      with false;
    cbv iota;
    rewrite (decode_response_without_member _ _ _ _
               (fun k v Hin => not_tagged_incident k (Hno k v Hin)));
    reflexivity.
Qed.

Lemma X26_missing_incident_member_witness :
  fst (client.GetIncident
         (answering (ok_response (JObj [("error", JStr "gone")])))
         sample_client "INC1" [])
  = Ok Incident.zero.
Proof.
  apply (X26_missing_incident_member
           (answering (ok_response (JObj [("error", JStr "gone")])))
           sample_client [("error", JStr "gone")] []);
    [reflexivity|reflexivity|].
  intros k v H. apply elem_of_cons in H as [H|H].
  - injection H as -> _. reflexivity.
  - apply elem_of_nil in H. destruct H.
Defined.

(** ** The slash commands *)

Lemma append_assoc (a b c : string) : (a ++ b) ++ c = a ++ b ++ c.
Proof.
  induction a as [|x a IH]; [reflexivity|].
  change (String x ((a ++ b) ++ c) = String x (a ++ b ++ c)).
  now rewrite IH.
Qed.

Lemma append_nil_r (a : string) : a ++ "" = a.
Proof.
  induction a as [|x a IH]; [reflexivity|].
  change (String x (a ++ "") = String x a). now rewrite IH.
Qed.

Lemma concat_cons (x : string) (l : list string) :
  String.concat "" (x :: l) = x ++ String.concat "" l.
Proof.
  destruct l as [|y l]; [symmetry; apply append_nil_r|reflexivity].
Qed.

Lemma fold_rows {A} (f : A -> string) (l : list A) (text : string) :
  fold_left (fun text x => text ++ f x) l text
  = text ++ String.concat "" (map f l).
Proof.
  revert text. induction l as [|x l IH]; intros text.
  - cbn [fold_left map String.concat]. now rewrite append_nil_r.
  - cbn [fold_left map]. rewrite IH, concat_cons, append_assoc. reflexivity.
Qed.

Lemma fold_kept {A} (m : A -> bool) (l kept : list A) :
  fold_left (fun kept x => if m x then (kept ++ [x])%list else kept) l kept
  = (kept ++ List.filter m l)%list.
Proof.
  revert kept. induction l as [|x l IH]; intros kept.
  - cbn [fold_left List.filter]. now rewrite app_nil_r.
  - cbn [fold_left List.filter]. rewrite IH. destruct (m x); [|reflexivity].
    now rewrite <- app_assoc.
Qed.

Lemma Atoi_10 : Atoi "10" = Some 10%Z.
Proof. reflexivity. Qed.

Lemma consistent_start :
  consistent
    (command.mkFilters (client.Values_Set "limit" "10" ∅) "" "" "").
Proof.
  unfold consistent, filter_sent, only_list_options, limit_in_range,
    client.Values_Set, client.Values.
  cbn [command.options command.status command.service command.urgency].
  split; [|split; [|split; [|split]]].
  - exists "10", 10%Z. rewrite lookup_insert_eq, Atoi_10. repeat split; lia.
  - left. now rewrite lookup_insert_ne by discriminate.
  - left. now rewrite lookup_insert_ne by discriminate.
  - left. now rewrite lookup_insert_ne by discriminate.
  - intros key H _ _ _. rewrite lookup_insert_ne by congruence. apply lookup_empty.
Qed.

Lemma filter_sent_other (key key' value value' : string) (v : client.Values) :
  key' <> key -> filter_sent key value v ->
  filter_sent key value (client.Values_Set key' value' v).
Proof.
  intros Hne H. unfold filter_sent, client.Values_Set, client.Values in *.
  now rewrite lookup_insert_ne.
Qed.

Lemma filter_sent_set (key value : string) (v : client.Values) :
  filter_sent key value (client.Values_Set key value v).
Proof. right. apply (lookup_insert_eq (M := gmap string)). Qed.

Lemma limit_in_range_other (key value : string) (v : client.Values) :
  key <> "limit" -> limit_in_range v ->
  limit_in_range (client.Values_Set key value v).
Proof.
  intros Hne (x & n & H). exists x, n.
  unfold client.Values_Set, client.Values in *.
  now rewrite lookup_insert_ne.
Qed.

Lemma only_list_options_set (key value : string) (v : client.Values) :
  key ∈ ["limit"; "statuses[]"; "service_ids[]"; "urgencies[]"] ->
  only_list_options v -> only_list_options (client.Values_Set key value v).
Proof.
  intros Hin H k H1 H2 H3 H4.
  unfold only_list_options, client.Values_Set, client.Values in *.
  rewrite lookup_insert_ne; [now apply H|].
  intros ->. repeat (apply elem_of_cons in Hin as [Hin|Hin]; [congruence|]).
  now apply elem_of_nil in Hin.
Qed.

Lemma read_param_consistent (f : command.Filters) (param : string) :
  consistent f -> consistent (command.read_param f param).
Proof.
  intros Hf. pose proof Hf as (Hlimit & Hstatus & Hservice & Hurgency & Honly).
  unfold command.read_param.
  destruct (SplitN_eq_2 param) as [|k [|value [|]]]; try exact Hf.
  destruct (String.eqb (ToLower k) "limit").
  { destruct (Atoi value) as [limit|] eqn:Hvalue; [|exact Hf].
    destruct ((0 <? limit)%Z && (limit <=? 25)%Z) eqn:Hrange; [|exact Hf].
    apply andb_true_iff in Hrange as [H0 H25].
    apply Z.ltb_lt in H0. apply Z.leb_le in H25.
    unfold consistent.
    cbn [command.options command.status command.service command.urgency].
    split; [|split; [|split; [|split]]].
    - exists value, limit. unfold client.Values_Set, client.Values.
      rewrite lookup_insert_eq. repeat split; [assumption|lia|lia].
    - apply filter_sent_other; [discriminate|assumption].
    - apply filter_sent_other; [discriminate|assumption].
    - apply filter_sent_other; [discriminate|assumption].
    - apply only_list_options_set; [|assumption]. apply list_elem_of_here. }
  destruct (String.eqb (ToLower k) "status").
  { unfold consistent.
    cbn [command.options command.status command.service command.urgency].
    split; [|split; [|split; [|split]]].
    - apply limit_in_range_other; [discriminate|assumption].
    - apply filter_sent_set.
    - apply filter_sent_other; [discriminate|assumption].
    - apply filter_sent_other; [discriminate|assumption].
    - apply only_list_options_set; [|assumption].
      apply list_elem_of_further, list_elem_of_here. }
  destruct (String.eqb (ToLower k) "service").
  { unfold consistent.
    cbn [command.options command.status command.service command.urgency].
    split; [|split; [|split; [|split]]].
    - apply limit_in_range_other; [discriminate|assumption].
    - apply filter_sent_other; [discriminate|assumption].
    - apply filter_sent_set.
    - apply filter_sent_other; [discriminate|assumption].
    - apply only_list_options_set; [|assumption].
      apply list_elem_of_further, list_elem_of_further, list_elem_of_here. }
  destruct (String.eqb (ToLower k) "urgency"); [|exact Hf].
  unfold consistent.
  cbn [command.options command.status command.service command.urgency].
  split; [|split; [|split; [|split]]].
  - apply limit_in_range_other; [discriminate|assumption].
  - apply filter_sent_other; [discriminate|assumption].
  - apply filter_sent_other; [discriminate|assumption].
  - apply filter_sent_set.
  - apply only_list_options_set; [|assumption].
    apply list_elem_of_further, list_elem_of_further, list_elem_of_further,
      list_elem_of_here.
Qed.

Lemma fold_read_param_consistent (params : list string) (f : command.Filters) :
  consistent f -> consistent (fold_left command.read_param params f).
Proof.
  revert f. induction params as [|param params IH]; intros f Hf; [exact Hf|].
  cbn [fold_left]. apply IH, read_param_consistent, Hf.
Qed.

(** X27: whatever parameters a user gives to the list command, the
    options sent to PagerDuty hold one limit, which reads as a number
    from 1 to 25; for each of the status, service and urgency filters,
    either the option is not sent and the command filters nothing, or
    the option sent holds exactly the value the command filters the
    answer by; and no other option is sent. *)
Theorem X27_list_options (params : list string) :
  let f := command.read_params params in
  limit_in_range (command.options f)
  /\ filter_sent "statuses[]" (command.status f) (command.options f)
  /\ filter_sent "service_ids[]" (command.service f) (command.options f)
  /\ filter_sent "urgencies[]" (command.urgency f) (command.options f)
  /\ only_list_options (command.options f).
Proof.
  apply (fold_read_param_consistent params), consistent_start.
Qed.

Lemma listIncidentsCommand_listed (Encode : client.Values -> string)
    (Title : string -> string)
    (t : client.Transport) (c : client.PagerDutyClient)
    (params : list string) (sent sent' : client.Wire)
    (incidents : list Incident.t) :
  client.ListIncidents Encode t c
    (command.options (command.read_params params)) sent
  = (Ok incidents, sent') ->
  command.listIncidentsCommand Encode Title t c params sent
  = (command.mkCommandResponse command.CommandResponseTypeInChannel
       (("### PagerDuty Incidents" ++ newline ++ newline)
        ++ match List.filter (command.matches (command.read_params params))
                   incidents with
           | [] => "No incidents found matching your criteria."
           | shown =>
               "| # | Status | Service | Title | Assigned To |" ++ newline
               ++ "| --- | --- | --- | --- | --- |" ++ newline
               ++ String.concat "" (map (command.row Title) shown)
           end),
     sent').
Proof.
  intros Hlist. unfold command.listIncidentsCommand. cbv zeta.
  rewrite Hlist, fold_kept. cbn [app].
  destruct (List.filter _ incidents) as [|i shown]; [reflexivity|].
  cbn [length Nat.eqb]. rewrite fold_rows, !append_assoc. reflexivity.
Qed.

(** X28: when PagerDuty answers the list command with incidents, the
    command answers in the channel with the heading and one table row
    for each incident that passes the user's status, service and urgency
    filters, in the order PagerDuty gave them, or with "No incidents
    found matching your criteria." when none passes; when the listing
    fails the answer is ephemeral and quotes the error. In both cases
    the command sends what the listing sends. This holds whatever
    [url.Values.Encode] and [cases.Title] compute. *)
Theorem X28_list_answer (Encode : client.Values -> string)
    (Title : string -> string)
    (t : client.Transport) (c : client.PagerDutyClient)
    (params : list string) (sent sent' : client.Wire)
    (r : result (list Incident.t)) :
  client.ListIncidents Encode t c
    (command.options (command.read_params params)) sent
  = (r, sent') ->
  command.listIncidentsCommand Encode Title t c params sent
  = (match r with
     | Err err =>
         command.mkCommandResponse command.CommandResponseTypeEphemeral
           ("Error getting incidents: " ++ err)
     | Ok incidents =>
         command.mkCommandResponse command.CommandResponseTypeInChannel
           (("### PagerDuty Incidents" ++ newline ++ newline)
            ++ match List.filter
                       (command.matches (command.read_params params))
                       incidents with
               | [] => "No incidents found matching your criteria."
               | shown =>
                   "| # | Status | Service | Title | Assigned To |" ++ newline
                   ++ "| --- | --- | --- | --- | --- |" ++ newline
                   ++ String.concat "" (map (command.row Title) shown)
               end)
     end, sent').
Proof.
  intros Hlist. destruct r as [incidents|err].
  - now apply listIncidentsCommand_listed.
  - unfold command.listIncidentsCommand. cbv zeta. now rewrite Hlist.
Qed.

Lemma X28_list_answer_witness :
  command.listIncidentsCommand client.Values_Encode Title
    (listing [sample_incident "triggered"; sample_incident "resolved"])
    sample_client ["status=triggered"; "LIMIT=5"; "limit=50"; "oops"] []
  = (command.mkCommandResponse command.CommandResponseTypeInChannel
       (("### PagerDuty Incidents" ++ newline ++ newline)
        ++ "| # | Status | Service | Title | Assigned To |" ++ newline
        ++ "| --- | --- | --- | --- | --- |" ++ newline
        ++ "| [#42](https://example.pagerduty.com/incidents/INC1) "
        ++ "| Triggered | Database | Database is down | Unassigned |"
        ++ newline),
     [get_request sample_client
        ("https://api.pagerduty.com/incidents"
         ++ "?limit=5&statuses%5B%5D=triggered")]).
Proof.
  apply (X28_list_answer client.Values_Encode Title
           (listing [sample_incident "triggered"; sample_incident "resolved"])
           sample_client ["status=triggered"; "LIMIT=5"; "limit=50"; "oops"]
           [] [get_request sample_client
                 ("https://api.pagerduty.com/incidents"
                  ++ "?limit=5&statuses%5B%5D=triggered")]
           (Ok [sample_incident "triggered"; sample_incident "resolved"])).
  vm_compute. reflexivity.
Defined.

Lemma incidents_roundtrip (l : list Incident.t) (cur : list Incident.t) :
  Json.slice_ Json.incident Incident.zero (JArr (map Json.of_incident l)) cur
  = Ok l.
Proof.
  cbn [Json.slice_]. induction l as [|i l IH]; [reflexivity|].
  cbn [map Json.elements]. rewrite incident_roundtrip, IH. reflexivity.
Qed.

Lemma decode_incidents_response (l : list Incident.t) :
  client.decode_response "incidents"
    (Json.slice_ Json.incident Incident.zero) []
    (ok_response (JObj [("incidents", JArr (map Json.of_incident l))]))
  = Ok l.
Proof.
  unfold client.decode_response, ok_response. cbn [client.resp_JSON].
  lazy -[Json.slice_ Json.incident Json.of_incident map].
  apply incidents_roundtrip.
Qed.

Lemma ListIncidents_listing (Encode : client.Values -> string)
    (c : client.PagerDutyClient) (l : list Incident.t)
    (params : client.Values) (sent : client.Wire) :
  client.ListIncidents Encode (listing l) c params sent
  = (Ok l,
     (sent ++ [get_request c
                 (client.pagerDutyAPIBaseURL ++ client.incidentsEndpoint
                  ++ "?" ++ Encode params)])%list).
Proof.
  unfold client.ListIncidents, client.send, listing, answering. cbv zeta.
  cbn [client.NewRequest_error client.Do].
  change (negb (Z.eqb (client.resp_StatusCode (ok_response
            (JObj [("incidents", JArr (map Json.of_incident l))]))) StatusOK))
    with false.
  cbv iota. rewrite decode_incidents_response. reflexivity.
Qed.

Lemma GetIncident_answering (c : client.PagerDutyClient) (i : Incident.t)
    (incidentID : string) (sent : client.Wire) :
  client.GetIncident
    (answering (ok_response (JObj [("incident", Json.of_incident i)])))
    c incidentID sent
  = (Ok i,
     (sent ++ [get_request c
                 (client.pagerDutyAPIBaseURL ++ client.incidentsEndpoint
                  ++ "/" ++ incidentID)])%list).
Proof.
  unfold client.GetIncident, client.send, answering. cbv zeta.
  cbn [client.NewRequest_error client.Do].
  change (negb (Z.eqb (client.resp_StatusCode (ok_response
            (JObj [("incident", Json.of_incident i)]))) StatusOK))
    with false.
  cbv iota. rewrite decode_incident_response. reflexivity.
Qed.

Lemma Atoi_letter (c : ascii) (r : string) :
  is_letter c = true -> Atoi (String c r) = None.
Proof.
  destruct c as [[] [] [] [] [] [] [] []]; intros H;
    try discriminate H; reflexivity.
Qed.

(** X29: the get command sends at most one request, and which one is
    decided by [strconv.Atoi] alone: an identifier that reads as a
    number is looked up through the listing with the option
    incident_number set to that number as [strconv.Itoa] writes it, and
    never through the incident's own URL; any other identifier is asked
    for at the incident URL. An identifier that starts with a letter is
    always of the second kind. Nothing is sent when the request cannot
    be built. *)
Theorem X29_get_request (Encode : client.Values -> string)
    (Title : string -> string) (t : client.Transport)
    (c : client.PagerDutyClient) (incidentIdentifier : string)
    (sent : client.Wire) :
  let url :=
    match Atoi incidentIdentifier with
    | Some incidentNumber =>
        client.pagerDutyAPIBaseURL ++ client.incidentsEndpoint ++ "?"
        ++ Encode (client.Values_Set "incident_number" (Itoa incidentNumber) ∅)
    | None =>
        client.pagerDutyAPIBaseURL ++ client.incidentsEndpoint ++ "/"
        ++ incidentIdentifier
    end in
  snd (command.getIncidentCommand Encode Title t c incidentIdentifier sent)
  = match client.NewRequest_error t "GET" url with
    | Some _ => sent
    | None => (sent ++ [get_request c url])%list
    end
  /\ (forall letter rest,
        incidentIdentifier = String letter rest -> is_letter letter = true ->
        url = client.pagerDutyAPIBaseURL ++ client.incidentsEndpoint ++ "/"
              ++ incidentIdentifier).
Proof.
  cbv zeta. split.
  - unfold command.getIncidentCommand.
    destruct (Atoi incidentIdentifier) as [incidentNumber|].
    + unfold client.ListIncidents, client.send. cbv zeta.
      destruct (client.NewRequest_error t "GET" _); [reflexivity|].
      destruct (client.Do t _) as [resp|err]; [|reflexivity].
      destruct (negb _); [reflexivity|].
      destruct (client.decode_response _ _ _ _) as [[|i l]|err]; reflexivity.
    + unfold client.GetIncident, client.send. cbv zeta.
      destruct (client.NewRequest_error t "GET" _); [reflexivity|].
      destruct (client.Do t _) as [resp|err]; [|reflexivity].
      destruct (negb _); [reflexivity|].
      destruct (client.decode_response _ _ _ _) as [i|err]; reflexivity.
  - intros letter rest -> Hletter. now rewrite Atoi_letter.
Qed.

(** X30: what the get command answers. A lookup by number shows the
    first incident of the listing and ignores the others, with the same
    text as a lookup by ID that returns this incident, both in the
    channel; a listing without incidents is answered, to the user only,
    with "No incident found with number: n". *)
Theorem X30_get_answer (Encode : client.Values -> string)
    (Title : string -> string) (c : client.PagerDutyClient)
    (number id : string) (n : Z) (i : Incident.t) (others : list Incident.t)
    (sent : client.Wire) :
  Atoi number = Some n -> Atoi id = None ->
  fst (command.getIncidentCommand Encode Title (listing (i :: others)) c
         number sent)
  = command.mkCommandResponse command.CommandResponseTypeInChannel
      (command.incident_text Title i)
  /\ fst (command.getIncidentCommand Encode Title
            (answering (ok_response (JObj [("incident", Json.of_incident i)])))
            c id sent)
     = command.mkCommandResponse command.CommandResponseTypeInChannel
         (command.incident_text Title i)
  /\ fst (command.getIncidentCommand Encode Title (listing []) c number sent)
     = command.mkCommandResponse command.CommandResponseTypeEphemeral
         ("No incident found with number: " ++ pretty n).
Proof.
  intros Hnumber Hid. unfold command.getIncidentCommand.
  rewrite Hnumber, Hid, !ListIncidents_listing, GetIncident_answering.
  repeat split.
Qed.

Lemma X30_get_answer_witness :
  fst (command.getIncidentCommand client.Values_Encode Title
         (listing [sample_incident "triggered"; sample_incident "resolved"])
         sample_client "+42" [])
  = command.mkCommandResponse command.CommandResponseTypeInChannel
      ("### PagerDuty Incident #42: Database is down" ++ newline ++ newline
       ++ "**Status:** Triggered" ++ newline
       ++ "**Urgency:** High" ++ newline
       ++ "**Service:** Database" ++ newline
       ++ "**Assigned To:** Unassigned" ++ newline
       ++ "**Created:** 2024-05-01T10:00:00Z" ++ newline
       ++ newline ++ "**Description:**" ++ newline
       ++ newline ++ newline
       ++ "[View in PagerDuty](https://example.pagerduty.com/incidents/INC1)").
Proof.
  apply (X30_get_answer client.Values_Encode Title sample_client
           "+42" "PINC1" 42 (sample_incident "triggered")
           [sample_incident "resolved"] []); reflexivity.
Defined.

Lemma X29_get_request_witness :
  snd (command.getIncidentCommand sample_encode (fun time => time)
         (listing []) sample_client "007" [])
  = [get_request sample_client
       "https://api.pagerduty.com/incidents?incident_number=7"].
Proof.
  exact (proj1 (X29_get_request sample_encode (fun time => time) (listing [])
                  sample_client "007" [])).
Defined.
